(** * Metal price analyzer: the loader and the filter engine of [app.py]

    A shallow embedding of [load_and_process_data] and [filter_data],
    and the properties the specification states about them.

    - Text is ASCII ([string] holds bytes) and timestamps carry no time
      zone. Exceptions are kept by class.
    - A data frame is column oriented, as pandas stores it: an index of
      row labels and an ordered list of labelled, typed columns.
    - [filter_data] receives a reference to a frame and runs in a store
      of frames, so that a copy, an alias and a mutation can be told
      apart. The loader works on frames no one else holds and is written
      on values.
    - What the loader calls outside the repository ([os.path.exists],
      [pd.read_csv], [pd.to_datetime] on a column, the number parser
      behind [pd.to_numeric]) is a parameter, the class [Platform]. The
      operations of pandas on frames (label lookup, assignment and
      removal of a column, boolean indexing, [sort_values],
      [reset_index]) are written out.

    Contents: the definitions, a small platform with sample tables, the
    lemmas, then the theorems on the filter engine and on the loader. *)

From Stdlib Require Import ZArith QArith Bool String Ascii List Lia.
From Stdlib Require Import Sorted Permutation RelationClasses.
Import ListNotations.

Local Open Scope string_scope.
Local Open Scope list_scope.
Local Open Scope Z_scope.

(* ================================================================== *)
(** ** Exceptions *)

Inductive exn :=
| KeyError
| ValueError
| TypeError
| AttributeError
| IndexError
| OSError
| ReferenceError.

Inductive result (A : Type) :=
| Ok (a : A)
| Raise (e : exn).

Arguments Ok {A} a.
Arguments Raise {A} e.

Definition rbind {A B} (r : result A) (k : A -> result B) : result B :=
  match r with
  | Ok a => k a
  | Raise e => Raise e
  end.

Declare Scope result_scope.
Delimit Scope result_scope with result.
Notation "x <- e ; k" := (rbind e (fun x => k))
  (at level 61, e at next level, right associativity) : result_scope.

(** [try: body except Exception: handler]. *)
Definition try_except {A} (body : result A) (handler : exn -> result A)
  : result A :=
  match body with
  | Ok a => Ok a
  | Raise e => handler e
  end.

(* ================================================================== *)
(** ** Python strings *)

(** Texts are ASCII, as are the headers, the month names and the entries
    of the selectors. *)

Module PyStr.

(** [str.isspace] on ASCII: tab to carriage return, the four separators
    28..31, and the blank. *)
Definition is_space (c : ascii) : bool :=
  let n := nat_of_ascii c in
  (((9 <=? n) && (n <=? 13)) || ((28 <=? n) && (n <=? 32)))%nat.

Fixpoint lstrip (s : string) : string :=
  match s with
  | EmptyString => EmptyString
  | String c s' => if is_space c then lstrip s' else s
  end.

Fixpoint rev_append (s acc : string) : string :=
  match s with
  | EmptyString => acc
  | String c s' => rev_append s' (String c acc)
  end.

Definition rev (s : string) : string := rev_append s EmptyString.

Definition rstrip (s : string) : string := rev (lstrip (rev s)).

(** [s.strip()]. *)
Definition strip (s : string) : string := rstrip (lstrip s).

Definition lower_ascii (c : ascii) : ascii :=
  let n := nat_of_ascii c in
  if ((65 <=? n) && (n <=? 90))%nat then ascii_of_nat (n + 32) else c.

(** [s.lower()]. *)
Fixpoint lower (s : string) : string :=
  match s with
  | EmptyString => EmptyString
  | String c s' => String (lower_ascii c) (lower s')
  end.

(** Truth value of a string: the empty string is false. *)
Definition truthy (s : string) : bool := negb (s =? "")%string.

Definition digit (c : ascii) : option Z :=
  let n := nat_of_ascii c in
  if ((48 <=? n) && (n <=? 57))%nat then Some (Z.of_nat n - 48) else None.

(** Decimal digits with single underscores between them. [seen] tells
    whether the previous character was a digit. *)
Fixpoint digits (s : string) (acc : Z) (seen : bool) : option Z :=
  match s with
  | EmptyString => if seen then Some acc else None
  | String c s' =>
      if (c =? "_")%char then
        if seen then digits s' acc false else None
      else
        match digit c with
        | Some d => digits s' (10 * acc + d) true
        | None => None
        end
  end.

(** The blanks [int()] skips around an ASCII text: tab to carriage
    return, and the blank. The separators 28..31, which [strip] removes,
    are not among them. *)
Definition is_c_space (c : ascii) : bool :=
  let n := nat_of_ascii c in
  (((9 <=? n) && (n <=? 13)) || (n =? 32))%nat.

Fixpoint int_lstrip (s : string) : string :=
  match s with
  | EmptyString => EmptyString
  | String c s' => if is_c_space c then int_lstrip s' else s
  end.

Definition int_strip (s : string) : string :=
  rev (int_lstrip (rev (int_lstrip s))).

(** The number of digits in a text. *)
Fixpoint count_digits (s : string) : Z :=
  match s with
  | EmptyString => 0
  | String c s' =>
      match digit c with
      | Some _ => 1 + count_digits s'
      | None => count_digits s'
      end
  end.

(** [sys.get_int_max_str_digits()], as Python sets it. *)
Definition int_max_str_digits : Z := 4300.

(** [int(s)] for a string [s], base ten: blanks around, a sign, digits
    with single underscores between them, and no more digits than the
    limit; anything else raises [ValueError]. *)
Definition int (s : string) : result Z :=
  let t := int_strip s in
  let parsed :=
    match t with
    | String "+" r => digits r 0 false
    | String "-" r => option_map Z.opp (digits r 0 false)
    | _ => digits t 0 false
    end in
  match parsed with
  | Some z =>
      if count_digits t <=? int_max_str_digits then Ok z
      else Raise ValueError
  | None => Raise ValueError
  end.

End PyStr.

(* ================================================================== *)
(** ** Timestamps *)

(** A pandas [Timestamp] without time zone, by its calendar fields and the
    nanoseconds elapsed since midnight. *)
Record Timestamp := mkTimestamp {
  year : Z;
  month : Z;
  day : Z;
  nanos : Z
}.

(** Chronological order, field by field. *)
Definition ts_leb (a b : Timestamp) : bool :=
  if year a <? year b then true else
  if year b <? year a then false else
  if month a <? month b then true else
  if month b <? month a then false else
  if day a <? day b then true else
  if day b <? day a then false else
  nanos a <=? nanos b.

Definition ts_ltb (a b : Timestamp) : bool := negb (ts_leb b a).

(** What the caller hands over as a bound of the date range: a
    [datetime.date] (from the date picker) or a [Timestamp]. *)
Inductive date_like :=
| PyDate (y m d : Z)
| PyTimestamp (t : Timestamp).

(** [pd.to_datetime] on a scalar: a date becomes the timestamp of its
    midnight. *)
Definition pd_to_datetime (x : date_like) : Timestamp :=
  match x with
  | PyDate y m d => mkTimestamp y m d 0
  | PyTimestamp t => t
  end.

Definition month_names : list string :=
  ["january"; "february"; "march"; "april"; "may"; "june"; "july";
   "august"; "september"; "october"; "november"; "december"].

Fixpoint index_of (s : string) (l : list string) (i : Z) : option Z :=
  match l with
  | [] => None
  | x :: l' => if (s =? x)%string then Some i else index_of s l' (i + 1)
  end.

(** [datetime.strptime(s, "%B").month]: the full month name, whatever its
    letter case; anything else raises [ValueError]. *)
Definition strptime_B_month (s : string) : result Z :=
  match index_of (PyStr.lower s) month_names 1 with
  | Some m => Ok m
  | None => Raise ValueError
  end.

(* ================================================================== *)
(** ** Series and data frames *)

(** A column with its dtype. [None] is the missing value of the dtype:
    [NaT] in a datetime column, [NaN] elsewhere. *)
Inductive Series :=
| DatetimeS (v : list (option Timestamp))
| NumericS (v : list (option Q))
| ObjectS (v : list (option string)).

Record DataFrame := mkDataFrame {
  index : list Z;
  columns : list (string * Series)
}.

Definition labels (df : DataFrame) : list string := map fst (columns df).

Definition nrows (df : DataFrame) : nat := length (index df).

Definition series_len (s : Series) : nat :=
  match s with
  | DatetimeS v => length v
  | NumericS v => length v
  | ObjectS v => length v
  end.

(** Rows kept by a boolean mask. *)
Fixpoint select {A} (m : list bool) (l : list A) : list A :=
  match m, l with
  | b :: m', x :: l' => if b then x :: select m' l' else select m' l'
  | _, _ => []
  end.

Definition select_series (m : list bool) (s : Series) : Series :=
  match s with
  | DatetimeS v => DatetimeS (select m v)
  | NumericS v => NumericS (select m v)
  | ObjectS v => ObjectS (select m v)
  end.

(** [df[mask]]: the rows whose mask is true, labels and order kept. *)
Definition boolean_index (df : DataFrame) (m : list bool) : DataFrame :=
  {| index := select m (index df);
     columns := map (fun c => (fst c, select_series m (snd c))) (columns df) |}.

Definition columns_named (name : string) (df : DataFrame) : list Series :=
  map snd (filter (fun c => (fst c =? name)%string) (columns df)).

(** [df[name]] as a single column. A missing label raises [KeyError]. With
    a repeated label pandas hands back a frame, not a column; the callers
    say what that leads to. *)
Inductive item :=
| OneColumn (s : Series)
| SeveralColumns (l : list Series).

Definition getitem (df : DataFrame) (name : string) : result item :=
  match columns_named name df with
  | [] => Raise KeyError
  | [s] => Ok (OneColumn s)
  | l => Ok (SeveralColumns l)
  end.

(** [series >= t] and [series <= t] against a timestamp. A comparison
    with [NaT] is false. Other dtypes refuse the comparison. *)
Definition ge_ts (t : Timestamp) (d : option Timestamp) : bool :=
  match d with
  | Some x => ts_leb t x
  | None => false
  end.

Definition le_ts (t : Timestamp) (d : option Timestamp) : bool :=
  match d with
  | Some x => ts_leb x t
  | None => false
  end.

Definition series_ge (s : Series) (t : Timestamp) : result (list bool) :=
  match s with
  | DatetimeS v => Ok (map (ge_ts t) v)
  | _ => Raise TypeError
  end.

Definition series_le (s : Series) (t : Timestamp) : result (list bool) :=
  match s with
  | DatetimeS v => Ok (map (le_ts t) v)
  | _ => Raise TypeError
  end.

(** Element-wise [&] of two masks. *)
Fixpoint mask_and (a b : list bool) : list bool :=
  match a, b with
  | x :: a', y :: b' => (x && y) :: mask_and a' b'
  | _, _ => []
  end.

(** The [.dt] accessor exists on datetime columns only. *)
Definition dt (s : Series) : result (list (option Timestamp)) :=
  match s with
  | DatetimeS v => Ok v
  | _ => Raise AttributeError
  end.

(** [.dt.month == n] and [.dt.year == n]; the field of [NaT] is [NaN],
    equal to nothing. *)
Definition month_is (n : Z) (d : option Timestamp) : bool :=
  match d with
  | Some t => month t =? n
  | None => false
  end.

Definition year_is (n : Z) (d : option Timestamp) : bool :=
  match d with
  | Some t => year t =? n
  | None => false
  end.

(** The ['date'] column of a frame, for the filters. With a repeated
    label the comparison and the accessor work on a frame; that case is
    outside this embedding and is given as [ValueError]. The theorems
    whose filters read the column are about frames with one ['date']
    column. *)
Definition date_column (df : DataFrame) : result Series :=
  match getitem df "date" with
  | Ok (OneColumn s) => Ok s
  | Ok (SeveralColumns _) => Raise ValueError
  | Raise e => Raise e
  end.

(* ================================================================== *)
(** ** The store of frames *)

(** A Python variable holds a reference. The store lists the frames
    allocated so far; a reference is a position in it. *)
Definition ref := nat.
Definition Store := list DataFrame.

Definition M (A : Type) : Type := Store -> result A * Store.

Definition ret {A} (a : A) : M A := fun h => (Ok a, h).

Definition bind {A B} (m : M A) (k : A -> M B) : M B :=
  fun h =>
    match m h with
    | (Ok a, h') => k a h'
    | (Raise e, h') => (Raise e, h')
    end.

Definition lift {A} (r : result A) : M A := fun h => (r, h).

Definition deref (r : ref) : M DataFrame :=
  fun h =>
    match nth_error h r with
    | Some df => (Ok df, h)
    | None => (Raise ReferenceError, h)
    end.

Definition alloc (df : DataFrame) : M ref :=
  fun h => (Ok (length h), h ++ [df]).

Declare Scope store_scope.
Delimit Scope store_scope with store.
Notation "x <- e ;; k" := (bind e (fun x => k))
  (at level 61, e at next level, right associativity) : store_scope.

(** [df.copy()]: a new frame with the same content. *)
Definition copy (r : ref) : M ref :=
  (df <- deref r ;; alloc df)%store.

(** [r[mask]] with the mask computed from the frame behind [r]: a new
    frame; the frame behind [r] is left as it is. *)
Definition masked (mask : DataFrame -> result (list bool)) (r : ref) : M ref :=
  (df <- deref r ;;
   m <- lift (mask df) ;;
   alloc (boolean_index df m))%store.

(* ================================================================== *)
(** ** [filter_data] *)

(** The mask of lines 55-56. *)
Definition date_range_mask (lo hi : date_like) (df : DataFrame)
  : result (list bool) :=
  (c1 <- date_column df ;
   m1 <- series_ge c1 (pd_to_datetime lo) ;
   c2 <- date_column df ;
   m2 <- series_le c2 (pd_to_datetime hi) ;
   Ok (mask_and m1 m2))%result.

(** The mask of lines 60-61. *)
Definition month_mask (month_filter : string) (df : DataFrame)
  : result (list bool) :=
  (month_num <- strptime_B_month month_filter ;
   c <- date_column df ;
   d <- dt c ;
   Ok (map (month_is month_num) d))%result.

(** The mask of line 65. *)
Definition year_mask (year_filter : string) (df : DataFrame)
  : result (list bool) :=
  (c <- date_column df ;
   d <- dt c ;
   y <- PyStr.int year_filter ;
   Ok (map (year_is y) d))%result.

(** [f and f != "All"] for a month or year selection; [None] is the
    Python [None]. *)
Definition selected (f : option string) : option string :=
  match f with
  | Some s =>
      if PyStr.truthy s && negb (s =? "All")%string then Some s else None
  | None => None
  end.

(** Date range filter. *)
Definition by_date_range (date_range : option (date_like * date_like))
  (filtered_df : ref) : M ref :=
  match date_range with
  | Some (lo, hi) => masked (date_range_mask lo hi) filtered_df
  | None => ret filtered_df
  end.

(** Month filter. *)
Definition by_month (month_filter : option string) (filtered_df : ref)
  : M ref :=
  match selected month_filter with
  | Some s => masked (month_mask s) filtered_df
  | None => ret filtered_df
  end.

(** Year filter. *)
Definition by_year (year_filter : option string) (filtered_df : ref)
  : M ref :=
  match selected year_filter with
  | Some s => masked (year_mask s) filtered_df
  | None => ret filtered_df
  end.

Definition filter_data (df : ref)
  (date_range : option (date_like * date_like))
  (month_filter year_filter : option string) : M ref :=
  (filtered_df <- copy df ;;
   filtered_df <- by_date_range date_range filtered_df ;;
   filtered_df <- by_month month_filter filtered_df ;;
   filtered_df <- by_year year_filter filtered_df ;;
   ret filtered_df)%store.

(** The three filters, to be applied in any order. *)
Inductive stage := ByDateRange | ByMonth | ByYear.

Definition run_stage (date_range : option (date_like * date_like))
  (month_filter year_filter : option string) (s : stage) : ref -> M ref :=
  match s with
  | ByDateRange => by_date_range date_range
  | ByMonth => by_month month_filter
  | ByYear => by_year year_filter
  end.

Fixpoint run_stages (date_range : option (date_like * date_like))
  (month_filter year_filter : option string) (order : list stage)
  (filtered_df : ref) : M ref :=
  match order with
  | [] => ret filtered_df
  | s :: order' =>
      (r <- run_stage date_range month_filter year_filter s filtered_df ;;
       run_stages date_range month_filter year_filter order' r)%store
  end.

(** [filter_data] with its filters applied in the given order. *)
Definition filter_data_in_order (order : list stage) (df : ref)
  (date_range : option (date_like * date_like))
  (month_filter year_filter : option string) : M ref :=
  (filtered_df <- copy df ;;
   run_stages date_range month_filter year_filter order filtered_df)%store.

Definition source_order : list stage := [ByDateRange; ByMonth; ByYear].

(** The value a stage computes from the frame it is given. *)
Definition masked_value (mask : DataFrame -> result (list bool))
  (df : DataFrame) : result DataFrame :=
  (m <- mask df ; Ok (boolean_index df m))%result.

Definition stage_value (date_range : option (date_like * date_like))
  (month_filter year_filter : option string) (s : stage) (df : DataFrame)
  : result DataFrame :=
  match s with
  | ByDateRange =>
      match date_range with
      | Some (lo, hi) => masked_value (date_range_mask lo hi) df
      | None => Ok df
      end
  | ByMonth =>
      match selected month_filter with
      | Some s => masked_value (month_mask s) df
      | None => Ok df
      end
  | ByYear =>
      match selected year_filter with
      | Some s => masked_value (year_mask s) df
      | None => Ok df
      end
  end.

Fixpoint stages_value (date_range : option (date_like * date_like))
  (month_filter year_filter : option string) (order : list stage)
  (df : DataFrame) : result DataFrame :=
  match order with
  | [] => Ok df
  | s :: order' =>
      (d <- stage_value date_range month_filter year_filter s df ;
       stages_value date_range month_filter year_filter order' d)%result
  end.

(* ================================================================== *)
(** ** Views of a frame, for the statements *)

(** The timestamps of the ['date'] column of a normalized frame. *)
Definition dates (df : DataFrame) : list (option Timestamp) :=
  match date_column df with
  | Ok (DatetimeS v) => v
  | _ => []
  end.

(** A normalized table: one column labelled ['date'], of datetime
    dtype. *)
Definition normalized (df : DataFrame) : bool :=
  match date_column df with
  | Ok (DatetimeS _) => true
  | _ => false
  end.

Inductive cell :=
| TimeCell (t : option Timestamp)
| NumberCell (x : option Q)
| TextCell (s : option string).

Definition cells (s : Series) : list cell :=
  match s with
  | DatetimeS v => map TimeCell v
  | NumericS v => map NumberCell v
  | ObjectS v => map TextCell v
  end.

Definition heads {A} (cols : list (list A)) : list A :=
  flat_map (fun c => match c with x :: _ => [x] | [] => [] end) cols.

Fixpoint rows_of (idx : list Z) (cols : list (list cell))
  : list (Z * list cell) :=
  match idx with
  | [] => []
  | i :: idx' => (i, heads cols) :: rows_of idx' (map (@tl cell) cols)
  end.

(** The rows of a frame, top to bottom: the row label and the cells of
    the row in column order. *)
Definition rows (df : DataFrame) : list (Z * list cell) :=
  rows_of (index df) (map (fun c => cells (snd c)) (columns df)).

(** Each row of a normalized frame with its date. *)
Definition records (df : DataFrame)
  : list (option Timestamp * (Z * list cell)) :=
  combine (dates df) (rows df).

Definition ts_le (a b : Timestamp) : Prop :=
  year a < year b \/
  (year a = year b /\
   (month a < month b \/
    (month a = month b /\
     (day a < day b \/ (day a = day b /\ nanos a <= nanos b))))).

(** The order [sort_values] sorts a datetime column by: chronological,
    missing dates last. *)
Definition date_leb (a b : option Timestamp) : bool :=
  match a, b with
  | Some x, Some y => ts_leb x y
  | _, None => true
  | None, Some _ => false
  end.

Definition date_le (a b : option Timestamp) : Prop := date_leb a b = true.

(** Each date is followed by one that is not earlier. *)
Definition sorted_by_date (df : DataFrame) : Prop :=
  Sorted date_le (dates df).

(** [l1] is [l2] with some elements left out, order kept. *)
Inductive subseq {A} : list A -> list A -> Prop :=
| subseq_nil : subseq [] []
| subseq_skip x l1 l2 : subseq l1 l2 -> subseq l1 (x :: l2)
| subseq_keep x l1 l2 : subseq l1 l2 -> subseq (x :: l1) (x :: l2).

(** A test on the date of a row; [None] when no filter is active. *)
Definition row_test := option (option Timestamp -> bool).

Definition both (p q : row_test) : row_test :=
  match p, q with
  | None, _ => q
  | _, None => p
  | Some f, Some g => Some (fun d => f d && g d)
  end.

Definition passes (p : row_test) (d : option Timestamp) : bool :=
  match p with
  | Some f => f d
  | None => true
  end.

(** The rows of a normalized frame whose date passes the test. *)
Definition keep (p : row_test) (df : DataFrame) : DataFrame :=
  match p with
  | Some f => boolean_index df (map f (dates df))
  | None => df
  end.

Definition in_range (lo hi : date_like) (d : option Timestamp) : bool :=
  ge_ts (pd_to_datetime lo) d && le_ts (pd_to_datetime hi) d.

(** The test of the date range filter. *)
Definition range_test (dr : option (date_like * date_like)) : row_test :=
  match dr with
  | Some (lo, hi) => Some (in_range lo hi)
  | None => None
  end.

(** The test a filter applies to the date of a row, when its month or
    year text reads well. *)
Definition stage_test (date_range : option (date_like * date_like))
  (month_filter year_filter : option string) (s : stage) : result row_test :=
  match s with
  | ByDateRange =>
      match date_range with
      | Some (lo, hi) => Ok (Some (in_range lo hi))
      | None => Ok None
      end
  | ByMonth =>
      match selected month_filter with
      | Some s => (n <- strptime_B_month s ; Ok (Some (month_is n)))%result
      | None => Ok None
      end
  | ByYear =>
      match selected year_filter with
      | Some s => (y <- PyStr.int s ; Ok (Some (year_is y)))%result
      | None => Ok None
      end
  end.

Fixpoint tests_of (date_range : option (date_like * date_like))
  (month_filter year_filter : option string) (order : list stage)
  : result row_test :=
  match order with
  | [] => Ok None
  | s :: order' =>
      (p <- stage_test date_range month_filter year_filter s ;
       q <- tests_of date_range month_filter year_filter order' ;
       Ok (both p q))%result
  end.

(** The month and the year of the selection read well: the month is
    unset, ["All"] or a month name, the year is unset, ["All"] or a
    number. *)
Definition well_formed_selection (month_filter year_filter : option string)
  : bool :=
  match tests_of None month_filter year_filter [ByMonth; ByYear] with
  | Ok _ => true
  | Raise _ => false
  end.

(** A month or year selection that filters nothing: unset, empty or the
    ["All"] entry. *)
Definition unset (f : option string) : Prop :=
  f = None \/ f = Some "" \/ f = Some "All".

(** Two tests that keep the same rows. *)
Definition same_test (p q : row_test) : Prop :=
  (p = None <-> q = None) /\ forall d, passes p d = passes q d.

(** Two outcomes that agree: the same rows are kept, or both fail with
    the same exception. *)
Definition agree (a b : result row_test) : Prop :=
  match a, b with
  | Ok p, Ok q => same_test p q
  | Raise e, Raise e' => e = e'
  | _, _ => False
  end.

(** Running [m] in the store [h] leaves [h] as it is, allocates
    further frames after it, and ends as [v] tells: with a reference, not
    below [low], to the frame [v] holds, or with the exception of [v]. *)
Definition runs_to (m : M ref) (h : Store) (v : result DataFrame)
  (low : nat) : Prop :=
  exists fresh,
    snd (m h) = h ++ fresh /\
    match v, fst (m h) with
    | Ok out, Ok r => (low <= r)%nat /\ nth_error (h ++ fresh) r = Some out
    | Raise e, Raise e' => e = e'
    | _, _ => False
    end.

(* ================================================================== *)
(** ** Column operations of the loader *)

(** [df.columns = df.columns.str.strip()]. *)
Definition strip_labels (df : DataFrame) : DataFrame :=
  {| index := index df;
     columns := map (fun c => (PyStr.strip (fst c), snd c)) (columns df) |}.

(** [[col for col in df.columns if col.lower() == name]]. *)
Definition labels_like (name : string) (df : DataFrame) : list string :=
  filter (fun col => (PyStr.lower col =? name)%string) (labels df).

Definition has_label (name : string) (df : DataFrame) : bool :=
  existsb (String.eqb name) (labels df).

(** [df[name] = s]. The new column has one value per row of the frame.
    An existing label keeps its place, and every column carrying it takes
    the new values; a new label is added last. *)
Definition setitem (df : DataFrame) (name : string) (s : Series)
  : result DataFrame :=
  if negb (series_len s =? nrows df)%nat then Raise ValueError
  else if has_label name df then
    Ok {| index := index df;
          columns := map (fun c => if (fst c =? name)%string
                                   then (name, s) else c) (columns df) |}
  else
    Ok {| index := index df; columns := columns df ++ [(name, s)] |}.

(** [df.drop(columns=[name])]. *)
Definition drop (df : DataFrame) (name : string) : result DataFrame :=
  if has_label name df then
    Ok {| index := index df;
          columns := filter (fun c => negb (fst c =? name)%string)
                       (columns df) |}
  else Raise KeyError.

(** [df.iloc[:, 0]]. *)
Definition iloc_first (df : DataFrame) : result Series :=
  match columns df with
  | c :: _ => Ok (snd c)
  | [] => Raise IndexError
  end.

(** Rows picked by position. *)
Definition take {A} (idx : list nat) (l : list A) : list A :=
  flat_map (fun i => match nth_error l i with
                     | Some x => [x]
                     | None => []
                     end) idx.

Definition take_series (idx : list nat) (s : Series) : Series :=
  match s with
  | DatetimeS v => DatetimeS (take idx v)
  | NumericS v => NumericS (take idx v)
  | ObjectS v => ObjectS (take idx v)
  end.

Definition take_rows (idx : list nat) (df : DataFrame) : DataFrame :=
  {| index := take idx (index df);
     columns := map (fun c => (fst c, take_series idx (snd c))) (columns df) |}.

Fixpoint insert_sorted {A} (leb : A -> A -> bool) (x : A) (l : list A)
  : list A :=
  match l with
  | [] => [x]
  | y :: l' => if leb x y then x :: l else y :: insert_sorted leb x l'
  end.

(** Insertion sort. numpy leaves the order of equal keys open; here it
    is the order of the input. *)
Definition sort_by {A} (leb : A -> A -> bool) (l : list A) : list A :=
  fold_right (insert_sorted leb) [] l.

Definition enumerate {A} (l : list A) : list (nat * A) :=
  combine (seq 0 (length l)) l.

(** The present keys with their positions, and the positions of the
    missing keys. *)
Definition present_items {K} (keys : list (option K)) : list (nat * K) :=
  flat_map (fun p => match snd p with
                     | Some k => [(fst p, k)]
                     | None => []
                     end) (enumerate keys).

Definition missing_positions {K} (keys : list (option K)) : list nat :=
  flat_map (fun p => match snd p with
                     | Some _ => []
                     | None => [fst p]
                     end) (enumerate keys).

Definition sorted_items {K} (leb : K -> K -> bool) (keys : list (option K))
  : list (nat * K) :=
  sort_by (fun a b => leb (snd a) (snd b)) (present_items keys).

(** pandas' [nargsort] with [na_position='last']: the positions of the
    present keys in sorted order, then the positions of the missing keys
    as they come. *)
Definition nargsort {K} (leb : K -> K -> bool) (keys : list (option K))
  : list nat :=
  map fst (sorted_items leb keys) ++ missing_positions keys.

Definition argsort_series (s : Series) : list nat :=
  match s with
  | DatetimeS v => nargsort ts_leb v
  | NumericS v => nargsort Qle_bool v
  | ObjectS v => nargsort String.leb v
  end.

(** [df.sort_values(by)] for one label. *)
Definition sort_values (df : DataFrame) (by_label : string)
  : result DataFrame :=
  match getitem df by_label with
  | Ok (OneColumn s) => Ok (take_rows (argsort_series s) df)
  | Ok (SeveralColumns _) => Raise ValueError
  | Raise e => Raise e
  end.

(** [df.reset_index(drop=True)]. *)
Definition reset_index (df : DataFrame) : DataFrame :=
  {| index := map Z.of_nat (seq 0 (nrows df)); columns := columns df |}.

(** Every column has one value per row, as in every pandas frame. *)
Definition rectangular (df : DataFrame) : Prop :=
  Forall (fun c => series_len (snd c) = nrows df) (columns df).

(** The step the loader takes for the date and for the price: the
    canonical column [name] is set to [s], and the source column [c], when
    it is spelled differently, is dropped. *)
Definition updated (name : string) (s : Series) (c : option string)
  (df df' : DataFrame) : Prop :=
  exists dfa,
    setitem df name s = Ok dfa
    /\ match c with
       | Some c => c <> name /\ drop dfa c = Ok df'
       | None => df' = dfa
       end.

(* ================================================================== *)
(** ** [load_and_process_data] *)

(** What the loader calls outside this repository. *)
Class Platform := {
  (** [os.path.exists]. *)
  path_exists : string -> bool;
  (** [pd.read_csv]. *)
  read_csv : string -> result DataFrame;
  (** [pd.to_datetime(series, dayfirst=True)]: the timestamps of the
      cells, or an exception. *)
  to_datetime : Series -> result (list (option Timestamp));
  (** The number a text cell reads as, [None] when it reads as none. *)
  parse_number : string -> option Q;
  (** The nanoseconds since the epoch of a timestamp. *)
  epoch_ns : Timestamp -> Z
}.

Section Loader.

Context {platform : Platform}.

(** [pd.to_numeric] with [errors='coerce'] on one cell of text. *)
Definition coerce_cell (c : option string) : option Q :=
  match c with
  | Some s => parse_number s
  | None => None
  end.

(** [pd.to_numeric(series, errors='coerce')]. Numbers stay; text cells
    are parsed one by one, and a cell that does not parse becomes
    [NaN]; timestamps become their nanosecond count. *)
Definition to_numeric_coerce (s : Series) : Series :=
  match s with
  | NumericS v => NumericS v
  | ObjectS v => NumericS (map coerce_cell v)
  | DatetimeS v =>
      NumericS (map (fun d => Some (inject_Z match d with
                                             | Some t => epoch_ns t
                                             | None => - 2 ^ 63
                                             end)) v)
  end.

(** Lines 27-33. *)
Definition normalize_date (df : DataFrame) : result DataFrame :=
  let date_col := labels_like "date" df in
  match date_col with
  | c :: _ =>
      (src <- getitem df c ;
       d <- match src with
            | OneColumn s => to_datetime s
            | SeveralColumns _ => Raise ValueError
            end ;
       df <- setitem df "date" (DatetimeS d) ;
       if negb (c =? "date")%string then drop df c else Ok df)%result
  | [] =>
      (src <- iloc_first df ;
       d <- to_datetime src ;
       setitem df "date" (DatetimeS d))%result
  end.

(** Lines 36-40. *)
Definition normalize_price (df : DataFrame) : result DataFrame :=
  let price_col := labels_like "price" df in
  match price_col with
  | c :: _ =>
      (src <- getitem df c ;
       p <- match src with
            | OneColumn s => Ok (to_numeric_coerce s)
            | SeveralColumns _ => Raise TypeError
            end ;
       df <- setitem df "price" p ;
       if negb (c =? "price")%string then drop df c else Ok df)%result
  | [] => Ok df
  end.

(** The body of the [try], after the file is read. *)
Definition process (df : DataFrame) : result DataFrame :=
  (let df := strip_labels df in
   df <- normalize_date df ;
   df <- normalize_price df ;
   df <- sort_values df "date" ;
   Ok (reset_index df))%result.

(** The result is [Some] table or [None]; an exception raised inside
    the [try] is reported on the page and turned into [None]. *)
Definition load_and_process_data (file_path : string)
  : result (option DataFrame) :=
  if PyStr.truthy file_path && path_exists file_path then
    try_except
      (df <- read_csv file_path ;
       df <- process df ;
       Ok (Some df))%result
      (fun e => Ok None)
  else Ok None.

End Loader.

(** The header of the column the dates are read from (lines 27-33): the
    first header that reads as date, else the first header. *)
Definition date_source (df : DataFrame) : option string :=
  match labels_like "date" df with
  | c :: _ => Some c
  | [] => head (labels df)
  end.

(** The test of [display_metal_tab] on what the loader returned:
    [df is None]. *)
Definition is_absent (df : option DataFrame) : bool :=
  match df with
  | None => true
  | Some _ => false
  end.

(* ================================================================== *)
(** ** A small platform and sample tables, for the examples *)

Module Demo.

(** Texts of the form [DD/MM/YYYY]. *)
Definition day_first (s : string) : option Timestamp :=
  match PyStr.digits (substring 0 2 s) 0 false,
        PyStr.digits (substring 3 2 s) 0 false,
        PyStr.digits (substring 6 4 s) 0 false with
  | Some d, Some m, Some y =>
      if ((String.length s =? 10)%nat
          && (substring 2 1 s =? "/")%string
          && (substring 5 1 s =? "/")%string)%bool
      then Some (mkTimestamp y m d 0) else None
  | _, _, _ => None
  end.

Fixpoint parse_dates (v : list (option string))
  : result (list (option Timestamp)) :=
  match v with
  | [] => Ok []
  | None :: v' => (r <- parse_dates v' ; Ok (None :: r))%result
  | Some s :: v' =>
      match day_first s with
      | Some t => (r <- parse_dates v' ; Ok (Some t :: r))%result
      | None => Raise ValueError
      end
  end.

Definition demo_to_datetime (s : Series)
  : result (list (option Timestamp)) :=
  match s with
  | ObjectS v => parse_dates v
  | DatetimeS v => Ok v
  | NumericS _ => Raise TypeError
  end.

Definition demo_parse_number (s : string) : option Q :=
  match PyStr.int s with
  | Ok z => Some (inject_Z z)
  | Raise _ => None
  end.

Definition days_from_civil (y m d : Z) : Z :=
  let y' := if m <=? 2 then y - 1 else y in
  let era := y' / 400 in
  let yoe := y' - era * 400 in
  let mp := (m + 9) mod 12 in
  let doy := (153 * mp + 2) / 5 + d - 1 in
  let doe := yoe * 365 + yoe / 4 - yoe / 100 + doy in
  era * 146097 + doe - 719468.

Definition demo_epoch_ns (t : Timestamp) : Z :=
  days_from_civil (year t) (month t) (day t) * 86400000000000 + nanos t.

Definition range_index (n : nat) : list Z := map Z.of_nat (seq 0 n).

(** Ten rows, dates out of order, one price cell that is no number;
    the headers carry blanks and capitals. *)
Definition copper_csv : DataFrame :=
  {| index := range_index 10;
     columns :=
       [(" Date ", ObjectS [Some "15/03/2023"; Some "01/03/2023";
                            Some "10/03/2022"; Some "01/04/2023";
                            Some "02/01/2023"; Some "03/01/2023";
                            Some "04/01/2023"; Some "05/01/2023";
                            Some "06/01/2023"; Some "07/01/2023"]);
        ("Price", ObjectS [Some "8900"; Some "8850"; Some "10100";
                           Some "n.a."; Some "8300"; Some "8310";
                           Some "8320"; Some "8330"; Some "8340";
                           Some "8350"]);
        ("Volume", NumericS [Some 1%Q; Some 2%Q; Some 3%Q; Some 4%Q;
                             Some 5%Q; Some 6%Q; Some 7%Q; Some 8%Q;
                             Some 9%Q; Some 10%Q])] |}.

(** No header reads as date or price: the first column is the date
    source and there is no price. *)
Definition aluminium_csv : DataFrame :=
  {| index := range_index 2;
     columns :=
       [("Day", ObjectS [Some "02/01/2023"; Some "01/01/2023"]);
        ("Close", NumericS [Some 2300%Q; Some 2290%Q])] |}.

(** A header row and nothing else. *)
Definition tin_csv : DataFrame :=
  {| index := []; columns := [("date", ObjectS []); ("price", ObjectS [])] |}.

(** One date cell left empty. *)
Definition zinc_csv : DataFrame :=
  {| index := range_index 3;
     columns :=
       [("date", ObjectS [None; Some "02/01/2023"; Some "01/01/2023"]);
        ("price", NumericS [Some 1%Q; Some 2%Q; Some 3%Q])] |}.

Definition files : list (string * DataFrame) :=
  [("LME_Copper.csv", copper_csv);
   ("LME_Aluminium.csv", aluminium_csv);
   ("LME_Tin.csv", tin_csv);
   ("LME_Zinc.csv", zinc_csv)].

Fixpoint lookup_file (p : string) (l : list (string * DataFrame))
  : option DataFrame :=
  match l with
  | [] => None
  | (q, df) :: l' => if (p =? q)%string then Some df else lookup_file p l'
  end.

Definition platform : Platform :=
  {| path_exists := fun p => match lookup_file p files with
                             | Some _ => true
                             | None => false
                             end;
     read_csv := fun p => match lookup_file p files with
                          | Some df => Ok df
                          | None => Raise OSError
                          end;
     to_datetime := demo_to_datetime;
     parse_number := demo_parse_number;
     epoch_ns := demo_epoch_ns |}.

(** The copper file after the date step of the loader. *)
Definition copper_dated : DataFrame :=
match @normalize_date platform (strip_labels copper_csv) with
| Ok df => df
| Raise _ => copper_csv
end.

Definition at_midnight (y m d : Z) : option Timestamp :=
  Some (mkTimestamp y m d 0).

(** The four rows of the worked example of the specification. *)
Definition sample : DataFrame :=
  {| index := range_index 4;
     columns :=
       [("date", DatetimeS [at_midnight 2023 3 1; at_midnight 2023 3 15;
                            at_midnight 2022 3 10; at_midnight 2023 4 1]);
        ("price", NumericS [Some 8850%Q; Some 8900%Q; Some 10100%Q;
                            None])] |}.

Definition sample_sorted : DataFrame :=
  {| index := range_index 4;
     columns :=
       [("date", DatetimeS [at_midnight 2022 3 10; at_midnight 2023 3 1;
                            at_midnight 2023 3 15; at_midnight 2023 4 1]);
        ("price", NumericS [Some 10100%Q; Some 8850%Q; Some 8900%Q;
                            None])] |}.

End Demo.


(* ================================================================== *)
(** ** The selectors of [display_metal_tab] *)

Definition digit_char (d : Z) : ascii := ascii_of_nat (48 + Z.to_nat d).

(** The decimal digits of [n >= 0] in front of [acc]; [fuel] bounds the
    number of digits. *)
Fixpoint decimal (fuel : nat) (n : Z) (acc : string) : string :=
  match fuel with
  | O => acc
  | S fuel' =>
      let acc' := String (digit_char (n mod 10)) acc in
      if n <? 10 then acc' else decimal fuel' (n / 10) acc'
  end.

(** [str(z)] for an integer. *)
Definition str_of_int (z : Z) : string :=
  if z <? 0 then String "-" (decimal (S (Z.to_nat (- z))) (- z) "")
  else decimal (S (Z.to_nat z)) z "".

(** The accumulator of [PyStr.digits] after the digits [decimal] prints. *)
Fixpoint acc_after (fuel : nat) (a n : Z) : Z :=
  match fuel with
  | O => a
  | S fuel' =>
      if n <? 10 then 10 * a + n
      else 10 * acc_after fuel' a (n / 10) + n mod 10
  end.

(** A text without blanks. *)
Fixpoint no_space (s : string) : Prop :=
  match s with
  | EmptyString => True
  | String c s' => PyStr.is_space c = false /\ no_space s'
  end.

(** [series.unique()]: the distinct values in the order they first come;
    the missing value counts as one value. *)
Fixpoint unique {A} (eqb : A -> A -> bool) (l : list A) : list A :=
  match l with
  | [] => []
  | x :: l' => x :: filter (fun y => negb (eqb x y)) (unique eqb l')
  end.

Definition year_eqb (a b : option Z) : bool :=
  match a, b with
  | Some x, Some y => x =? y
  | None, None => true
  | _, _ => false
  end.

(** [.dt.year]: integers, or floats with [NaN] as soon as a date is
    missing. *)
Definition dt_year (d : list (option Timestamp)) : list (option Z) :=
  map (option_map year) d.

Definition has_nan (ys : list (option Z)) : bool :=
  existsb (fun y => match y with None => true | Some _ => false end) ys.

(** [.astype(str)] on the years: an integer prints as its digits, a float
    with a whole value as its digits and [.0], the missing value as
    [nan]. *)
Definition year_text (float_dtype : bool) (y : option Z) : string :=
  match y with
  | Some z => if float_dtype then str_of_int z ++ ".0" else str_of_int z
  | None => "nan"
  end.

(** [sorted(l, reverse=True)] on strings. *)
Definition sorted_reverse (l : list string) : list string :=
  sort_by (fun a b => String.leb b a) l.

(** Line 96: the entries of the year selector. *)
Definition year_options (df : DataFrame) : result (list string) :=
  (c <- date_column df ;
   d <- dt c ;
   let ys := unique year_eqb (dt_year d) in
   Ok ("All" :: sorted_reverse (map (year_text (has_nan ys)) ys)))%result.

(** Lines 101-102: the entries of the month selector. *)
Definition month_options : list string :=
  ["All"; "January"; "February"; "March"; "April"; "May"; "June";
   "July"; "August"; "September"; "October"; "November"; "December"].

(** The column the dates are read from (lines 27-33). *)
Definition date_source_column (df : DataFrame) : result Series :=
  match labels_like "date" df with
  | c :: _ =>
      match getitem df c with
      | Ok (OneColumn s) => Ok s
      | Ok (SeveralColumns _) => Raise ValueError
      | Raise e => Raise e
      end
  | [] => iloc_first df
  end.

(** The dtype of a column. *)
Inductive dtype := datetime64 | float64 | object.

Definition dtype_of (s : Series) : dtype :=
  match s with
  | DatetimeS _ => datetime64
  | NumericS _ => float64
  | ObjectS _ => object
  end.

(** The labels of a frame with the dtypes of its columns. *)
Definition schema (df : DataFrame) : list (string * dtype) :=
  map (fun c => (fst c, dtype_of (snd c))) (columns df).

(** A filter is active. *)
Definition some_filter (date_range : option (date_like * date_like))
  (month_filter year_filter : option string) : Prop :=
  date_range <> None \/ selected month_filter <> None
  \/ selected year_filter <> None.

Module DemoExtra.

(** A table of the loader with one row without a date. *)
Definition with_missing_date : DataFrame :=
{| index := Demo.range_index 3;
   columns :=
     [("date", DatetimeS [Demo.at_midnight 2022 1 1;
                          Demo.at_midnight 2023 1 2; None]);
      ("price", NumericS [Some 3%Q; Some 2%Q; Some 1%Q])] |}.

(** A table without a date column. *)
Definition undated : DataFrame :=
{| index := Demo.range_index 2;
   columns := [("price", NumericS [Some 3%Q; Some 2%Q])] |}.

(** A file with a date cell that is no date. *)
Definition lead_csv : DataFrame :=
{| index := Demo.range_index 2;
   columns :=
     [("Date", ObjectS [Some "02/01/2023"; Some "soon"]);
      ("Price", NumericS [Some 2100%Q; Some 2110%Q])] |}.

Definition files : list (string * DataFrame) :=
("LME_Lead.csv", lead_csv) :: Demo.files.

Definition platform : Platform :=
{| path_exists := fun p => match Demo.lookup_file p files with
                           | Some _ => true
                           | None => false
                           end;
   read_csv := fun p => match Demo.lookup_file p files with
                        | Some df => Ok df
                        | None => Raise OSError
                        end;
   to_datetime := Demo.demo_to_datetime;
   parse_number := Demo.demo_parse_number;
   epoch_ns := Demo.demo_epoch_ns |}.

End DemoExtra.
(* ================================================================== *)
(** * Properties *)

(** ** Masks *)

Lemma select_nil_r {A} (m : list bool) : select m (@nil A) = [].
Proof. destruct m as [|[] m]; reflexivity. Qed.

Lemma select_map {A B} (f : A -> B) (m : list bool) (l : list A) :
  select m (map f l) = map f (select m l).
Proof.
  revert l; induction m as [|b m IH]; intros [|x l]; simpl; try reflexivity.
  destruct b; simpl; now rewrite IH.
Qed.

Lemma select_combine {A B} (m : list bool) (a : list A) (b : list B) :
  combine (select m a) (select m b) = select m (combine a b).
Proof.
  revert a b; induction m as [|x m IH]; intros [|u a] [|v b]; simpl;
    try reflexivity.
  - destruct x; [|destruct (select m a)]; reflexivity.
  - destruct x; simpl; now rewrite IH.
Qed.

Lemma select_by_key {A B} (p : A -> bool) (a : list A) (b : list B) :
  select (map p a) (combine a b) = filter (fun r => p (fst r)) (combine a b).
Proof.
  revert b; induction a as [|u a IH]; intros [|v b]; simpl; try reflexivity.
  destruct (p u); now rewrite IH.
Qed.

Lemma select_self {A} (p : A -> bool) (l : list A) :
  select (map p l) l = filter p l.
Proof.
  induction l as [|x l IH]; simpl; [reflexivity|].
  destruct (p x); now rewrite IH.
Qed.

(** Masking twice, the second mask computed on what the first kept, is
    masking once with both tests. *)
Lemma select_twice {A B} (p q : A -> bool) (d : list A) (l : list B) :
  select (map q (select (map p d) d)) (select (map p d) l)
  = select (map (fun x => p x && q x) d) l.
Proof.
  revert l; induction d as [|x d IH]; intros [|y l]; simpl; try reflexivity.
  - now rewrite !select_nil_r.
  - destruct (p x); simpl; [destruct (q x)|]; now rewrite IH.
Qed.

Lemma mask_and_map {A} (p q : A -> bool) (l : list A) :
  mask_and (map p l) (map q l) = map (fun x => p x && q x) l.
Proof. induction l as [|x l IH]; simpl; now rewrite ?IH. Qed.

Lemma select_none {A B} (p : A -> bool) (d : list A) (l : list B) :
  (forall x, p x = false) -> select (map p d) l = [].
Proof.
  intros Hp; revert l; induction d as [|x d IH]; intros [|y l]; simpl;
    try reflexivity.
  now rewrite Hp.
Qed.

Lemma subseq_refl {A} (l : list A) : subseq l l.
Proof. induction l; constructor; assumption. Qed.

Lemma select_subseq {A} (m : list bool) (l : list A) : subseq (select m l) l.
Proof.
  revert m; induction l as [|x l IH]; intros m.
  - rewrite select_nil_r. constructor.
  - destruct m as [|[] m]; simpl.
    + clear IH. induction (x :: l); constructor; assumption.
    + now apply subseq_keep.
    + now apply subseq_skip.
Qed.

Lemma subseq_In {A} (l1 l2 : list A) x : subseq l1 l2 -> In x l1 -> In x l2.
Proof.
  induction 1; simpl; intuition.
Qed.

Lemma subseq_StronglySorted {A} (R : A -> A -> Prop) (l1 l2 : list A) :
  subseq l1 l2 -> StronglySorted R l2 -> StronglySorted R l1.
Proof.
  induction 1 as [|x l1 l2 Hs IH|x l1 l2 Hs IH]; intros Hsorted.
  - constructor.
  - inversion Hsorted; subst. now apply IH.
  - inversion Hsorted as [|? ? Htail Hall]; subst. constructor.
    + now apply IH.
    + rewrite Forall_forall in *. intros y Hy. apply Hall.
      eapply subseq_In; eassumption.
Qed.

(** ** Frames under a mask *)

Lemma columns_named_boolean_index name df m :
  columns_named name (boolean_index df m)
  = map (select_series m) (columns_named name df).
Proof.
  unfold columns_named, boolean_index; simpl.
  induction (columns df) as [|[n s] l IH]; simpl; [reflexivity|].
  destruct (n =? name)%string; simpl; now rewrite IH.
Qed.

Lemma date_column_boolean_index df m :
  date_column (boolean_index df m)
  = match date_column df with
    | Ok s => Ok (select_series m s)
    | Raise e => Raise e
    end.
Proof.
  unfold date_column, getitem. rewrite columns_named_boolean_index.
  destruct (columns_named "date" df) as [|s [|s' l]]; reflexivity.
Qed.

Lemma dates_boolean_index df m :
  dates (boolean_index df m) = select m (dates df).
Proof.
  unfold dates. rewrite date_column_boolean_index.
  destruct (date_column df) as [[v|v|v]|e]; simpl;
    now rewrite ?select_nil_r.
Qed.

Lemma normalized_boolean_index df m :
  normalized (boolean_index df m) = normalized df.
Proof.
  unfold normalized. rewrite date_column_boolean_index.
  destruct (date_column df) as [[v|v|v]|e]; reflexivity.
Qed.

Lemma cells_select m s : cells (select_series m s) = select m (cells s).
Proof. destruct s; simpl; now rewrite select_map. Qed.

Lemma heads_select_true {A} m (cols : list (list A)) :
  heads (map (select (true :: m)) cols) = heads cols.
Proof.
  unfold heads. induction cols as [|[|x c] cols IH]; simpl;
    [reflexivity|exact IH|f_equal; exact IH].
Qed.

Lemma tl_select_true {A} m (cols : list (list A)) :
  map (@tl A) (map (select (true :: m)) cols)
  = map (select m) (map (@tl A) cols).
Proof.
  rewrite !map_map. apply map_ext. intros [|x c]; simpl;
    now rewrite ?select_nil_r.
Qed.

Lemma tl_select_false {A} m (cols : list (list A)) :
  map (select (false :: m)) cols = map (select m) (map (@tl A) cols).
Proof.
  rewrite map_map. apply map_ext. intros [|x c]; simpl;
    now rewrite ?select_nil_r.
Qed.

(** The rows of a masked frame are the masked rows. *)
Lemma rows_of_select m idx cols :
  rows_of (select m idx) (map (select m) cols) = select m (rows_of idx cols).
Proof.
  revert m cols; induction idx as [|i idx IH]; intros m cols.
  - simpl. now rewrite !select_nil_r.
  - destruct m as [|[] m].
    + reflexivity.
    + change (rows_of (i :: select m idx) (map (select (true :: m)) cols)
              = (i, heads cols)
                  :: select m (rows_of idx (map (@tl cell) cols))).
      cbn [rows_of]. rewrite heads_select_true, tl_select_true.
      f_equal. apply IH.
    + change (rows_of (select m idx) (map (select (false :: m)) cols)
              = select m (rows_of idx (map (@tl cell) cols))).
      rewrite tl_select_false. apply IH.
Qed.

Lemma rows_boolean_index df m :
  rows (boolean_index df m) = select m (rows df).
Proof.
  unfold rows, boolean_index; simpl. rewrite map_map; simpl.
  rewrite <- rows_of_select. f_equal. rewrite map_map.
  apply map_ext. intros c. apply cells_select.
Qed.

Lemma records_boolean_index df m :
  records (boolean_index df m) = select m (records df).
Proof.
  unfold records. rewrite dates_boolean_index, rows_boolean_index.
  apply select_combine.
Qed.

Lemma boolean_index_twice (p q : option Timestamp -> bool) df :
  boolean_index (boolean_index df (map p (dates df)))
    (map q (dates (boolean_index df (map p (dates df)))))
  = boolean_index df (map (fun d => p d && q d) (dates df)).
Proof.
  rewrite dates_boolean_index. unfold boolean_index; simpl.
  f_equal; [apply select_twice|].
  rewrite map_map. apply map_ext. intros [n s]; simpl. f_equal.
  destruct s; simpl; f_equal; apply select_twice.
Qed.

Lemma keep_keep p q df : keep q (keep p df) = keep (both p q) df.
Proof.
  destruct p as [f|], q as [g|]; simpl; try reflexivity.
  apply boolean_index_twice.
Qed.

Lemma normalized_keep p df : normalized (keep p df) = normalized df.
Proof. destruct p; simpl; [apply normalized_boolean_index|reflexivity]. Qed.

Lemma rows_keep_subseq p df : subseq (rows (keep p df)) (rows df).
Proof.
  destruct p as [f|]; simpl.
  - rewrite rows_boolean_index. apply select_subseq.
  - apply subseq_refl.
Qed.

Lemma records_keep p df :
  records (keep p df) = filter (fun r => passes p (fst r)) (records df).
Proof.
  destruct p as [f|]; simpl.
  - rewrite records_boolean_index. apply select_by_key.
  - induction (records df); simpl; congruence.
Qed.

(** ** The filters on a normalized frame *)

Lemma stage_value_normalized dr mo ye s df :
  normalized df = true ->
  stage_value dr mo ye s df
  = (p <- stage_test dr mo ye s ; Ok (keep p df))%result.
Proof.
  unfold normalized, keep, dates.
  destruct (date_column df) as [[v|v|v]|e] eqn:Hcol; try discriminate.
  intros _. destruct s; simpl.
  - destruct dr as [[lo hi]|]; [|reflexivity].
    unfold masked_value, date_range_mask. rewrite Hcol. simpl.
    now rewrite mask_and_map.
  - destruct (selected mo) as [m|]; [|reflexivity].
    unfold masked_value, month_mask.
    destruct (strptime_B_month m); simpl; [|reflexivity].
    now rewrite Hcol.
  - destruct (selected ye) as [y|]; [|reflexivity].
    unfold masked_value, year_mask. rewrite Hcol. simpl.
    now destruct (PyStr.int y).
Qed.

Lemma stages_value_normalized dr mo ye order df :
  normalized df = true ->
  stages_value dr mo ye order df
  = (p <- tests_of dr mo ye order ; Ok (keep p df))%result.
Proof.
  revert df; induction order as [|s order IH]; intros df Hdf; simpl.
  - reflexivity.
  - rewrite stage_value_normalized by assumption.
    destruct (stage_test dr mo ye s) as [p|e]; simpl; [|reflexivity].
    rewrite IH by now rewrite normalized_keep.
    destruct (tests_of dr mo ye order) as [q|e]; simpl; [|reflexivity].
    now rewrite keep_keep.
Qed.

Lemma int_raises s e : PyStr.int s = Raise e -> e = ValueError.
Proof.
  unfold PyStr.int.
  destruct (match PyStr.int_strip s with
            | String "+" r => PyStr.digits r 0 false
            | String "-" r => option_map Z.opp (PyStr.digits r 0 false)
            | _ => PyStr.digits (PyStr.int_strip s) 0 false
            end) as [z|]; [|congruence].
  destruct (PyStr.count_digits (PyStr.int_strip s)
            <=? PyStr.int_max_str_digits); congruence.
Qed.

Lemma stage_test_raises dr mo ye s e :
  stage_test dr mo ye s = Raise e -> e = ValueError.
Proof.
  destruct s; simpl.
  - destruct dr as [[lo hi]|]; discriminate.
  - destruct (selected mo) as [m|]; [|discriminate].
    unfold strptime_B_month.
    destruct (index_of _ _ _); simpl; congruence.
  - destruct (selected ye) as [y|]; [|discriminate].
    destruct (PyStr.int y) as [z|e'] eqn:Hint; simpl; [discriminate|].
    intros [= <-]. now apply (int_raises y).
Qed.

(** ** Running the filters in the store *)

Lemma runs_to_ok m h out low :
  runs_to m h (Ok out) low ->
  exists r fresh,
    m h = (Ok r, h ++ fresh) /\ (low <= r)%nat
    /\ nth_error (h ++ fresh) r = Some out.
Proof.
  intros [fresh [Hs Hv]]. destruct (m h) as [[r|e] h']; simpl in *;
    [|contradiction].
  exists r, fresh. subst h'. tauto.
Qed.

Lemma runs_to_raise m h e low :
  runs_to m h (Raise e) low -> exists fresh, m h = (Raise e, h ++ fresh).
Proof.
  intros [fresh [Hs Hv]]. destruct (m h) as [[r|e'] h']; simpl in *;
    [contradiction|].
  exists fresh. now subst.
Qed.

Lemma nth_error_valid {A} (h : list A) r x :
  nth_error h r = Some x -> (r < length h)%nat.
Proof. intros H. apply nth_error_Some. congruence. Qed.

Lemma nth_error_fresh {A} (h : list A) x :
  nth_error (h ++ [x]) (length h) = Some x.
Proof. rewrite nth_error_app2, Nat.sub_diag by lia. reflexivity. Qed.

Lemma masked_run mask h r df low :
  nth_error h r = Some df -> (low <= r)%nat ->
  runs_to (masked mask r) h (masked_value mask df) low.
Proof.
  intros Hr Hlow. pose proof (nth_error_valid _ _ _ Hr) as Hlt.
  unfold runs_to, masked, masked_value, bind, deref, lift, alloc.
  rewrite Hr. destruct (mask df) as [m|e]; simpl.
  - exists [boolean_index df m]. split; [reflexivity|].
    split; [lia|apply nth_error_fresh].
  - exists []. now rewrite app_nil_r.
Qed.

Lemma ret_run h r df low :
  nth_error h r = Some df -> (low <= r)%nat ->
  runs_to (ret r) h (Ok df) low.
Proof.
  intros Hr Hlow. exists []. rewrite app_nil_r. simpl. tauto.
Qed.

Lemma run_stage_run dr mo ye s h r df low :
  nth_error h r = Some df -> (low <= r)%nat ->
  runs_to (run_stage dr mo ye s r) h (stage_value dr mo ye s df) low.
Proof.
  intros Hr Hlow. destruct s; simpl.
  - unfold by_date_range. destruct dr as [[lo hi]|];
      [now apply masked_run|now apply ret_run].
  - unfold by_month. destruct (selected mo);
      [now apply masked_run|now apply ret_run].
  - unfold by_year. destruct (selected ye);
      [now apply masked_run|now apply ret_run].
Qed.

Lemma bind_run (m : M ref) (k : ref -> M ref) h v kv low :
  runs_to m h v low ->
  (forall r h' df, nth_error h' r = Some df -> (low <= r)%nat ->
                   runs_to (k r) h' (kv df) low) ->
  runs_to (bind m k) h (rbind v kv) low.
Proof.
  intros [fresh [Hs Hv]] Hk. unfold runs_to, bind.
  destruct (m h) as [[r|e] h'] eqn:Hm; simpl in *; subst h'.
  - destruct v as [df|e]; [|contradiction]. destruct Hv as [Hlow Hr].
    destruct (Hk r (h ++ fresh) df Hr Hlow) as [fresh' [Hs' Hv']].
    exists (fresh ++ fresh'). rewrite app_assoc. simpl. split; assumption.
  - destruct v as [df|e']; [contradiction|]. subst e'.
    exists fresh. simpl. tauto.
Qed.

Lemma run_stages_run dr mo ye order h r df low :
  nth_error h r = Some df -> (low <= r)%nat ->
  runs_to (run_stages dr mo ye order r) h (stages_value dr mo ye order df) low.
Proof.
  revert h r df; induction order as [|s order IH]; intros h r df Hr Hlow;
    simpl.
  - now apply ret_run.
  - apply bind_run; [now apply run_stage_run|].
    intros r' h' df' Hr' Hlow'. now apply IH.
Qed.

Lemma copy_run h l df :
  nth_error h l = Some df -> copy l h = (Ok (length h), h ++ [df]).
Proof.
  intros Hl. unfold copy, bind, deref, alloc. now rewrite Hl.
Qed.

Lemma filter_data_in_order_run order h l df dr mo ye :
  nth_error h l = Some df ->
  runs_to (filter_data_in_order order l dr mo ye) h
    (stages_value dr mo ye order df) (length h).
Proof.
  intros Hl.
  destruct (run_stages_run dr mo ye order (h ++ [df]) (length h) df
              (length h) (nth_error_fresh h df) (le_n _))
    as [fresh [Hs Hv]].
  exists ([df] ++ fresh). unfold filter_data_in_order, bind.
  rewrite (copy_run h l df Hl), app_assoc.
  destruct (run_stages dr mo ye order (length h) (h ++ [df])) as [[r|e] h'];
    split; assumption.
Qed.

Lemma filter_data_source_order l dr mo ye h :
  filter_data l dr mo ye h = filter_data_in_order source_order l dr mo ye h.
Proof.
  unfold filter_data, filter_data_in_order, source_order, run_stages,
    run_stage, bind, ret.
  destruct (copy l h) as [[r0|e0] h0]; [|reflexivity].
  destruct (by_date_range dr r0 h0) as [[r1|e1] h1]; [|reflexivity].
  destruct (by_month mo r1 h1) as [[r2|e2] h2]; [|reflexivity].
  destruct (by_year ye r2 h2) as [[r3|e3] h3]; reflexivity.
Qed.

Lemma filter_data_run h l df dr mo ye :
  nth_error h l = Some df ->
  runs_to (filter_data l dr mo ye) h
    (stages_value dr mo ye source_order df) (length h).
Proof.
  intros Hl.
  destruct (filter_data_in_order_run source_order h l df dr mo ye Hl)
    as [fresh Hrun].
  exists fresh. now rewrite filter_data_source_order.
Qed.

(** ** The chronological order *)

Lemma ts_leb_spec a b : ts_leb a b = true <-> ts_le a b.
Proof.
  unfold ts_leb, ts_le.
  destruct (Z.ltb_spec (year a) (year b)); [intuition lia|].
  destruct (Z.ltb_spec (year b) (year a)); [intuition (discriminate || lia)|].
  destruct (Z.ltb_spec (month a) (month b)); [intuition lia|].
  destruct (Z.ltb_spec (month b) (month a)); [intuition (discriminate || lia)|].
  destruct (Z.ltb_spec (day a) (day b)); [intuition lia|].
  destruct (Z.ltb_spec (day b) (day a)); [intuition (discriminate || lia)|].
  rewrite Z.leb_le. intuition lia.
Qed.

Lemma ts_le_trans a b c : ts_le a b -> ts_le b c -> ts_le a c.
Proof. unfold ts_le. lia. Qed.

Lemma ts_le_total a b : ts_le a b \/ ts_le b a.
Proof. unfold ts_le. lia. Qed.

Lemma ts_leb_trans a b c :
  ts_leb a b = true -> ts_leb b c = true -> ts_leb a c = true.
Proof. rewrite !ts_leb_spec. apply ts_le_trans. Qed.

Lemma ts_leb_total a b : ts_leb a b = false -> ts_leb b a = true.
Proof.
  intros H. destruct (ts_le_total a b) as [Hab|Hba].
  - apply ts_leb_spec in Hab. congruence.
  - now apply ts_leb_spec.
Qed.

Lemma date_le_trans : Relations_1.Transitive date_le.
Proof.
  intros [a|] [b|] [c|]; unfold date_le; simpl; try congruence.
  apply ts_leb_trans.
Qed.

Lemma sorted_by_date_strong df :
  sorted_by_date df <-> StronglySorted date_le (dates df).
Proof.
  split.
  - apply Sorted_StronglySorted, date_le_trans.
  - apply StronglySorted_Sorted.
Qed.

(** An inverted range holds no date. *)
Lemma in_range_inverted lo hi d :
  ts_ltb (pd_to_datetime hi) (pd_to_datetime lo) = true ->
  in_range lo hi d = false.
Proof.
  unfold ts_ltb, in_range. intros Hlt. destruct d as [t|]; simpl;
    [|reflexivity].
  destruct (ts_leb (pd_to_datetime lo) t) eqn:H1; [|reflexivity].
  destruct (ts_leb t (pd_to_datetime hi)) eqn:H2; [|reflexivity].
  rewrite (ts_leb_trans _ _ _ H1 H2) in Hlt. discriminate.
Qed.

(** ** What [filter_data] returns on a normalized frame *)

Lemma filter_data_in_order_normalized order h l df dr mo ye p :
  nth_error h l = Some df -> normalized df = true ->
  tests_of dr mo ye order = Ok p ->
  exists r fresh,
    filter_data_in_order order l dr mo ye h = (Ok r, h ++ fresh)
    /\ (length h <= r)%nat
    /\ nth_error (h ++ fresh) r = Some (keep p df).
Proof.
  intros Hl Hn Hp. apply runs_to_ok.
  replace (Ok (keep p df)) with (stages_value dr mo ye order df).
  - now apply filter_data_in_order_run.
  - rewrite stages_value_normalized by assumption. now rewrite Hp.
Qed.

Lemma filter_data_normalized h l df dr mo ye p :
  nth_error h l = Some df -> normalized df = true ->
  tests_of dr mo ye source_order = Ok p ->
  exists r fresh,
    filter_data l dr mo ye h = (Ok r, h ++ fresh)
    /\ (length h <= r)%nat
    /\ nth_error (h ++ fresh) r = Some (keep p df).
Proof.
  intros Hl Hn Hp. rewrite filter_data_source_order.
  now apply filter_data_in_order_normalized.
Qed.

Lemma filter_data_in_order_raises order h l df dr mo ye e :
  nth_error h l = Some df -> normalized df = true ->
  tests_of dr mo ye order = Raise e ->
  exists fresh,
    filter_data_in_order order l dr mo ye h = (Raise e, h ++ fresh).
Proof.
  intros Hl Hn Hp. apply runs_to_raise with (low := length h).
  replace (Raise e) with (stages_value dr mo ye order df).
  - now apply filter_data_in_order_run.
  - rewrite stages_value_normalized by assumption. now rewrite Hp.
Qed.

Lemma tests_of_source_order dr mo ye :
  well_formed_selection mo ye = true ->
  exists q, tests_of None mo ye [ByMonth; ByYear] = Ok q
            /\ tests_of dr mo ye source_order = Ok (both (range_test dr) q).
Proof.
  unfold well_formed_selection.
  destruct (tests_of None mo ye [ByMonth; ByYear]) as [q|e] eqn:Hq;
    [|discriminate].
  intros _. exists q. split; [reflexivity|].
  unfold source_order.
  change (tests_of dr mo ye (ByDateRange :: [ByMonth; ByYear]))
    with (p <- stage_test dr mo ye ByDateRange ;
          q <- tests_of None mo ye [ByMonth; ByYear] ;
          Ok (both p q))%result.
  rewrite Hq. destruct dr as [[lo hi]|]; reflexivity.
Qed.

Lemma selected_unset f : unset f -> selected f = None.
Proof. intros [->|[->| ->]]; reflexivity. Qed.

(** ** The order of the filters *)

Lemma same_test_refl p : same_test p p.
Proof. split; [tauto|reflexivity]. Qed.

Lemma same_test_trans p q r : same_test p q -> same_test q r -> same_test p r.
Proof.
  intros [H1 H2] [H3 H4]. split; [tauto|].
  intros d. now rewrite H2, H4.
Qed.

Lemma passes_both p q d : passes (both p q) d = passes p d && passes q d.
Proof.
  destruct p, q; simpl; rewrite ?andb_true_r; reflexivity.
Qed.

Lemma both_none p q : both p q = None <-> p = None /\ q = None.
Proof. destruct p, q; simpl; intuition discriminate. Qed.

Lemma both_swap p q r : same_test (both p (both q r)) (both q (both p r)).
Proof.
  split.
  - rewrite !both_none. tauto.
  - intros d. rewrite !passes_both.
    destruct (passes p d), (passes q d); reflexivity.
Qed.

Lemma both_congr p q q' : same_test q q' -> same_test (both p q) (both p q').
Proof.
  intros [H1 H2]. split.
  - rewrite !both_none. tauto.
  - intros d. now rewrite !passes_both, H2.
Qed.

Lemma keep_ext p q df : same_test p q -> keep p df = keep q df.
Proof.
  intros [Hnone Hpass]. destruct p as [f|], q as [g|]; simpl.
  - f_equal. apply map_ext. exact Hpass.
  - destruct Hnone as [_ Hq]. discriminate (Hq eq_refl).
  - destruct Hnone as [Hp _]. discriminate (Hp eq_refl).
  - reflexivity.
Qed.

Lemma tests_of_raises dr mo ye order e :
  tests_of dr mo ye order = Raise e -> e = ValueError.
Proof.
  induction order as [|s order IH]; simpl; [discriminate|].
  destruct (stage_test dr mo ye s) as [p|e1] eqn:Hs; simpl.
  - destruct (tests_of dr mo ye order) as [q|e2]; simpl; [discriminate|].
    intros [= <-]. now apply IH.
  - intros [= <-]. eapply stage_test_raises; eassumption.
Qed.

Lemma agree_trans a b c : agree a b -> agree b c -> agree a c.
Proof.
  destruct a, b, c; simpl; try tauto; try congruence.
  apply same_test_trans.
Qed.

(** Whatever the order of the filters, the same rows pass, or the call
    fails alike. *)
Lemma tests_of_permutation dr mo ye o1 o2 :
  Permutation o1 o2 -> agree (tests_of dr mo ye o1) (tests_of dr mo ye o2).
Proof.
  induction 1 as [|s o1 o2 Hperm IH|s t o|o1 o2 o3 H12 IH12 H23 IH23].
  - simpl. apply same_test_refl.
  - simpl. destruct (stage_test dr mo ye s) as [p|e]; simpl; [|reflexivity].
    destruct (tests_of dr mo ye o1) as [q|e1],
             (tests_of dr mo ye o2) as [q'|e2]; simpl in *;
      try contradiction; [now apply both_congr|assumption].
  - simpl.
    destruct (stage_test dr mo ye s) as [p|e1] eqn:Hs,
             (stage_test dr mo ye t) as [q|e2] eqn:Ht; simpl.
    + destruct (tests_of dr mo ye o) as [r|e]; simpl;
        [apply both_swap|reflexivity].
    + reflexivity.
    + reflexivity.
    + apply stage_test_raises in Hs, Ht. congruence.
  - eapply agree_trans; eassumption.
Qed.

(** ** Sorting *)

Section SortBy.

Context {A : Type} (leb : A -> A -> bool).

Hypothesis leb_total : forall a b, leb a b = false -> leb b a = true.

Let le (a b : A) : Prop := leb a b = true.

Lemma insert_sorted_perm x l : Permutation (insert_sorted leb x l) (x :: l).
Proof.
  induction l as [|y l IH]; simpl; [reflexivity|].
  destruct (leb x y); [reflexivity|].
  rewrite IH. apply perm_swap.
Qed.

Lemma sort_by_perm l : Permutation (sort_by leb l) l.
Proof.
  induction l as [|x l IH]; simpl; [reflexivity|].
  rewrite insert_sorted_perm. now apply perm_skip.
Qed.

Lemma insert_sorted_hd x y l :
  le y x -> HdRel le y l -> HdRel le y (insert_sorted leb x l).
Proof.
  intros Hyx Hhd. destruct l as [|z l]; simpl.
  - now constructor.
  - destruct (leb x z); constructor; [assumption|].
    now inversion Hhd.
Qed.

Lemma insert_sorted_sorted x l :
  Sorted le l -> Sorted le (insert_sorted leb x l).
Proof.
  induction 1 as [|y l Hs IH Hhd]; simpl.
  - repeat constructor.
  - destruct (leb x y) eqn:Hxy.
    + constructor; [now constructor|now constructor].
    + constructor; [assumption|].
      apply insert_sorted_hd; [now apply leb_total|assumption].
Qed.

Lemma sort_by_sorted l : Sorted le (sort_by leb l).
Proof.
  induction l as [|x l IH]; simpl; [constructor|].
  now apply insert_sorted_sorted.
Qed.

End SortBy.

Lemma combine_seq_nth {A} (l : list A) s i x :
  In (i, x) (combine (seq s (length l)) l) ->
  (s <= i)%nat /\ nth_error l (i - s) = Some x.
Proof.
  revert s; induction l as [|y l IH]; intros s; simpl; [tauto|].
  intros [[= <- <-]|Hin].
  - rewrite Nat.sub_diag. split; [lia|reflexivity].
  - apply IH in Hin. destruct Hin as [Hle Hnth]. split; [lia|].
    replace (i - s)%nat with (S (i - S s)) by lia. exact Hnth.
Qed.

Lemma enumerate_nth {A} (l : list A) i x :
  In (i, x) (enumerate l) -> nth_error l i = Some x.
Proof.
  intros Hin. apply combine_seq_nth in Hin.
  now rewrite Nat.sub_0_r in Hin.
Qed.

Lemma enumerate_fst {A} (l : list A) :
  map fst (enumerate l) = seq 0 (length l).
Proof.
  unfold enumerate. generalize 0%nat.
  induction l as [|x l IH]; intros s; simpl; [reflexivity|].
  now rewrite IH.
Qed.

Lemma take_map {A B} (g : B -> A) (f : B -> nat) (ps : list B) (l : list A) :
  (forall p, In p ps -> nth_error l (f p) = Some (g p)) ->
  take (map f ps) l = map g ps.
Proof.
  induction ps as [|p ps IH]; intros Hnth; simpl; [reflexivity|].
  rewrite (Hnth p (or_introl eq_refl)). simpl. f_equal.
  apply IH. intros q Hq. apply Hnth. now right.
Qed.

Lemma take_app {A} (i j : list nat) (l : list A) :
  take (i ++ j) l = take i l ++ take j l.
Proof. apply flat_map_app. Qed.

Lemma take_shift {A} (x : A) (l : list A) (idx : list nat) :
  take (map S idx) (x :: l) = take idx l.
Proof.
  unfold take. rewrite flat_map_concat_map, map_map.
  now rewrite <- flat_map_concat_map.
Qed.

Lemma take_all {A} (l : list A) : take (seq 0 (length l)) l = l.
Proof.
  induction l as [|x l IH]; [reflexivity|].
  change (x :: take (seq 1 (length l)) (x :: l) = x :: l).
  f_equal. now rewrite <- seq_shift, take_shift.
Qed.

Lemma take_perm {A} (idx : list nat) (l : list A) :
  Permutation idx (seq 0 (length l)) -> Permutation (take idx l) l.
Proof.
  intros Hperm. rewrite <- (take_all l) at 2.
  unfold take. now apply Permutation_flat_map.
Qed.

Lemma nth_error_combine_eq {A B} (a : list A) (b : list B) i :
  length a = length b ->
  nth_error (combine a b) i
  = match nth_error a i, nth_error b i with
    | Some x, Some y => Some (x, y)
    | _, _ => None
    end
  /\ (nth_error a i = None <-> nth_error b i = None).
Proof.
  revert b i; induction a as [|x a IH]; intros [|y b] [|i]; simpl;
    try discriminate; intros Hlen; try (split; [reflexivity|tauto]).
  - split; [reflexivity|]. split; discriminate.
  - apply IH. congruence.
Qed.

Lemma take_combine {A B} (idx : list nat) (a : list A) (b : list B) :
  length a = length b ->
  take idx (combine a b) = combine (take idx a) (take idx b).
Proof.
  intros Hlen. induction idx as [|i idx IH]; simpl; [reflexivity|].
  destruct (nth_error_combine_eq a b i Hlen) as [-> Hnone].
  destruct (nth_error a i) as [x|], (nth_error b i) as [y|]; simpl;
    try (now rewrite IH).
  - destruct Hnone as [_ Hb]. discriminate (Hb eq_refl).
  - destruct Hnone as [Ha _]. discriminate (Ha eq_refl).
Qed.

Lemma take_length {A} (idx : list nat) (l : list A) :
  Permutation idx (seq 0 (length l)) -> length (take idx l) = length l.
Proof. intros Hperm. apply Permutation_length. now apply take_perm. Qed.

(** *** [nargsort] *)

Section Nargsort.

Context {K : Type} (leb : K -> K -> bool).

Hypothesis leb_total : forall a b, leb a b = false -> leb b a = true.

Lemma split_items_perm (items : list (nat * option K)) :
  Permutation
    (map fst (flat_map (fun p : nat * option K =>
                          match snd p with
                          | Some k => [(fst p, k)]
                          | None => []
                          end) items)
     ++ flat_map (fun p : nat * option K =>
                    match snd p with
                    | Some _ => []
                    | None => [fst p]
                    end) items)
    (map fst items).
Proof.
  induction items as [|[i [k|]] items IH]; simpl.
  - reflexivity.
  - now apply perm_skip.
  - rewrite <- Permutation_middle. now apply perm_skip.
Qed.

Lemma nargsort_perm (keys : list (option K)) :
  Permutation (nargsort leb keys) (seq 0 (length keys)).
Proof.
  unfold nargsort. rewrite <- enumerate_fst.
  rewrite <- (split_items_perm (enumerate keys)).
  apply Permutation_app_tail, Permutation_map.
  apply sort_by_perm.
Qed.

Lemma present_items_nth (keys : list (option K)) (p : nat * K) :
  In p (present_items keys) ->
  nth_error keys (fst p) = Some (Some (snd p)).
Proof.
  unfold present_items. rewrite in_flat_map.
  intros [[i [k|]] [Hin Hp]]; simpl in Hp; [|contradiction].
  destruct Hp as [<-|[]]. simpl. now apply enumerate_nth.
Qed.

Lemma missing_positions_nth (keys : list (option K)) i :
  In i (missing_positions keys) -> nth_error keys i = Some None.
Proof.
  unfold missing_positions. rewrite in_flat_map.
  intros [[j [k|]] [Hin Hp]]; simpl in Hp; [contradiction|].
  destruct Hp as [<-|[]]. now apply enumerate_nth.
Qed.

(** The keys in the order of [nargsort]: the present keys, sorted,
    then the missing ones. *)
Lemma take_nargsort (keys : list (option K)) :
  take (nargsort leb keys) keys
  = map Some (map snd (sorted_items leb keys))
    ++ map (fun _ => None) (missing_positions keys).
Proof.
  unfold nargsort. rewrite take_app. f_equal.
  - rewrite map_map. apply take_map. intros p Hp.
    apply present_items_nth. eapply Permutation_in; [|exact Hp].
    apply sort_by_perm.
  - rewrite <- (map_id (missing_positions keys)) at 1.
    apply take_map. intros i Hi. now apply missing_positions_nth.
Qed.

Lemma sorted_items_sorted (keys : list (option K)) :
  Sorted (fun a b => leb a b = true) (map snd (sorted_items leb keys)).
Proof.
  pose proof (sort_by_sorted (fun a b : nat * K => leb (snd a) (snd b))
                (fun a b => leb_total (snd a) (snd b))
                (present_items keys)) as Hs.
  fold (sorted_items leb keys) in Hs.
  induction Hs as [|p l Hs IH Hhd]; simpl; constructor; [assumption|].
  destruct Hhd; simpl; constructor. assumption.
Qed.

End Nargsort.

Lemma present_then_missing_sorted (xs : list Timestamp) (k : list nat) :
  Sorted (fun a b => ts_leb a b = true) xs ->
  Sorted date_le (map Some xs ++ map (fun _ => None) k).
Proof.
  induction 1 as [|x xs Hs IH Hhd]; simpl.
  - induction k as [|i k IHk]; simpl; constructor; [assumption|].
    destruct k; simpl; constructor. reflexivity.
  - constructor; [assumption|].
    destruct Hhd as [|y xs' Hxy]; simpl.
    + destruct k; simpl; constructor. reflexivity.
    + constructor. exact Hxy.
Qed.

(** A datetime column sorted by [nargsort] is sorted by date, missing
    dates last. *)
Lemma take_nargsort_dates (v : list (option Timestamp)) :
  exists present missing,
    take (nargsort ts_leb v) v
    = map Some present ++ repeat None missing
    /\ Sorted (fun a b => ts_leb a b = true) present
    /\ Sorted date_le (take (nargsort ts_leb v) v).
Proof.
  pose proof (take_nargsort ts_leb v) as Htake.
  pose proof (sorted_items_sorted ts_leb ts_leb_total v) as Hsorted.
  exists (map snd (sorted_items ts_leb v)),
         (length (missing_positions v)).
  assert (Hrep : forall k : list nat,
             map (fun _ : nat => @None Timestamp) k
             = repeat None (length k)).
  { induction k as [|i k IH]; simpl; [reflexivity|now rewrite IH]. }
  specialize (Hrep (missing_positions v)).
  rewrite Htake. split; [now rewrite Hrep|]. split; [assumption|].
  now apply present_then_missing_sorted.
Qed.

(** ** Setting and dropping columns *)

Lemma has_label_In name df : has_label name df = true <-> In name (labels df).
Proof.
  unfold has_label. rewrite existsb_exists. split.
  - intros [x [Hin Heq]]. apply String.eqb_eq in Heq. now subst.
  - intros Hin. exists name. split; [assumption|apply String.eqb_refl].
Qed.

Lemma setitem_inv df name s df' :
  setitem df name s = Ok df' ->
  series_len s = nrows df
  /\ index df' = index df
  /\ (columns df'
      = map (fun c => if (fst c =? name)%string then (name, s) else c)
          (columns df)
      /\ In name (labels df)
      \/ columns df' = columns df ++ [(name, s)] /\ ~ In name (labels df)).
Proof.
  unfold setitem. destruct (series_len s =? nrows df)%nat eqn:Hlen;
    simpl; [|discriminate].
  apply Nat.eqb_eq in Hlen.
  destruct (has_label name df) eqn:Hhas; intros [= <-]; simpl.
  - apply has_label_In in Hhas. tauto.
  - split; [assumption|]. split; [reflexivity|]. right.
    split; [reflexivity|]. rewrite <- has_label_In. congruence.
Qed.

Lemma drop_inv df c df' :
  drop df c = Ok df' ->
  index df' = index df
  /\ columns df' = filter (fun x => negb (fst x =? c)%string) (columns df).
Proof.
  unfold drop. destruct (has_label c df); [|discriminate].
  intros [= <-]. split; reflexivity.
Qed.

Section Columns.

Variables (name : string) (s : Series).

Let put (c : string * Series) : string * Series :=
  if (fst c =? name)%string then (name, s) else c.

Lemma put_fst c : fst (put c) = fst c.
Proof.
  unfold put. destruct (fst c =? name)%string eqn:H; [|reflexivity].
  apply String.eqb_eq in H. now rewrite H.
Qed.

Lemma labels_put cols : map fst (map put cols) = map fst cols.
Proof. rewrite map_map. apply map_ext, put_fst. Qed.

Lemma named_put_same cols :
  Forall (eq s) (map snd (filter (fun c => (fst c =? name)%string)
                            (map put cols))).
Proof.
  induction cols as [|c cols IH]; simpl; [constructor|].
  rewrite put_fst. destruct (fst c =? name)%string eqn:H; [|assumption].
  simpl. constructor; [|assumption]. unfold put. now rewrite H.
Qed.

Lemma named_put_other n cols :
  n <> name ->
  filter (fun c => (fst c =? n)%string) (map put cols)
  = filter (fun c => (fst c =? n)%string) cols.
Proof.
  intros Hn. induction cols as [|c cols IH]; simpl; [reflexivity|].
  rewrite put_fst, IH. destruct (fst c =? n)%string eqn:H; [|reflexivity].
  f_equal. unfold put. destruct (fst c =? name)%string eqn:H';
    [|reflexivity].
  apply String.eqb_eq in H, H'. congruence.
Qed.

End Columns.

Lemma columns_named_app name df cols :
  map snd (filter (fun c => (fst c =? name)%string) (columns df ++ cols))
  = columns_named name df
    ++ map snd (filter (fun c => (fst c =? name)%string) cols).
Proof. unfold columns_named. now rewrite filter_app, map_app. Qed.

Lemma columns_named_nil name df :
  columns_named name df = [] <-> ~ In name (labels df).
Proof.
  unfold columns_named, labels.
  induction (columns df) as [|[n s] cols IH]; simpl; [tauto|].
  destruct (n =? name)%string eqn:H; simpl.
  - apply String.eqb_eq in H. split; [discriminate|tauto].
  - apply String.eqb_neq in H. tauto.
Qed.

Lemma columns_named_filter name c cols :
  c <> name ->
  filter (fun x : string * Series => (fst x =? name)%string)
    (filter (fun x => negb (fst x =? c)%string) cols)
  = filter (fun x => (fst x =? name)%string) cols.
Proof.
  intros Hc. induction cols as [|[n s] cols IH]; simpl; [reflexivity|].
  destruct (n =? c)%string eqn:H1; simpl.
  - destruct (n =? name)%string eqn:H2; [|assumption].
    apply String.eqb_eq in H1, H2. congruence.
  - now rewrite IH.
Qed.

(** *** The step [updated] *)

Section Updated.

Variables (name : string) (s : Series) (c : option string)
          (df df' : DataFrame).

Hypothesis Hstep : updated name s c df df'.

Lemma updated_index : index df' = index df.
Proof.
  destruct Hstep as [dfa [Hset Hdrop]].
  apply setitem_inv in Hset. destruct Hset as [_ [Hidx _]].
  destruct c as [c'|]; [|now subst].
  destruct Hdrop as [_ Hdrop]. apply drop_inv in Hdrop.
  destruct Hdrop as [-> _]. assumption.
Qed.

Lemma updated_nrows : nrows df' = nrows df.
Proof. unfold nrows. now rewrite updated_index. Qed.

Lemma updated_len : series_len s = nrows df.
Proof.
  destruct Hstep as [dfa [Hset _]]. now apply setitem_inv in Hset.
Qed.

Lemma updated_labels x :
  In x (labels df') <->
  (In x (labels df) \/ x = name) /\ c <> Some x.
Proof.
  destruct Hstep as [dfa [Hset Hdrop]].
  apply setitem_inv in Hset. destruct Hset as [_ [_ Hcols]].
  assert (Ha : In x (labels dfa) <-> In x (labels df) \/ x = name).
  { unfold labels. destruct Hcols as [[-> Hin]|[-> Hnin]].
    - rewrite labels_put. split; [tauto|]. intros [H| ->]; assumption.
    - rewrite map_app, in_app_iff. simpl. intuition. }
  destruct c as [c'|].
  - destruct Hdrop as [Hne Hdrop]. apply drop_inv in Hdrop.
    destruct Hdrop as [_ Hdrop]. unfold labels in *. rewrite Hdrop.
    rewrite <- Ha. clear. split.
    + rewrite in_map_iff. intros [[n v] [<- Hin]]. apply filter_In in Hin.
      simpl in *. destruct Hin as [Hin Hneq]. split.
      * apply in_map_iff. now exists (n, v).
      * apply negb_true_iff, String.eqb_neq in Hneq. congruence.
    + rewrite in_map_iff. intros [[[n v] [<- Hin]] Hneq]. simpl in *.
      apply in_map_iff. exists (n, v). split; [reflexivity|].
      apply filter_In. split; [assumption|]. simpl.
      apply negb_true_iff, String.eqb_neq. congruence.
  - subst df'. rewrite Ha. intuition discriminate.
Qed.

Lemma updated_has_name : In name (labels df').
Proof.
  apply updated_labels. split; [now right|].
  destruct Hstep as [dfa [_ Hdrop]]. destruct c as [c'|]; [|discriminate].
  destruct Hdrop as [Hne _]. congruence.
Qed.

Lemma updated_named_same :
  columns_named name df' <> []
  /\ Forall (eq s) (columns_named name df').
Proof.
  split; [rewrite columns_named_nil; intros H; apply H, updated_has_name|].
  destruct Hstep as [dfa [Hset Hdrop]].
  apply setitem_inv in Hset. destruct Hset as [_ [_ Hcols]].
  assert (Ha : Forall (eq s) (columns_named name dfa)).
  { unfold columns_named at 1. destruct Hcols as [[-> Hin]|[-> Hnin]].
    - apply named_put_same.
    - rewrite columns_named_app.
      apply columns_named_nil in Hnin. rewrite Hnin. simpl.
      rewrite String.eqb_refl. simpl. now constructor. }
  destruct c as [c'|]; [|now subst].
  destruct Hdrop as [Hne Hdrop]. apply drop_inv in Hdrop.
  destruct Hdrop as [_ Hdrop]. unfold columns_named in *.
  now rewrite Hdrop, columns_named_filter.
Qed.

Lemma updated_named_other n :
  n <> name -> c <> Some n ->
  columns_named n df' = columns_named n df.
Proof.
  intros Hn Hc. destruct Hstep as [dfa [Hset Hdrop]].
  apply setitem_inv in Hset. destruct Hset as [_ [_ Hcols]].
  assert (Ha : columns_named n dfa = columns_named n df).
  { unfold columns_named at 1. destruct Hcols as [[-> Hin]|[-> Hnin]].
    - now rewrite named_put_other.
    - rewrite columns_named_app. simpl.
      destruct (name =? n)%string eqn:H; simpl; [|apply app_nil_r].
      apply String.eqb_eq in H. congruence. }
  destruct c as [c'|]; [|now subst].
  destruct Hdrop as [Hne Hdrop]. apply drop_inv in Hdrop.
  destruct Hdrop as [_ Hdrop]. rewrite <- Ha. unfold columns_named.
  rewrite Hdrop, columns_named_filter; [reflexivity|congruence].
Qed.

(** The labels that read as [n], when neither [name] nor the dropped
    label does. *)
Lemma updated_labels_like n :
  PyStr.lower name <> n ->
  (forall c', c = Some c' -> PyStr.lower c' <> n) ->
  labels_like n df' = labels_like n df.
Proof.
  intros Hname Hc. destruct Hstep as [dfa [Hset Hdrop]].
  apply setitem_inv in Hset. destruct Hset as [_ [_ Hcols]].
  assert (Ha : labels_like n dfa = labels_like n df).
  { unfold labels_like, labels. destruct Hcols as [[-> Hin]|[-> Hnin]].
    - now rewrite labels_put.
    - rewrite map_app, filter_app. simpl.
      destruct (PyStr.lower name =? n)%string eqn:H;
        [|apply app_nil_r].
      apply String.eqb_eq in H. contradiction. }
  destruct c as [c'|]; [|now subst].
  destruct Hdrop as [Hne Hdrop]. apply drop_inv in Hdrop.
  destruct Hdrop as [_ Hdrop]. rewrite <- Ha.
  unfold labels_like, labels. rewrite Hdrop.
  specialize (Hc c' eq_refl). clear - Hc.
  induction (columns dfa) as [|[x v] cols IH]; simpl; [reflexivity|].
  destruct (x =? c')%string eqn:H1; simpl.
  - apply String.eqb_eq in H1. subst x.
    destruct (PyStr.lower c' =? n)%string eqn:H2; [|assumption].
    apply String.eqb_eq in H2. contradiction.
  - now rewrite IH.
Qed.

End Updated.

Lemma updated_nodup name s c df df' :
  updated name s c df df' -> NoDup (labels df) -> NoDup (labels df').
Proof.
  intros [dfa [Hset Hdrop]] Hnd.
  apply setitem_inv in Hset. destruct Hset as [_ [_ Hcols]].
  assert (Ha : NoDup (labels dfa)).
  { unfold labels in *. destruct Hcols as [[-> Hin]|[-> Hnin]].
    - now rewrite labels_put.
    - rewrite map_app. simpl.
      apply NoDup_app; [assumption|repeat constructor; tauto|].
      intros x Hx [<-|[]]. contradiction. }
  destruct c as [c'|]; [|now subst].
  destruct Hdrop as [_ Hdrop]. apply drop_inv in Hdrop.
  destruct Hdrop as [_ Hdrop]. unfold labels in *. rewrite Hdrop.
  clear - Ha. induction (columns dfa) as [|[x v] cols IH]; simpl;
    [constructor|].
  inversion Ha as [|? ? Hnin Hnd]; subst.
  destruct (x =? c')%string; simpl; [now apply IH|].
  constructor; [|now apply IH].
  intros Hin. apply Hnin. apply in_map_iff in Hin.
  destruct Hin as [y [Hy Hin]]. apply filter_In in Hin.
  apply in_map_iff. exists y. tauto.
Qed.

Lemma updated_rectangular name s c df df' :
  updated name s c df df' -> rectangular df -> rectangular df'.
Proof.
  intros Hstep Hrect. pose proof (updated_nrows _ _ _ _ _ Hstep) as Hn.
  destruct Hstep as [dfa [Hset Hdrop]].
  apply setitem_inv in Hset. destruct Hset as [Hlen [Hidx Hcols]].
  unfold rectangular in *. rewrite Hn.
  assert (Ha : Forall (fun x => series_len (snd x) = nrows df) (columns dfa)).
  { destruct Hcols as [[-> Hin]|[-> Hnin]].
    - rewrite Forall_map. eapply Forall_impl; [|exact Hrect].
      intros x Hx. simpl. now destruct (fst x =? name)%string.
    - apply Forall_app. split; [assumption|]. now repeat constructor. }
  destruct c as [c'|]; [|now subst].
  destruct Hdrop as [_ Hdrop]. apply drop_inv in Hdrop.
  destruct Hdrop as [_ ->]. rewrite Forall_forall in *.
  intros x Hx. apply filter_In in Hx. now apply Ha.
Qed.

Lemma updated_exists name s c df :
  series_len s = nrows df ->
  (forall c', c = Some c' -> c' <> name /\ In c' (labels df)) ->
  exists df', updated name s c df df'.
Proof.
  intros Hlen Hc.
  assert (Hset : exists dfa, setitem df name s = Ok dfa).
  { unfold setitem. rewrite Hlen, Nat.eqb_refl. simpl.
    destruct (has_label name df); eexists; reflexivity. }
  destruct Hset as [dfa Hset]. destruct c as [c'|].
  - destruct (Hc c' eq_refl) as [Hne Hin].
    assert (Hin' : In c' (labels dfa)).
    { apply (updated_labels name s None df dfa); [now exists dfa|].
      split; [tauto|discriminate]. }
    apply has_label_In in Hin'.
    exists {| index := index dfa;
              columns := filter (fun x => negb (fst x =? c')%string)
                           (columns dfa) |}.
    exists dfa. split; [assumption|]. split; [assumption|].
    unfold drop. now rewrite Hin'.
  - exists dfa, dfa. tauto.
Qed.

Lemma nodup_single name df :
  NoDup (labels df) -> columns_named name df <> [] ->
  exists s, columns_named name df = [s].
Proof.
  unfold labels, columns_named.
  induction (columns df) as [|[n v] cols IH]; simpl; intros Hnd Hne;
    [contradiction|].
  inversion Hnd as [|? ? Hnin Hnd']; subst.
  destruct (n =? name)%string eqn:H; simpl in *; [|now apply IH].
  apply String.eqb_eq in H. subst n. exists v. f_equal.
  clear - Hnin. induction cols as [|[n w] cols IH]; simpl in *;
    [reflexivity|].
  destruct (n =? name)%string eqn:H.
  - apply String.eqb_eq in H. tauto.
  - apply IH. tauto.
Qed.

(** *** Picking rows by position *)

Lemma columns_named_take_rows name idx df :
  columns_named name (take_rows idx df)
  = map (take_series idx) (columns_named name df).
Proof.
  unfold columns_named, take_rows; simpl.
  induction (columns df) as [|[n s] l IH]; simpl; [reflexivity|].
  destruct (n =? name)%string; simpl; now rewrite IH.
Qed.

Lemma labels_take_rows idx df : labels (take_rows idx df) = labels df.
Proof. unfold labels, take_rows; simpl. now rewrite map_map. Qed.

Lemma date_column_single df s :
  columns_named "date" df = [s] -> date_column df = Ok s.
Proof. unfold date_column, getitem. now intros ->. Qed.

Lemma sort_values_inv df name out :
  sort_values df name = Ok out ->
  exists s, columns_named name df = [s]
            /\ out = take_rows (argsort_series s) df.
Proof.
  unfold sort_values, getitem.
  destruct (columns_named name df) as [|s [|s' l]]; try discriminate.
  intros [= <-]. now exists s.
Qed.

Lemma columns_named_reset_index name df :
  columns_named name (reset_index df) = columns_named name df.
Proof. reflexivity. Qed.

Lemma labels_reset_index df : labels (reset_index df) = labels df.
Proof. reflexivity. Qed.

(** ** The loader, step by step *)

Lemma labels_like_head n df c rest :
  labels_like n df = c :: rest -> In c (labels df) /\ PyStr.lower c = n.
Proof.
  unfold labels_like. intros H.
  assert (Hin : In c (filter (fun col => (PyStr.lower col =? n)%string)
                        (labels df))) by (rewrite H; now left).
  apply filter_In in Hin. destruct Hin as [Hin Heq].
  now apply String.eqb_eq in Heq.
Qed.

Lemma getitem_single df name s :
  getitem df name = Ok (OneColumn s) -> columns_named name df = [s].
Proof.
  unfold getitem. destruct (columns_named name df) as [|x [|y l]];
    try discriminate. now intros [= ->].
Qed.

Section LoaderSteps.

Context {platform : Platform}.

Lemma normalize_date_updated df df2 :
  normalize_date df = Ok df2 ->
  exists d c,
    updated "date" (DatetimeS d) c df df2
    /\ (forall c', c = Some c' -> PyStr.lower c' = "date")
    /\ (forall c' rest, labels_like "date" df = c' :: rest ->
                        c' <> "date" -> c = Some c').
Proof.
  unfold normalize_date.
  destruct (labels_like "date" df) as [|c rest] eqn:Hlike.
  - destruct (iloc_first df) as [src|e]; simpl; [|discriminate].
    destruct (to_datetime src) as [d|e]; simpl; [|discriminate].
    intros Hset. exists d, None. split; [now exists df2|].
    split; [discriminate|]. intros c' rest' [=].
  - apply labels_like_head in Hlike. destruct Hlike as [_ Hlow].
    destruct (getitem df c) as [[src|l]|e]; simpl; try discriminate.
    destruct (to_datetime src) as [d|e]; simpl; [|discriminate].
    destruct (setitem df "date" (DatetimeS d)) as [dfa|e] eqn:Hset;
      simpl; [|discriminate].
    destruct (c =? "date")%string eqn:Hc; simpl.
    + intros [= <-]. exists d, None. split; [now exists dfa|].
      split; [discriminate|]. intros c' rest' [= <- _] Hne.
      apply String.eqb_eq in Hc. contradiction.
    + intros Hdrop. apply String.eqb_neq in Hc.
      exists d, (Some c). split; [exists dfa; tauto|].
      split; [now intros c' [= <-]|]. now intros c' rest' [= <- _].
Qed.

Lemma normalize_price_updated df df3 :
  normalize_price df = Ok df3 ->
  labels_like "price" df = [] /\ df3 = df
  \/ exists c rest src copt,
       labels_like "price" df = c :: rest
       /\ columns_named c df = [src]
       /\ updated "price" (to_numeric_coerce src) copt df df3
       /\ (forall c', copt = Some c' -> c' = c).
Proof.
  unfold normalize_price.
  destruct (labels_like "price" df) as [|c rest] eqn:Hlike.
  - intros [= <-]. now left.
  - destruct (getitem df c) as [[src|l]|e] eqn:Hget; simpl;
      try discriminate.
    apply getitem_single in Hget.
    destruct (setitem df "price" (to_numeric_coerce src)) as [dfa|e]
      eqn:Hset; simpl; [|discriminate].
    intros Hdrop. right. exists c, rest, src.
    destruct (c =? "price")%string eqn:Hc; simpl in Hdrop.
    + injection Hdrop as <-. exists None.
      repeat split; try assumption; [now exists dfa|discriminate].
    + apply String.eqb_neq in Hc. exists (Some c).
      repeat split; try assumption; [exists dfa; tauto|now intros c' [= <-]].
Qed.

(** The price step leaves the date columns alone. *)
Lemma normalize_price_keeps_date df df3 :
  normalize_price df = Ok df3 ->
  columns_named "date" df3 = columns_named "date" df
  /\ index df3 = index df
  /\ (In "date" (labels df) -> In "date" (labels df3))
  /\ (forall x, In x (labels df3) -> In x (labels df) \/ x = "price").
Proof.
  intros Hp. apply normalize_price_updated in Hp.
  destruct Hp as [[_ ->]|[c [rest [src [copt [Hlike [_ [Hstep Hc]]]]]]]];
    [tauto|].
  apply labels_like_head in Hlike. destruct Hlike as [_ Hlow].
  assert (Hnd : copt <> Some "date").
  { intros ->. specialize (Hc _ eq_refl). subst c. discriminate. }
  split; [|split; [|split]].
  - apply (updated_named_other _ _ _ _ _ Hstep); [discriminate|assumption].
  - apply (updated_index _ _ _ _ _ Hstep).
  - intros Hin. apply (updated_labels _ _ _ _ _ Hstep). tauto.
  - intros x Hx. now apply (updated_labels _ _ _ _ _ Hstep) in Hx.
Qed.

Lemma process_inv raw out :
  process raw = Ok out ->
  exists df2 df3 s,
    normalize_date (strip_labels raw) = Ok df2
    /\ normalize_price df2 = Ok df3
    /\ columns_named "date" df3 = [s]
    /\ out = reset_index (take_rows (argsort_series s) df3).
Proof.
  unfold process.
  destruct (normalize_date (strip_labels raw)) as [df2|e] eqn:Hdate;
    simpl; [|discriminate].
  destruct (normalize_price df2) as [df3|e] eqn:Hprice; simpl;
    [|discriminate].
  destruct (sort_values df3 "date") as [df4|e] eqn:Hsort; simpl;
    [|discriminate].
  intros [= <-]. apply sort_values_inv in Hsort.
  destruct Hsort as [s [Hs ->]]. now exists df2, df3, s.
Qed.

Lemma load_inv path out :
  load_and_process_data path = Ok (Some out) ->
  PyStr.truthy path = true /\ path_exists path = true
  /\ exists raw, read_csv path = Ok raw /\ process raw = Ok out.
Proof.
  unfold load_and_process_data.
  destruct (PyStr.truthy path); simpl; [|discriminate].
  destruct (path_exists path); simpl; [|discriminate].
  destruct (read_csv path) as [raw|e]; simpl; [|discriminate].
  destruct (process raw) as [df|e] eqn:Hp; simpl; [|discriminate].
  intros [= <-]. split; [reflexivity|]. split; [reflexivity|].
  now exists raw.
Qed.

Lemma load_ok path raw out :
  PyStr.truthy path = true -> path_exists path = true ->
  read_csv path = Ok raw -> process raw = Ok out ->
  load_and_process_data path = Ok (Some out).
Proof.
  intros Ht He Hr Hp. unfold load_and_process_data.
  rewrite Ht, He, Hr. simpl. now rewrite Hp.
Qed.

(** The date column of a table the loader returns: the timestamps the
    date source was read as, in the order of [nargsort]. *)
Lemma process_dates raw out :
  process raw = Ok out ->
  exists df2 d,
    normalize_date (strip_labels raw) = Ok df2
    /\ Forall (eq (DatetimeS d)) (columns_named "date" df2)
    /\ length d = nrows raw
    /\ columns_named "date" out = [DatetimeS (take (nargsort ts_leb d) d)].
Proof.
  intros Hp. apply process_inv in Hp.
  destruct Hp as [df2 [df3 [s [Hdate [Hprice [Hs ->]]]]]].
  destruct (normalize_date_updated _ _ Hdate) as [d [c [Hstep _]]].
  destruct (updated_named_same _ _ _ _ _ Hstep) as [_ Hall].
  pose proof (updated_len _ _ _ _ _ Hstep) as Hlen.
  destruct (normalize_price_keeps_date _ _ Hprice) as [Hcols _].
  rewrite <- Hcols, Hs in Hall. inversion Hall as [|? ? Heq _]; subst.
  exists df2, d. split; [assumption|]. split; [now rewrite <- Hcols, Hs|].
  split; [exact Hlen|].
  rewrite columns_named_reset_index, columns_named_take_rows, Hs.
  reflexivity.
Qed.

End LoaderSteps.

(** ** The price step *)

Lemma strip_labels_rectangular df :
  rectangular df -> rectangular (strip_labels df).
Proof.
  unfold rectangular, strip_labels, nrows; simpl. intros H.
  rewrite Forall_map. exact H.
Qed.

Lemma rectangular_named df name s :
  rectangular df -> In s (columns_named name df) -> series_len s = nrows df.
Proof.
  unfold rectangular, columns_named. rewrite Forall_forall.
  intros Hrect Hin. apply in_map_iff in Hin.
  destruct Hin as [c [<- Hc]]. apply filter_In in Hc. now apply Hrect.
Qed.

Lemma getitem_of_single df name s :
  columns_named name df = [s] -> getitem df name = Ok (OneColumn s).
Proof. unfold getitem. now intros ->. Qed.

Lemma single_of_forall {A} (x y : A) :
  Forall (eq x) [y] -> [y] = [x].
Proof. intros H. inversion H; subst. reflexivity. Qed.

Section PriceStep.

Context {platform : Platform}.

Lemma to_numeric_coerce_numeric s :
  exists v, to_numeric_coerce s = NumericS v /\ length v = series_len s.
Proof.
  destruct s as [v|v|v]; simpl; eexists; split; try reflexivity;
    now rewrite ?length_map.
Qed.

Lemma normalize_price_ok df c rest src :
  labels_like "price" df = c :: rest ->
  columns_named c df = [src] ->
  series_len src = nrows df ->
  exists df3 copt,
    normalize_price df = Ok df3
    /\ updated "price" (to_numeric_coerce src) copt df df3.
Proof.
  intros Hlike Hsrc Hlen.
  destruct (to_numeric_coerce_numeric src) as [v [Hv Hvlen]].
  assert (Hin : In c (labels df)).
  { destruct (labels_like_head _ _ _ _ Hlike) as [Hin _]. exact Hin. }
  destruct (updated_exists "price" (to_numeric_coerce src)
              (if (c =? "price")%string then None else Some c) df)
    as [df3 Hstep].
  { rewrite Hv. simpl. congruence. }
  { intros c' Hc'. destruct (c =? "price")%string eqn:Hc;
      [discriminate|]. injection Hc' as <-.
    apply String.eqb_neq in Hc. tauto. }
  exists df3, (if (c =? "price")%string then None else Some c).
  split; [|assumption].
  unfold normalize_price. rewrite Hlike.
  rewrite (getitem_of_single _ _ _ Hsrc). simpl.
  destruct Hstep as [dfa [-> Hdrop]]. simpl.
  destruct (c =? "price")%string; simpl.
  - now subst.
  - tauto.
Qed.

End PriceStep.

Lemma process_ok_with_price {platform : Platform} (raw df2 : DataFrame)
  (c : string) (rest : list string) :
  rectangular raw ->
  NoDup (labels (strip_labels raw)) ->
  normalize_date (strip_labels raw) = Ok df2 ->
  labels_like "price" (strip_labels raw) = c :: rest ->
  exists src coerced out,
    columns_named c (strip_labels raw) = [src]
    /\ to_numeric_coerce src = NumericS coerced
    /\ length coerced = nrows raw
    /\ length (dates df2) = nrows raw
    /\ process raw = Ok out
    /\ nrows out = nrows raw
    /\ columns_named "date" out
       = [DatetimeS (take (nargsort ts_leb (dates df2)) (dates df2))]
    /\ columns_named "price" out
       = [NumericS (take (nargsort ts_leb (dates df2)) coerced)].
Proof.
  intros Hrect Hnd Hdate Hlike.
  remember (strip_labels raw) as df1 eqn:Hdf1.
  assert (Hrect1 : rectangular df1)
    by (subst df1; now apply strip_labels_rectangular).
  assert (Hn1 : nrows df1 = nrows raw) by now subst df1.
  destruct (normalize_date_updated _ _ Hdate) as [d [copt [Hstep [Hlow _]]]].
  pose proof (updated_nodup _ _ _ _ _ Hstep Hnd) as Hnd2.
  pose proof (updated_rectangular _ _ _ _ _ Hstep Hrect1) as Hrect2.
  pose proof (updated_nrows _ _ _ _ _ Hstep) as Hn2.
  pose proof (updated_len _ _ _ _ _ Hstep) as Hdlen. simpl in Hdlen.
  destruct (updated_named_same _ _ _ _ _ Hstep) as [Hne Hall].
  destruct (nodup_single "date" df2 Hnd2 Hne) as [s Hs].
  rewrite Hs in Hall. apply single_of_forall in Hall. rewrite Hall in Hs.
  clear s Hall Hne.
  assert (Hdates : dates df2 = d).
  { unfold dates. now rewrite (date_column_single _ _ Hs). }
  (* the price source *)
  destruct (labels_like_head _ _ _ _ Hlike) as [Hin Hclow].
  assert (Hsrc : exists src, columns_named c df1 = [src]).
  { apply nodup_single; [assumption|]. now rewrite columns_named_nil. }
  destruct Hsrc as [src Hsrc].
  assert (Hsrc2 : columns_named c df2 = [src]).
  { rewrite <- Hsrc. apply (updated_named_other _ _ _ _ _ Hstep).
    - intros ->. discriminate.
    - intros ->. specialize (Hlow _ eq_refl). congruence. }
  assert (Hlike2 : labels_like "price" df2 = c :: rest).
  { rewrite <- Hlike. apply (updated_labels_like _ _ _ _ _ Hstep);
      [discriminate|].
    intros c' Hc'. rewrite (Hlow c' Hc'). discriminate. }
  assert (Hlen : series_len src = nrows df2).
  { rewrite Hn2. apply (rectangular_named df1 c); [assumption|].
    rewrite Hsrc. now left. }
  destruct (to_numeric_coerce_numeric src) as [coerced [Hco Hcolen]].
  destruct (normalize_price_ok df2 c rest src Hlike2 Hsrc2 Hlen)
    as [df3 [copt' [Hprice Hstep']]].
  pose proof (updated_nodup _ _ _ _ _ Hstep' Hnd2) as Hnd3.
  pose proof (updated_nrows _ _ _ _ _ Hstep') as Hn3.
  destruct (updated_named_same _ _ _ _ _ Hstep') as [Hne' Hall'].
  destruct (nodup_single "price" df3 Hnd3 Hne') as [p Hp].
  rewrite Hp in Hall'. apply single_of_forall in Hall'. rewrite Hall' in Hp.
  clear p Hall' Hne'.
  destruct (normalize_price_keeps_date _ _ Hprice) as [Hd3 _].
  rewrite Hs in Hd3.
  exists src, coerced,
    (reset_index (take_rows (nargsort ts_leb d) df3)).
  rewrite Hdates.
  split; [assumption|]. split; [assumption|].
  split; [now rewrite Hcolen, Hlen, Hn2|].
  split; [now rewrite Hdlen|]. split.
  { unfold process. rewrite <- Hdf1, Hdate. simpl. rewrite Hprice. simpl.
    unfold sort_values. rewrite (getitem_of_single _ _ _ Hd3). reflexivity. }
  split.
  { unfold nrows, reset_index; simpl. rewrite length_map, length_seq.
    unfold nrows; simpl. rewrite take_length.
    - fold (nrows df3). now rewrite Hn3, Hn2.
    - replace (length (index df3)) with (length d).
      + apply nargsort_perm.
      + fold (nrows df3). now rewrite Hn3, Hn2. }
  split.
  - now rewrite columns_named_reset_index, columns_named_take_rows, Hd3.
  - rewrite columns_named_reset_index, columns_named_take_rows, Hp, Hco.
    reflexivity.
Qed.

(* ================================================================== *)
(** * The filter engine *)

(** C1. On a normalized table, [filter_data] with month ["March"], year
    ["2023"] and no date range returns a table whose rows are exactly the
    rows of the input dated in March 2023, in their order: every row
    returned has month 3 and year 2023, and every such row of the input
    is returned. *)
Theorem filter_march_2023_exact (h : Store) (l : ref) (df : DataFrame) :
  nth_error h l = Some df ->
  normalized df = true ->
  exists r h' out,
    filter_data l None (Some "March") (Some "2023") h = (Ok r, h')
    /\ nth_error h' r = Some out
    /\ records out
       = filter (fun rc => month_is 3 (fst rc) && year_is 2023 (fst rc))
           (records df)
    /\ (forall rc, In rc (records out) ->
          month_is 3 (fst rc) = true /\ year_is 2023 (fst rc) = true)
    /\ (forall rc, In rc (records df) ->
          month_is 3 (fst rc) = true -> year_is 2023 (fst rc) = true ->
          In rc (records out)).
Proof.
  intros Hl Hn.
  set (test := fun d => month_is 3 d && year_is 2023 d).
  destruct (filter_data_normalized h l df None (Some "March") (Some "2023")
              (Some test) Hl Hn eq_refl) as [r [fresh [Hrun [_ Hout]]]].
  exists r, (h ++ fresh), (keep (Some test) df).
  assert (Hrec : records (keep (Some test) df)
                 = filter (fun rc => test (fst rc)) (records df))
    by apply records_keep.
  split; [assumption|]. split; [assumption|]. split; [exact Hrec|].
  split.
  - intros rc Hin. rewrite Hrec in Hin. apply filter_In in Hin.
    destruct Hin as [_ Hboth]. now apply andb_true_iff in Hboth.
  - intros rc Hin Hm Hy. rewrite Hrec. apply filter_In.
    split; [assumption|]. unfold test. now rewrite Hm, Hy.
Qed.

Lemma filter_march_2023_exact_witness :
  exists r h' out,
    filter_data 0%nat None (Some "March") (Some "2023") [Demo.sample]
    = (Ok r, h')
    /\ nth_error h' r = Some out
    /\ records out
       = filter (fun rc => month_is 3 (fst rc) && year_is 2023 (fst rc))
           (records Demo.sample)
    /\ (forall rc, In rc (records out) ->
          month_is 3 (fst rc) = true /\ year_is 2023 (fst rc) = true)
    /\ (forall rc, In rc (records Demo.sample) ->
          month_is 3 (fst rc) = true -> year_is 2023 (fst rc) = true ->
          In rc (records out)).
Proof.
  exact (filter_march_2023_exact [Demo.sample] 0%nat Demo.sample
           eq_refl eq_refl).
Defined.

(** The worked example: of the dates 2023-03-01, 2023-03-15, 2022-03-10
    and 2023-04-01 the first two are returned. *)
Example filter_march_2023_sample :
  let res :=
    filter_data 0%nat None (Some "March") (Some "2023") [Demo.sample] in
  fst res = Ok 3%nat
  /\ option_map dates (nth_error (snd res) 3)
     = Some [Demo.at_midnight 2023 3 1; Demo.at_midnight 2023 3 15].
Proof. split; reflexivity. Qed.

(** C3. With no date range and the month and the year unset, empty or
    ["All"], [filter_data] returns a table equal to its input, whatever
    the table. *)
Theorem filter_nothing_selected (h : Store) (l : ref) (df : DataFrame)
  (mo ye : option string) :
  nth_error h l = Some df ->
  unset mo -> unset ye ->
  exists r h',
    filter_data l None mo ye h = (Ok r, h') /\ nth_error h' r = Some df.
Proof.
  intros Hl Hmo Hye.
  pose proof (filter_data_run h l df None mo ye Hl) as Hrun.
  unfold source_order, stages_value, stage_value in Hrun.
  rewrite (selected_unset mo Hmo), (selected_unset ye Hye) in Hrun.
  apply runs_to_ok in Hrun. destruct Hrun as [r [fresh [Hrun [_ Hout]]]].
  now exists r, (h ++ fresh).
Qed.

Lemma filter_nothing_selected_witness :
  exists r h',
    filter_data 0%nat None (Some "All") None [Demo.sample] = (Ok r, h')
    /\ nth_error h' r = Some Demo.sample.
Proof.
  exact (filter_nothing_selected [Demo.sample] 0%nat Demo.sample
           (Some "All") None eq_refl
           (or_intror (or_intror eq_refl)) (or_introl eq_refl)).
Defined.

(** C7. On a normalized table, with a date range whose start is later
    than its end and a month and year selection that reads well,
    [filter_data] returns a table with the columns of the input and no
    row. *)
Theorem filter_inverted_range_empty (h : Store) (l : ref) (df : DataFrame)
  (a b : date_like) (mo ye : option string) :
  nth_error h l = Some df ->
  normalized df = true ->
  well_formed_selection mo ye = true ->
  ts_ltb (pd_to_datetime b) (pd_to_datetime a) = true ->
  exists r h' out,
    filter_data l (Some (a, b)) mo ye h = (Ok r, h')
    /\ nth_error h' r = Some out
    /\ nrows out = 0%nat
    /\ rows out = []
    /\ labels out = labels df
    /\ Forall (fun c => series_len (snd c) = 0%nat) (columns out).
Proof.
  intros Hl Hn Hsel Hlt.
  destruct (tests_of_source_order (Some (a, b)) mo ye Hsel)
    as [q [_ Htests]].
  destruct (filter_data_normalized h l df _ mo ye _ Hl Hn Htests)
    as [r [fresh [Hrun [_ Hout]]]].
  exists r, (h ++ fresh), (keep (both (range_test (Some (a, b))) q) df).
  split; [assumption|]. split; [assumption|].
  assert (Hnone : exists f, both (range_test (Some (a, b))) q = Some f
                            /\ forall d, f d = false).
  { destruct q as [g|]; simpl; eexists; split; try reflexivity;
      intros d; simpl; now rewrite in_range_inverted. }
  destruct Hnone as [f [-> Hf]]. unfold keep.
  repeat split.
  - unfold nrows, boolean_index; simpl. now rewrite select_none.
  - rewrite rows_boolean_index. now apply select_none.
  - unfold labels, boolean_index; simpl. rewrite map_map. reflexivity.
  - unfold boolean_index; simpl. apply Forall_forall.
    intros c Hc. apply in_map_iff in Hc. destruct Hc as [[n s] [<- _]].
    simpl. destruct s; simpl; now rewrite select_none.
Qed.

Lemma filter_inverted_range_empty_witness :
  exists r h' out,
    filter_data 0%nat (Some (PyDate 2023 3 15, PyDate 2023 3 1))
      (Some "All") (Some "2023") [Demo.sample] = (Ok r, h')
    /\ nth_error h' r = Some out
    /\ nrows out = 0%nat
    /\ rows out = []
    /\ labels out = labels Demo.sample
    /\ Forall (fun c => series_len (snd c) = 0%nat) (columns out).
Proof.
  exact (filter_inverted_range_empty [Demo.sample] 0%nat Demo.sample
           (PyDate 2023 3 15) (PyDate 2023 3 1) (Some "All") (Some "2023")
           eq_refl eq_refl eq_refl eq_refl).
Defined.

(** C9. [filter_data] leaves every frame of the store as it was, its
    input among them, and what it returns is a frame allocated by the
    call: a reference that was not in use before, hence no alias of the
    input. *)
Theorem filter_data_no_mutation (h : Store) (l : ref)
  (dr : option (date_like * date_like)) (mo ye : option string) :
  let res := filter_data l dr mo ye h in
  (forall k x, nth_error h k = Some x -> nth_error (snd res) k = Some x)
  /\ (forall r, fst res = Ok r ->
        r <> l /\ nth_error h r = None
        /\ exists out, nth_error (snd res) r = Some out).
Proof.
  simpl. destruct (nth_error h l) as [df|] eqn:Hl.
  - destruct (filter_data_run h l df dr mo ye Hl) as [fresh [Hs Hv]].
    pose proof (nth_error_valid _ _ _ Hl) as Hlt.
    rewrite Hs. split.
    + intros k x Hk. rewrite nth_error_app1; [assumption|].
      eapply nth_error_valid; eassumption.
    + intros r Hr. rewrite Hr in Hv.
      destruct (stages_value dr mo ye source_order df) as [out|e];
        [|contradiction].
      destruct Hv as [Hlow Hout]. split; [lia|]. split.
      * apply nth_error_None. lia.
      * now exists out.
  - assert (Hrun : filter_data l dr mo ye h = (Raise ReferenceError, h)).
    { unfold filter_data, copy, bind, deref. now rewrite Hl. }
    rewrite Hrun; simpl. split; [tauto|discriminate].
Qed.

Lemma filter_data_no_mutation_witness :
  let res := filter_data 0%nat None (Some "March") (Some "2023")
               [Demo.sample] in
  (forall k x, nth_error [Demo.sample] k = Some x ->
               nth_error (snd res) k = Some x)
  /\ (forall r, fst res = Ok r ->
        r <> 0%nat /\ nth_error [Demo.sample] r = None
        /\ exists out, nth_error (snd res) r = Some out).
Proof.
  exact (filter_data_no_mutation [Demo.sample] 0%nat None (Some "March")
           (Some "2023")).
Defined.

(** C10. On a normalized table and with a month and year selection that
    reads well, the rows [filter_data] returns are rows of the input in
    their relative order, and so are their dates; a table sorted by date
    stays sorted by date. *)
Theorem filter_data_subsequence (h : Store) (l : ref) (df : DataFrame)
  (dr : option (date_like * date_like)) (mo ye : option string) :
  nth_error h l = Some df ->
  normalized df = true ->
  well_formed_selection mo ye = true ->
  exists r h' out,
    filter_data l dr mo ye h = (Ok r, h')
    /\ nth_error h' r = Some out
    /\ subseq (rows out) (rows df)
    /\ (forall x, In x (rows out) -> In x (rows df))
    /\ subseq (dates out) (dates df)
    /\ (sorted_by_date df -> sorted_by_date out).
Proof.
  intros Hl Hn Hsel.
  destruct (tests_of_source_order dr mo ye Hsel) as [q [_ Htests]].
  destruct (filter_data_normalized h l df dr mo ye _ Hl Hn Htests)
    as [r [fresh [Hrun [_ Hout]]]].
  remember (both (range_test dr) q) as p.
  exists r, (h ++ fresh), (keep p df).
  split; [assumption|]. split; [assumption|].
  assert (Hdates : subseq (dates (keep p df)) (dates df)).
  { destruct p as [f|]; simpl; [|apply subseq_refl].
    rewrite dates_boolean_index. apply select_subseq. }
  split; [apply rows_keep_subseq|].
  split; [intros x; apply subseq_In, rows_keep_subseq|].
  split; [assumption|].
  rewrite !sorted_by_date_strong. now apply subseq_StronglySorted.
Qed.

Lemma filter_data_subsequence_witness :
  exists r h' out,
    filter_data 0%nat (Some (PyDate 2023 1 1, PyDate 2023 3 31))
      (Some "march") None [Demo.sample_sorted] = (Ok r, h')
    /\ nth_error h' r = Some out
    /\ subseq (rows out) (rows Demo.sample_sorted)
    /\ (forall x, In x (rows out) -> In x (rows Demo.sample_sorted))
    /\ subseq (dates out) (dates Demo.sample_sorted)
    /\ (sorted_by_date Demo.sample_sorted -> sorted_by_date out).
Proof.
  exact (filter_data_subsequence [Demo.sample_sorted] 0%nat
           Demo.sample_sorted (Some (PyDate 2023 1 1, PyDate 2023 3 31))
           (Some "march") None eq_refl eq_refl eq_refl).
Defined.

(** C8. On a normalized table, applying the three filters in any order
    gives what [filter_data] gives with its own order (date range, month,
    year): the same table, or in both cases the [ValueError] of a month
    or year text that does not read; and with a selection that reads well
    a table is returned. *)
Theorem filter_order_irrelevant (h : Store) (l : ref) (df : DataFrame)
  (dr : option (date_like * date_like)) (mo ye : option string)
  (order : list stage) :
  nth_error h l = Some df ->
  normalized df = true ->
  Permutation order source_order ->
  match filter_data l dr mo ye h, filter_data_in_order order l dr mo ye h with
  | (Ok r, h1), (Ok r', h2) =>
      exists out, nth_error h1 r = Some out /\ nth_error h2 r' = Some out
  | (Raise e, _), (Raise e', _) => e = ValueError /\ e' = ValueError
  | _, _ => False
  end
  /\ (well_formed_selection mo ye = true ->
      exists r h1, filter_data l dr mo ye h = (Ok r, h1)).
Proof.
  intros Hl Hn Hperm. split.
  - pose proof (tests_of_permutation dr mo ye _ _ Hperm) as Hagree.
    destruct (tests_of dr mo ye source_order) as [p|e] eqn:Hsrc,
             (tests_of dr mo ye order) as [q|e'] eqn:Hord; simpl in Hagree;
      try contradiction.
    + destruct (filter_data_normalized h l df dr mo ye p Hl Hn Hsrc)
        as [r [fresh [-> [_ Hout]]]].
      destruct (filter_data_in_order_normalized order h l df dr mo ye q
                  Hl Hn Hord) as [r' [fresh' [-> [_ Hout']]]].
      exists (keep p df). split; [assumption|].
      now rewrite <- (keep_ext q p df Hagree).
    + rewrite filter_data_source_order.
      destruct (filter_data_in_order_raises source_order h l df dr mo ye e
                  Hl Hn Hsrc) as [fresh ->].
      destruct (filter_data_in_order_raises order h l df dr mo ye e'
                  Hl Hn Hord) as [fresh' ->].
      split; eapply tests_of_raises; eassumption.
  - intros Hsel.
    destruct (tests_of_source_order dr mo ye Hsel) as [q [_ Htests]].
    destruct (filter_data_normalized h l df dr mo ye _ Hl Hn Htests)
      as [r [fresh [Hrun _]]].
    now exists r, (h ++ fresh).
Qed.

Lemma filter_order_irrelevant_witness :
  match filter_data 0%nat (Some (PyDate 2023 1 1, PyDate 2023 3 31))
          (Some "March") (Some "2023") [Demo.sample],
        filter_data_in_order [ByYear; ByDateRange; ByMonth] 0%nat
          (Some (PyDate 2023 1 1, PyDate 2023 3 31))
          (Some "March") (Some "2023") [Demo.sample] with
  | (Ok r, h1), (Ok r', h2) =>
      exists out, nth_error h1 r = Some out /\ nth_error h2 r' = Some out
  | (Raise e, _), (Raise e', _) => e = ValueError /\ e' = ValueError
  | _, _ => False
  end
  /\ (well_formed_selection (Some "March") (Some "2023") = true ->
      exists r h1,
        filter_data 0%nat (Some (PyDate 2023 1 1, PyDate 2023 3 31))
          (Some "March") (Some "2023") [Demo.sample] = (Ok r, h1)).
Proof.
  apply (filter_order_irrelevant [Demo.sample] 0%nat Demo.sample
           (Some (PyDate 2023 1 1, PyDate 2023 3 31))
           (Some "March") (Some "2023") [ByYear; ByDateRange; ByMonth]
           eq_refl eq_refl).
  eapply perm_trans; [apply perm_swap|apply perm_skip, perm_swap].
Defined.

(* ================================================================== *)
(** * The loader *)

Lemma sorted_ts_le (l : list Timestamp) :
  Sorted (fun a b => ts_leb a b = true) l -> Sorted ts_le l.
Proof.
  induction 1 as [|x l Hs IH Hhd]; constructor; [assumption|].
  destruct Hhd; constructor. now apply ts_leb_spec.
Qed.

(** C2. A table the loader returns is sorted by its date column: the
    column is of datetime dtype, every date is followed by one that is
    not earlier, and the rows without a date, if any, come last. *)
Theorem loaded_table_sorted {platform : Platform} (path : string)
  (out : DataFrame) :
  load_and_process_data path = Ok (Some out) ->
  normalized out = true
  /\ sorted_by_date out
  /\ exists present missing,
       dates out = map Some present ++ repeat None missing
       /\ Sorted ts_le present.
Proof.
  intros Hload. apply load_inv in Hload.
  destruct Hload as [_ [_ [raw [_ Hp]]]].
  apply process_dates in Hp. destruct Hp as [df2 [d [_ [_ [_ Hcol]]]]].
  apply date_column_single in Hcol.
  unfold normalized, sorted_by_date, dates. rewrite Hcol.
  destruct (take_nargsort_dates d) as [present [missing [Heq [Hs Hsorted]]]].
  split; [reflexivity|]. split; [assumption|].
  exists present, missing. split; [assumption|now apply sorted_ts_le].
Qed.

Lemma loaded_table_sorted_witness :
  exists out,
    @load_and_process_data Demo.platform "LME_Copper.csv" = Ok (Some out)
    /\ normalized out = true
    /\ sorted_by_date out
    /\ exists present missing,
         dates out = map Some present ++ repeat None missing
         /\ Sorted ts_le present.
Proof.
  eexists. split; [reflexivity|].
  apply (@loaded_table_sorted Demo.platform "LME_Copper.csv").
  reflexivity.
Defined.

(** A file with an empty date cell loads, and the row without a date is
    the last one. *)
Example loaded_table_missing_date_last :
  option_map dates
    match @load_and_process_data Demo.platform "LME_Zinc.csv" with
    | Ok r => r
    | Raise _ => None
    end
  = Some [Demo.at_midnight 2023 1 1; Demo.at_midnight 2023 1 2; None].
Proof. reflexivity. Qed.

(** C5. For a path that does not exist the loader returns [None], and
    raises nothing; [None] is not what a loaded table is, be it empty:
    the test [df is None] of the page tells them apart. *)
Theorem missing_file_is_absent {platform : Platform} (path : string) :
  path_exists path = false ->
  load_and_process_data path = Ok None
  /\ is_absent None = true
  /\ forall q table,
       load_and_process_data q = Ok (Some table) ->
       is_absent (Some table) = false
       /\ load_and_process_data q <> load_and_process_data path.
Proof.
  intros Hex.
  assert (Hnone : load_and_process_data path = Ok None).
  { unfold load_and_process_data. rewrite Hex.
    now rewrite andb_false_r. }
  split; [assumption|]. split; [reflexivity|].
  intros q table Hq. split; [reflexivity|]. rewrite Hq, Hnone.
  discriminate.
Qed.

Lemma missing_file_is_absent_witness :
  @load_and_process_data Demo.platform "LME_Iron.csv" = Ok None
  /\ is_absent None = true
  /\ forall q table,
       @load_and_process_data Demo.platform q = Ok (Some table) ->
       is_absent (Some table) = false
       /\ @load_and_process_data Demo.platform q
          <> @load_and_process_data Demo.platform "LME_Iron.csv".
Proof.
  exact (@missing_file_is_absent Demo.platform "LME_Iron.csv" eq_refl).
Defined.

(** A file with a header row only loads as a table without rows, which
    is not [None]. *)
Example empty_table_is_not_absent :
  exists table,
    @load_and_process_data Demo.platform "LME_Tin.csv" = Ok (Some table)
    /\ nrows table = 0%nat /\ is_absent (Some table) = false.
Proof. eexists. repeat split; reflexivity. Qed.

(** The loader raises nothing, whatever the path and the file. *)
Lemma load_and_process_data_returns {platform : Platform} (path : string) :
  exists r, load_and_process_data path = Ok r.
Proof.
  unfold load_and_process_data.
  destruct (PyStr.truthy path && path_exists path); [|now exists None].
  destruct (read_csv path) as [raw|e]; simpl; [|now exists None].
  destruct (process raw) as [df|e]; simpl; eexists; reflexivity.
Qed.

(** C4, as the code has it. A table the loader returns has the ['date']
    column; it has the ['price'] column when a header reads as price;
    and when the first header that reads as date, [date_col[0]], is
    spelled differently from ['date'], no column of the table carries
    that header any more. Nothing is said of a later header that reads
    as date: line 30 drops [date_col[0]] only. *)
Theorem loaded_table_columns {platform : Platform} (path : string)
  (out : DataFrame) :
  load_and_process_data path = Ok (Some out) ->
  exists raw,
    read_csv path = Ok raw
    /\ In "date" (labels out)
    /\ (labels_like "price" (strip_labels raw) <> [] ->
        In "price" (labels out))
    /\ (forall c rest,
          labels_like "date" (strip_labels raw) = c :: rest ->
          c <> "date" -> ~ In c (labels out)).
Proof.
  intros Hload. apply load_inv in Hload.
  destruct Hload as [_ [_ [raw [Hread Hp]]]].
  exists raw. split; [assumption|].
  apply process_inv in Hp.
  destruct Hp as [df2 [df3 [s [Hdate [Hprice [_ ->]]]]]].
  rewrite labels_reset_index, labels_take_rows.
  destruct (normalize_date_updated _ _ Hdate) as [d [c [Hstep [Hlow Hdrop]]]].
  destruct (normalize_price_keeps_date _ _ Hprice) as [_ [_ [Hkeep Hfrom]]].
  split; [apply Hkeep, (updated_has_name _ _ _ _ _ Hstep)|]. split.
  - intros Hdetected.
    assert (Hlike : labels_like "price" df2
                    = labels_like "price" (strip_labels raw)).
    { apply (updated_labels_like _ _ _ _ _ Hstep); [discriminate|].
      intros c' Hc'. rewrite (Hlow c' Hc'). discriminate. }
    apply normalize_price_updated in Hprice.
    destruct Hprice as [[Hnil _]|[c0 [rest [src [copt [_ [_ [Hstep' _]]]]]]]].
    + congruence.
    + apply (updated_has_name _ _ _ _ _ Hstep').
  - intros c0 rest Hlike Hne Hin.
    specialize (Hdrop c0 rest Hlike Hne). subst c.
    apply Hfrom in Hin. destruct Hin as [Hin| ->].
    + apply (updated_labels _ _ _ _ _ Hstep) in Hin. now destruct Hin.
    + specialize (Hlow _ eq_refl). discriminate.
Qed.

Lemma loaded_table_columns_witness :
  exists out raw,
    @load_and_process_data Demo.platform "LME_Copper.csv" = Ok (Some out)
    /\ @read_csv Demo.platform "LME_Copper.csv" = Ok raw
    /\ In "date" (labels out)
    /\ (labels_like "price" (strip_labels raw) <> [] ->
        In "price" (labels out))
    /\ (forall c rest,
          labels_like "date" (strip_labels raw) = c :: rest ->
          c <> "date" -> ~ In c (labels out)).
Proof.
  eexists.
  destruct (@loaded_table_columns Demo.platform "LME_Copper.csv" _ eq_refl)
    as [raw H].
  exists raw. split; [reflexivity|exact H].
Defined.

(** C4 as stated fails. The file has the headers [Day] and [Close]:
    the dates are read from [Day], the first column, and the table
    returned has no ['price'] column and still has the column [Day]. *)
Lemma loaded_table_columns_counterexample :
  exists out,
    @load_and_process_data Demo.platform "LME_Aluminium.csv" = Ok (Some out)
    /\ date_source (strip_labels Demo.aluminium_csv) = Some "Day"
    /\ ~ In "price" (labels out)
    /\ In "Day" (labels out).
Proof.
  eexists. split; [reflexivity|]. split; [reflexivity|]. split.
  - simpl. intros [H|[H|[H|[]]]]; discriminate.
  - simpl. now left.
Qed.

(** C6. For a file that is read, whose dates are read and that has a
    header reading as price (no two headers being equal once stripped),
    the load returns a table with every row of the file: its ['price']
    column holds, row for row, the numbers the cells of the price source
    were coerced to, against the dates of the same rows. A text cell that
    reads as no number, like an empty cell, is a missing price in its
    row; it does not fail the load. *)
Theorem price_cells_coerced {platform : Platform} (path : string)
  (raw df2 : DataFrame) (c : string) (rest : list string) :
  PyStr.truthy path = true ->
  path_exists path = true ->
  read_csv path = Ok raw ->
  rectangular raw ->
  NoDup (labels (strip_labels raw)) ->
  normalize_date (strip_labels raw) = Ok df2 ->
  labels_like "price" (strip_labels raw) = c :: rest ->
  exists src coerced out dts prices,
    columns_named c (strip_labels raw) = [src]
    /\ to_numeric_coerce src = NumericS coerced
    /\ load_and_process_data path = Ok (Some out)
    /\ nrows out = nrows raw
    /\ columns_named "date" out = [DatetimeS dts]
    /\ columns_named "price" out = [NumericS prices]
    /\ length dts = nrows raw /\ length prices = nrows raw
    /\ Permutation (combine dts prices) (combine (dates df2) coerced)
    /\ (forall v i cell,
          src = ObjectS v ->
          nth_error v i = Some cell ->
          match cell with
          | Some s => parse_number s = None
          | None => True
          end ->
          exists d, nth_error (dates df2) i = Some d
                    /\ In (d, None) (combine dts prices)).
Proof.
  intros Ht Hex Hread Hrect Hnd Hdate Hlike.
  destruct (process_ok_with_price raw df2 c rest Hrect Hnd Hdate Hlike)
    as [src [coerced [out [Hsrc [Hco [Hcolen [Hdlen [Hp [Hn [Hd Hpr]]]]]]]]]].
  set (idx := nargsort ts_leb (dates df2)) in *.
  assert (Hperm : forall A (l : list A), length l = nrows raw ->
                    Permutation idx (seq 0 (length l))).
  { intros A l Hl. rewrite Hl, <- Hdlen. apply nargsort_perm. }
  assert (Hpairs : Permutation
                     (combine (take idx (dates df2)) (take idx coerced))
                     (combine (dates df2) coerced)).
  { rewrite <- take_combine by now rewrite Hcolen.
    apply take_perm, Hperm. rewrite length_combine, Hcolen, Hdlen.
    apply Nat.min_id. }
  exists src, coerced, out, (take idx (dates df2)), (take idx coerced).
  split; [assumption|]. split; [assumption|].
  split; [now apply (load_ok path raw)|]. split; [assumption|].
  split; [assumption|]. split; [assumption|].
  split; [rewrite take_length; [assumption|now apply Hperm]|].
  split; [rewrite take_length; [assumption|now apply Hperm]|].
  split; [assumption|].
  intros v i cell -> Hcell Hparse. simpl in Hco. injection Hco as <-.
  assert (Hi : (i < length (dates df2))%nat).
  { rewrite Hdlen, <- Hcolen, length_map.
    eapply nth_error_valid; eassumption. }
  destruct (nth_error (dates df2) i) as [d|] eqn:Hdi;
    [|apply nth_error_None in Hdi; lia].
  exists d. split; [reflexivity|].
  apply (Permutation_in _ (Permutation_sym Hpairs)).
  apply (nth_error_In _ i).
  destruct (nth_error_combine_eq (dates df2) (map coerce_cell v) i)
    as [-> _]; [now rewrite Hcolen|].
  rewrite Hdi, nth_error_map, Hcell. simpl.
  destruct cell as [s|]; simpl; [now rewrite Hparse|reflexivity].
Qed.

Lemma price_cells_coerced_witness :
  exists src coerced out dts prices,
    columns_named "Price" (strip_labels Demo.copper_csv) = [src]
    /\ @to_numeric_coerce Demo.platform src = NumericS coerced
    /\ @load_and_process_data Demo.platform "LME_Copper.csv" = Ok (Some out)
    /\ nrows out = nrows Demo.copper_csv
    /\ columns_named "date" out = [DatetimeS dts]
    /\ columns_named "price" out = [NumericS prices]
    /\ length dts = nrows Demo.copper_csv
    /\ length prices = nrows Demo.copper_csv
    /\ Permutation (combine dts prices)
         (combine (dates Demo.copper_dated) coerced)
    /\ (forall v i cell,
          src = ObjectS v ->
          nth_error v i = Some cell ->
          match cell with
          | Some s => @parse_number Demo.platform s = None
          | None => True
          end ->
          exists d, nth_error (dates Demo.copper_dated) i = Some d
                    /\ In (d, None) (combine dts prices)).
Proof.
  apply (@price_cells_coerced Demo.platform "LME_Copper.csv"
           Demo.copper_csv Demo.copper_dated "Price" []
           eq_refl eq_refl eq_refl).
  - repeat constructor.
  - repeat constructor; simpl; intuition discriminate.
  - reflexivity.
  - reflexivity.
Defined.

(** The ten rows of the sample file: all are loaded, and the row of the
    cell [n.a.], dated 2023-04-01, has no price. *)
Example price_cells_coerced_sample :
  exists out,
    @load_and_process_data Demo.platform "LME_Copper.csv" = Ok (Some out)
    /\ nrows out = 10%nat
    /\ In (Demo.at_midnight 2023 4 1, (None : option Q))
         (combine (dates out)
            match columns_named "price" out with
            | [NumericS v] => v
            | _ => []
            end).
Proof.
  eexists. split; [reflexivity|]. split; [reflexivity|].
  simpl. repeat (try (left; reflexivity); right).
Qed.

(* ================================================================== *)
(** * Further properties *)

(** ** Printing and reading integers *)

Lemma small_digit d : 0 <= d < 10 ->
  d = 0 \/ d = 1 \/ d = 2 \/ d = 3 \/ d = 4 \/ d = 5 \/ d = 6 \/ d = 7
  \/ d = 8 \/ d = 9.
Proof. lia. Qed.

Lemma digit_char_spec d : 0 <= d < 10 ->
  PyStr.digit (digit_char d) = Some d
  /\ (digit_char d =? "_")%char = false
  /\ PyStr.is_space (digit_char d) = false
  /\ digit_char d <> "+"%char /\ digit_char d <> "-"%char.
Proof.
  intros Hd.
  destruct (small_digit d Hd)
    as [->|[->|[->|[->|[->|[->|[->|[->|[->| ->]]]]]]]]];
    vm_compute; (split; [reflexivity|]); (split; [reflexivity|]);
    (split; [reflexivity|]); split; intros H; discriminate H.
Qed.

Lemma digits_cons c s a seen d :
  (c =? "_")%char = false -> PyStr.digit c = Some d ->
  PyStr.digits (String c s) a seen = PyStr.digits s (10 * a + d) true.
Proof. intros Hus Hdig. cbn [PyStr.digits]. now rewrite Hus, Hdig. Qed.

Lemma decimal_step fuel n acc :
  decimal (S fuel) n acc
  = if n <? 10 then String (digit_char (n mod 10)) acc
    else decimal fuel (n / 10) (String (digit_char (n mod 10)) acc).
Proof. reflexivity. Qed.

Lemma acc_after_step fuel a n :
  acc_after (S fuel) a n
  = if n <? 10 then 10 * a + n
    else 10 * acc_after fuel a (n / 10) + n mod 10.
Proof. reflexivity. Qed.

Lemma digits_decimal fuel n acc a seen :
  0 <= n ->
  PyStr.digits (decimal (S fuel) n acc) a seen
  = PyStr.digits acc (acc_after (S fuel) a n) true.
Proof.
  revert n acc a seen; induction fuel as [|fuel IH]; intros n acc a seen Hn;
    assert (Hd : 0 <= n mod 10 < 10) by (apply Z.mod_pos_bound; lia);
    destruct (digit_char_spec _ Hd) as [Hdig [Hus _]];
    rewrite decimal_step, acc_after_step; destruct (Z.ltb_spec n 10).
  - rewrite (digits_cons _ _ _ _ _ Hus Hdig).
    now rewrite Z.mod_small by lia.
  - cbn [decimal acc_after]. now rewrite (digits_cons _ _ _ _ _ Hus Hdig).
  - rewrite (digits_cons _ _ _ _ _ Hus Hdig).
    now rewrite Z.mod_small by lia.
  - rewrite IH by (apply Z.div_pos; lia).
    now rewrite (digits_cons _ _ _ _ _ Hus Hdig).
Qed.

Lemma acc_after_enough fuel n :
  0 <= n <= Z.of_nat fuel -> acc_after (S fuel) 0 n = n.
Proof.
  revert n; induction fuel as [|fuel IH]; intros n Hn.
  - simpl. destruct (Z.ltb_spec n 10); lia.
  - change (acc_after (S (S fuel)) 0 n)
      with (if n <? 10 then 10 * 0 + n
            else 10 * acc_after (S fuel) 0 (n / 10) + n mod 10).
    destruct (Z.ltb_spec n 10); [lia|].
    rewrite IH.
    + pose proof (Z.div_mod n 10). lia.
    + split; [apply Z.div_pos; lia|].
      assert (n / 10 < n) by (apply Z.div_lt; lia). lia.
Qed.

Lemma decimal_app fuel n acc suffix :
  (decimal fuel n acc ++ suffix)%string = decimal fuel n (acc ++ suffix)%string.
Proof.
  revert n acc; induction fuel as [|fuel IH]; intros n acc; simpl;
    [reflexivity|].
  destruct (n <? 10); [reflexivity|]. now rewrite IH.
Qed.

(** The first character [decimal] prints is a digit. *)
Lemma decimal_head fuel n acc :
  0 <= n ->
  exists d rest,
    0 <= d < 10 /\ decimal (S fuel) n acc = String (digit_char d) rest.
Proof.
  revert n acc; induction fuel as [|fuel IH]; intros n acc Hn.
  - exists (n mod 10), acc. split; [apply Z.mod_pos_bound; lia|].
    simpl. now destruct (n <? 10).
  - change (decimal (S (S fuel)) n acc)
      with (if n <? 10 then String (digit_char (n mod 10)) acc
            else decimal (S fuel) (n / 10)
                   (String (digit_char (n mod 10)) acc)).
    destruct (Z.ltb_spec n 10).
    + exists (n mod 10), acc. split; [apply Z.mod_pos_bound; lia|reflexivity].
    + apply IH. apply Z.div_pos; lia.
Qed.

(** *** [strip] on a text without blanks *)

Lemma rev_append_twice s a b :
  PyStr.rev_append (PyStr.rev_append s a) b
  = PyStr.rev_append a (s ++ b)%string.
Proof.
  revert a b; induction s as [|c s IH]; intros a b; simpl; [reflexivity|].
  now rewrite IH.
Qed.

Lemma append_empty s : (s ++ "")%string = s.
Proof. induction s as [|c s IH]; simpl; congruence. Qed.

Lemma rev_rev s : PyStr.rev (PyStr.rev s) = s.
Proof.
  unfold PyStr.rev. rewrite rev_append_twice. simpl. apply append_empty.
Qed.

Lemma no_space_rev_append s a :
  no_space s -> no_space a -> no_space (PyStr.rev_append s a).
Proof.
  revert a; induction s as [|c s IH]; intros a Hs Ha; simpl in *;
    [assumption|].
  apply IH; simpl; tauto.
Qed.

Lemma lstrip_no_space s : no_space s -> PyStr.lstrip s = s.
Proof. destruct s as [|c s]; simpl; [reflexivity|]. now intros [-> _]. Qed.

Lemma strip_no_space s : no_space s -> PyStr.strip s = s.
Proof.
  intros Hs. unfold PyStr.strip, PyStr.rstrip.
  rewrite (lstrip_no_space s Hs), lstrip_no_space; [apply rev_rev|].
  apply no_space_rev_append; simpl; tauto.
Qed.

Lemma no_space_app s t : no_space s -> no_space t -> no_space (s ++ t).
Proof. induction s as [|c s IH]; simpl; tauto. Qed.

Lemma no_space_decimal fuel n acc :
  0 <= n -> no_space acc -> no_space (decimal fuel n acc).
Proof.
  revert n acc; induction fuel as [|fuel IH]; intros n acc Hn Hacc; simpl;
    [assumption|].
  assert (Hd : 0 <= n mod 10 < 10) by (apply Z.mod_pos_bound; lia).
  destruct (digit_char_spec _ Hd) as [_ [_ [Hsp _]]].
  destruct (n <? 10); [simpl; tauto|].
  apply IH; [apply Z.div_pos; lia|simpl; tauto].
Qed.

Lemma no_space_str_of_int z : no_space (str_of_int z).
Proof.
  unfold str_of_int. destruct (Z.ltb_spec z 0).
  - split; [reflexivity|]. apply no_space_decimal; simpl; [lia|tauto].
  - apply no_space_decimal; simpl; [lia|tauto].
Qed.

(** *** The blanks of [int] *)

Lemma c_space_is_space c :
  PyStr.is_space c = false -> PyStr.is_c_space c = false.
Proof.
  unfold PyStr.is_space, PyStr.is_c_space. cbv zeta.
  generalize (nat_of_ascii c) as n. intros n.
  destruct (Nat.leb_spec 9 n), (Nat.leb_spec n 13), (Nat.leb_spec 28 n),
    (Nat.leb_spec n 32), (Nat.eqb_spec n 32); simpl; try reflexivity;
    try discriminate; intros _; exfalso; lia.
Qed.

Lemma int_lstrip_no_space s : no_space s -> PyStr.int_lstrip s = s.
Proof.
  destruct s as [|c s]; simpl; [reflexivity|].
  intros [Hc _]. now rewrite (c_space_is_space c Hc).
Qed.

Lemma int_strip_no_space s : no_space s -> PyStr.int_strip s = s.
Proof.
  intros Hs. unfold PyStr.int_strip.
  rewrite (int_lstrip_no_space s Hs), int_lstrip_no_space; [apply rev_rev|].
  apply no_space_rev_append; simpl; tauto.
Qed.

(** *** The number of digits [decimal] prints *)

Lemma count_digits_digit d s :
  0 <= d < 10 ->
  PyStr.count_digits (String (digit_char d) s) = 1 + PyStr.count_digits s.
Proof.
  intros Hd. destruct (digit_char_spec _ Hd) as [Hdig _].
  cbn [PyStr.count_digits]. now rewrite Hdig.
Qed.

Lemma count_digits_minus s :
  PyStr.count_digits (String "-" s) = PyStr.count_digits s.
Proof. reflexivity. Qed.

Lemma count_digits_decimal k fuel n acc :
  0 <= n < 10 ^ Z.of_nat (S k) ->
  PyStr.count_digits (decimal (S fuel) n acc)
  <= Z.of_nat (S k) + PyStr.count_digits acc.
Proof.
  revert fuel n acc; induction k as [|k IH]; intros fuel n acc Hn;
    assert (Hd : 0 <= n mod 10 < 10) by (apply Z.mod_pos_bound; lia);
    rewrite decimal_step; destruct (Z.ltb_spec n 10).
  - rewrite count_digits_digit by assumption. lia.
  - exfalso. change (10 ^ Z.of_nat 1) with 10 in Hn. lia.
  - rewrite count_digits_digit by assumption. lia.
  - destruct fuel as [|fuel].
    + cbn [decimal]. rewrite count_digits_digit by assumption. lia.
    + assert (Hq : 0 <= n / 10 < 10 ^ Z.of_nat (S k)).
      { split; [apply Z.div_pos; lia|].
        apply Z.div_lt_upper_bound; [lia|].
        rewrite <- Z.pow_succ_r by lia.
        rewrite <- Nat2Z.inj_succ. apply Hn. }
      pose proof (IH fuel (n / 10) (String (digit_char (n mod 10)) acc) Hq)
        as Hle.
      rewrite count_digits_digit in Hle by assumption.
      rewrite (Nat2Z.inj_succ (S k)). lia.
Qed.

Lemma count_digits_str_of_int_below k z :
  Z.abs z < 10 ^ Z.of_nat (S k) ->
  PyStr.count_digits (str_of_int z) <= Z.of_nat (S k).
Proof.
  intros Hz.
  assert (Hdec : forall fuel,
            PyStr.count_digits (decimal (S fuel) (Z.abs z) "")
            <= Z.of_nat (S k)).
  { intros fuel.
    pose proof (count_digits_decimal k fuel (Z.abs z) ""
                  (conj (Z.abs_nonneg z) Hz)) as Hle.
    cbn [PyStr.count_digits] in Hle. now rewrite Z.add_0_r in Hle. }
  clear Hz. unfold str_of_int. destruct (Z.ltb_spec z 0).
  - rewrite count_digits_minus.
    replace (- z) with (Z.abs z) by lia. apply Hdec.
  - pose proof (Hdec (Z.to_nat z)) as Hle.
    now replace (Z.abs z) with z in Hle by lia.
Qed.

(** A number below ten to the limit prints within the limit. *)
Lemma count_digits_str_of_int z :
  Z.abs z < 10 ^ PyStr.int_max_str_digits ->
  (PyStr.count_digits (str_of_int z) <=? PyStr.int_max_str_digits) = true.
Proof.
  intros Hz. apply Z.leb_le.
  exact (count_digits_str_of_int_below 4299 z Hz).
Qed.

(** What [PyStr.int] reads in a text without blanks. *)
Lemma int_of_minus r :
  no_space r ->
  PyStr.int (String "-" r)
  = match PyStr.digits r 0 false with
    | Some v =>
        if PyStr.count_digits (String "-" r) <=? PyStr.int_max_str_digits
        then Ok (- v) else Raise ValueError
    | None => Raise ValueError
    end.
Proof.
  intros Hr. unfold PyStr.int.
  rewrite int_strip_no_space by (split; [reflexivity|assumption]).
  cbv iota beta. now destruct (PyStr.digits r 0 false).
Qed.

Lemma int_of_unsigned c rest :
  c <> "+"%char -> c <> "-"%char -> no_space (String c rest) ->
  PyStr.int (String c rest)
  = match PyStr.digits (String c rest) 0 false with
    | Some v =>
        if PyStr.count_digits (String c rest) <=? PyStr.int_max_str_digits
        then Ok v else Raise ValueError
    | None => Raise ValueError
    end.
Proof.
  intros Hplus Hminus Hs. unfold PyStr.int.
  rewrite int_strip_no_space by assumption.
  destruct c as [[] [] [] [] [] [] [] []]; try reflexivity;
    exfalso; (now apply Hplus) || (now apply Hminus).
Qed.

(** What [PyStr.int] reads in a text made of [str_of_int z] and a
    suffix without blanks: the digits of [z], then the suffix, as long
    as the digits are within the limit. *)
Lemma int_str_of_int_suffix z suffix :
  no_space suffix ->
  PyStr.int (str_of_int z ++ suffix)
  = match PyStr.digits suffix (Z.abs z) true with
    | Some v =>
        if PyStr.count_digits (str_of_int z ++ suffix)
           <=? PyStr.int_max_str_digits
        then Ok (if z <? 0 then - v else v) else Raise ValueError
    | None => Raise ValueError
    end.
Proof.
  intros Hsuf.
  pose proof (no_space_app _ _ (no_space_str_of_int z) Hsuf) as Hall.
  unfold str_of_int in *. destruct (Z.ltb_spec z 0).
  - change (String "-" (decimal (S (Z.to_nat (- z))) (- z) "") ++ suffix)%string
      with (String "-" (decimal (S (Z.to_nat (- z))) (- z) "" ++ suffix)) in *.
    rewrite decimal_app in *.
    change ("" ++ suffix)%string with suffix in *.
    rewrite int_of_minus by apply Hall.
    rewrite digits_decimal, acc_after_enough by lia.
    now replace (Z.abs z) with (- z) by lia.
  - rewrite decimal_app in *.
    change ("" ++ suffix)%string with suffix in *.
    destruct (decimal_head (Z.to_nat z) z suffix) as [d [rest [Hd Heq]]];
      [assumption|].
    destruct (digit_char_spec _ Hd) as [_ [_ [_ [Hplus Hminus]]]].
    assert (Hparse : PyStr.digits (decimal (S (Z.to_nat z)) z suffix) 0 false
                     = PyStr.digits suffix (Z.abs z) true).
    { rewrite digits_decimal, acc_after_enough by lia.
      now replace (Z.abs z) with z by lia. }
    rewrite <- Hparse. rewrite Heq in *.
    now apply int_of_unsigned.
Qed.

(** A decimal text followed by a point and a zero is no integer. *)
Lemma int_float_text z : PyStr.int (str_of_int z ++ ".0") = Raise ValueError.
Proof. rewrite int_str_of_int_suffix by (simpl; tauto). reflexivity. Qed.

(** [int(str(z))] is [z], for [z] within the limit of digits. *)
Lemma int_str_of_int z :
  Z.abs z < 10 ^ PyStr.int_max_str_digits ->
  PyStr.int (str_of_int z) = Ok z.
Proof.
  intros Hz. pose proof (count_digits_str_of_int z Hz) as Hcount.
  rewrite <- (append_empty (str_of_int z)) at 1.
  rewrite int_str_of_int_suffix by exact I.
  rewrite append_empty, Hcount. cbn [PyStr.digits].
  destruct (Z.ltb_spec z 0); f_equal; lia.
Qed.

(** ** More on [filter_data] *)

Lemma selected_some s : s <> "" -> s <> "All" -> selected (Some s) = Some s.
Proof.
  intros H1 H2. unfold selected, PyStr.truthy.
  apply String.eqb_neq in H1, H2. now rewrite H1, H2.
Qed.

Lemma dates_keep p df : dates (keep p df) = filter (passes p) (dates df).
Proof.
  destruct p as [f|]; simpl.
  - rewrite dates_boolean_index. apply select_self.
  - induction (dates df) as [|x l IH]; simpl; congruence.
Qed.

Lemma index_of_In s l i :
  In s l -> exists k, index_of s l i = Some k.
Proof.
  revert i; induction l as [|x l IH]; intros i; simpl; [tauto|].
  intros [->|Hin].
  - rewrite String.eqb_refl. now exists i.
  - destruct (s =? x)%string; [now exists i|now apply IH].
Qed.

Lemma index_of_not_In s l i : ~ In s l -> index_of s l i = None.
Proof.
  revert i; induction l as [|x l IH]; intros i Hn; simpl; [reflexivity|].
  destruct (String.eqb_spec s x) as [->|Hne].
  - exfalso. apply Hn. now left.
  - apply IH. intros Hin. apply Hn. now right.
Qed.

(** A call that returns has read its selection, and returns the rows
    that pass. *)
Lemma filter_data_ok_inv h l df dr mo ye r h' :
  nth_error h l = Some df -> normalized df = true ->
  filter_data l dr mo ye h = (Ok r, h') ->
  exists p,
    tests_of dr mo ye source_order = Ok p
    /\ nth_error h' r = Some (keep p df)
    /\ exists fresh, h' = h ++ fresh.
Proof.
  intros Hl Hn Hrun.
  destruct (tests_of dr mo ye source_order) as [p|e] eqn:Htests.
  - destruct (filter_data_normalized h l df dr mo ye p Hl Hn Htests)
      as [r0 [fresh [Hrun0 [_ Hout]]]].
    rewrite Hrun in Hrun0. injection Hrun0 as -> ->.
    exists p. split; [reflexivity|]. split; [assumption|now exists fresh].
  - rewrite filter_data_source_order in Hrun.
    destruct (filter_data_in_order_raises source_order h l df dr mo ye e
                Hl Hn Htests) as [fresh Hraise].
    rewrite Hrun in Hraise. discriminate.
Qed.

(** X1. With a date range, a month and a year, [filter_data] returns the
    rows dated within the range, both ends included, in that month and
    in that year, in their order; a row without a date is not among
    them. *)
Theorem filter_data_all_filters (h : Store) (l : ref) (df : DataFrame)
  (a b : date_like) (ms ys : string) (m y : Z) :
  nth_error h l = Some df ->
  normalized df = true ->
  ms <> "" -> ms <> "All" -> strptime_B_month ms = Ok m ->
  ys <> "" -> ys <> "All" -> PyStr.int ys = Ok y ->
  exists r h' out,
    filter_data l (Some (a, b)) (Some ms) (Some ys) h = (Ok r, h')
    /\ nth_error h' r = Some out
    /\ records out
       = filter (fun rc => in_range a b (fst rc) && month_is m (fst rc)
                           && year_is y (fst rc)) (records df)
    /\ forall rc,
         In rc (records out) <->
         In rc (records df)
         /\ exists t, fst rc = Some t
                      /\ ts_le (pd_to_datetime a) t
                      /\ ts_le t (pd_to_datetime b)
                      /\ month t = m /\ year t = y.
Proof.
  intros Hl Hn Hms1 Hms2 Hm Hys1 Hys2 Hy.
  set (test := fun d => in_range a b d && (month_is m d && year_is y d)).
  assert (Htests : tests_of (Some (a, b)) (Some ms) (Some ys) source_order
                   = Ok (Some test)).
  { unfold source_order. cbn [tests_of stage_test].
    rewrite (selected_some ms Hms1 Hms2), (selected_some ys Hys1 Hys2).
    rewrite Hm, Hy. reflexivity. }
  destruct (filter_data_normalized h l df _ _ _ _ Hl Hn Htests)
    as [r [fresh [Hrun [_ Hout]]]].
  exists r, (h ++ fresh), (keep (Some test) df).
  assert (Hrec : records (keep (Some test) df)
                 = filter (fun rc => in_range a b (fst rc)
                                     && month_is m (fst rc)
                                     && year_is y (fst rc)) (records df)).
  { rewrite records_keep. apply filter_ext. intros rc. unfold test; simpl.
    now rewrite andb_assoc. }
  split; [assumption|]. split; [assumption|]. split; [exact Hrec|].
  intros rc. rewrite Hrec, filter_In.
  unfold in_range, ge_ts, le_ts, month_is, year_is.
  destruct (fst rc) as [t|].
  - rewrite !andb_true_iff, !ts_leb_spec, !Z.eqb_eq. split.
    + intros [Hin [[[H1 H2] H3] H4]]. split; [assumption|]. now exists t.
    + intros [Hin [t' [[= <-] [H1 [H2 [H3 H4]]]]]]. tauto.
  - split.
    + intros [_ H]. discriminate.
    + intros [_ [t [H _]]]. discriminate.
Qed.

Lemma filter_data_all_filters_witness :
  exists r h' out,
    filter_data 0%nat (Some (PyDate 2023 3 1, PyDate 2023 3 15))
      (Some "March") (Some "2023") [Demo.sample] = (Ok r, h')
    /\ nth_error h' r = Some out
    /\ records out
       = filter (fun rc => in_range (PyDate 2023 3 1) (PyDate 2023 3 15)
                             (fst rc)
                           && month_is 3 (fst rc) && year_is 2023 (fst rc))
           (records Demo.sample)
    /\ forall rc,
         In rc (records out) <->
         In rc (records Demo.sample)
         /\ exists t, fst rc = Some t
                      /\ ts_le (pd_to_datetime (PyDate 2023 3 1)) t
                      /\ ts_le t (pd_to_datetime (PyDate 2023 3 15))
                      /\ month t = 3 /\ year t = 2023.
Proof.
  apply (filter_data_all_filters [Demo.sample] 0%nat Demo.sample
           (PyDate 2023 3 1) (PyDate 2023 3 15) "March" "2023" 3 2023
           eq_refl eq_refl); try discriminate; reflexivity.
Defined.

(** The rows dated at the two ends of the range are returned. *)
Example filter_data_range_ends_included :
  option_map dates
    (nth_error
       (snd (filter_data 0%nat (Some (PyDate 2023 3 1, PyDate 2023 3 15))
               None None [Demo.sample])) 2)
  = Some [Demo.at_midnight 2023 3 1; Demo.at_midnight 2023 3 15].
Proof. reflexivity. Qed.

Lemma active_tests dr mo ye p :
  tests_of dr mo ye source_order = Ok p ->
  some_filter dr mo ye ->
  exists f, p = Some f /\ f None = false.
Proof.
  unfold some_filter. simpl.
  destruct dr as [[a b]|];
    (destruct (selected mo) as [ms|];
     [destruct (strptime_B_month ms) as [m|e]; simpl; [|discriminate]|]);
    (destruct (selected ye) as [ys|];
     [destruct (PyStr.int ys) as [y|e]; simpl; [|discriminate]|]);
    simpl; intros [= <-] Hactive;
    try (eexists; split; reflexivity).
  destruct Hactive as [H|[H|H]]; congruence.
Qed.

(** X2. As soon as one filter is active, the rows without a date are
    left out, whatever the filter. *)
Theorem filter_data_drops_undated (h : Store) (l : ref) (df : DataFrame)
  (dr : option (date_like * date_like)) (mo ye : option string) :
  nth_error h l = Some df ->
  normalized df = true ->
  well_formed_selection mo ye = true ->
  some_filter dr mo ye ->
  exists r h' out,
    filter_data l dr mo ye h = (Ok r, h')
    /\ nth_error h' r = Some out
    /\ ~ In None (dates out)
    /\ forall rc, In rc (records out) -> fst rc <> None.
Proof.
  intros Hl Hn Hsel Hactive.
  destruct (tests_of_source_order dr mo ye Hsel) as [q [_ Htests]].
  destruct (active_tests _ _ _ _ Htests Hactive) as [f [Hf Hnone]].
  destruct (filter_data_normalized h l df dr mo ye _ Hl Hn Htests)
    as [r [fresh [Hrun [_ Hout]]]].
  rewrite Hf in Hout.
  exists r, (h ++ fresh), (keep (Some f) df).
  split; [assumption|]. split; [assumption|]. split.
  - rewrite dates_keep. intros Hin. apply filter_In in Hin.
    simpl in Hin. destruct Hin as [_ Hin]. congruence.
  - intros rc Hin. rewrite records_keep in Hin. apply filter_In in Hin.
    simpl in Hin. destruct Hin as [_ Hin]. congruence.
Qed.

Lemma filter_data_drops_undated_witness :
  exists r h' out,
    filter_data 0%nat None None (Some "2023") [DemoExtra.with_missing_date]
    = (Ok r, h')
    /\ nth_error h' r = Some out
    /\ ~ In None (dates out)
    /\ forall rc, In rc (records out) -> fst rc <> None.
Proof.
  apply (filter_data_drops_undated [DemoExtra.with_missing_date] 0%nat
           DemoExtra.with_missing_date None None (Some "2023")
           eq_refl eq_refl eq_refl).
  right. right. discriminate.
Defined.

(** X3. A month text that is no full month name makes [filter_data]
    raise [ValueError]: nothing is returned, and the frames of the store
    stay as they were. *)
Theorem filter_data_bad_month (h : Store) (l : ref) (df : DataFrame)
  (dr : option (date_like * date_like)) (ms : string) (ye : option string) :
  nth_error h l = Some df ->
  normalized df = true ->
  ms <> "" -> ms <> "All" ->
  ~ In (PyStr.lower ms) month_names ->
  exists fresh,
    filter_data l dr (Some ms) ye h = (Raise ValueError, h ++ fresh).
Proof.
  intros Hl Hn H1 H2 Hname.
  assert (Htests : exists e, tests_of dr (Some ms) ye source_order = Raise e).
  { unfold source_order. cbn [tests_of stage_test].
    rewrite (selected_some ms H1 H2). unfold strptime_B_month.
    rewrite (index_of_not_In _ _ _ Hname).
    destruct dr as [[a b]|]; cbn [rbind]; eexists; reflexivity. }
  destruct Htests as [e Htests].
  rewrite (tests_of_raises _ _ _ _ _ Htests) in Htests.
  rewrite filter_data_source_order.
  now apply (filter_data_in_order_raises source_order h l df).
Qed.

Lemma filter_data_bad_month_witness :
  exists fresh,
    filter_data 0%nat None (Some "Mar") (Some "2023") [Demo.sample]
    = (Raise ValueError, [Demo.sample] ++ fresh).
Proof.
  apply (filter_data_bad_month [Demo.sample] 0%nat Demo.sample None "Mar"
           (Some "2023") eq_refl eq_refl); try discriminate.
  simpl. intuition discriminate.
Defined.

Lemma date_column_missing df :
  ~ In "date" (labels df) -> date_column df = Raise KeyError.
Proof.
  intros Hn. apply columns_named_nil in Hn.
  unfold date_column, getitem. now rewrite Hn.
Qed.

(** X4. On a frame without a ['date'] column every active filter fails
    with [KeyError]; a year text is not even read. (A month text is
    read first, so it has to be a month name for the call to get that
    far.) *)
Theorem filter_data_no_date_column (h : Store) (l : ref) (df : DataFrame)
  (dr : option (date_like * date_like)) (mo ye : option string) :
  nth_error h l = Some df ->
  ~ In "date" (labels df) ->
  some_filter dr mo ye ->
  (forall ms, selected mo = Some ms -> In (PyStr.lower ms) month_names) ->
  exists fresh, filter_data l dr mo ye h = (Raise KeyError, h ++ fresh).
Proof.
  intros Hl Hdate Hactive Hmonth.
  apply runs_to_raise with (low := length h).
  replace (Raise KeyError) with (stages_value dr mo ye source_order df);
    [now apply filter_data_run|].
  pose proof (date_column_missing df Hdate) as Hcol.
  unfold some_filter in Hactive. simpl.
  destruct dr as [[a b]|].
  - unfold masked_value, date_range_mask. now rewrite Hcol.
  - simpl. destruct (selected mo) as [ms|].
    + unfold masked_value, month_mask, strptime_B_month.
      destruct (index_of_In _ _ 1 (Hmonth ms eq_refl)) as [k ->].
      simpl. now rewrite Hcol.
    + simpl. destruct (selected ye) as [ys|].
      * unfold masked_value, year_mask. now rewrite Hcol.
      * destruct Hactive as [H|[H|H]]; congruence.
Qed.

Lemma filter_data_no_date_column_witness :
  exists fresh,
    filter_data 0%nat None None (Some "not a year") [DemoExtra.undated]
    = (Raise KeyError, [DemoExtra.undated] ++ fresh).
Proof.
  apply (filter_data_no_date_column [DemoExtra.undated] 0%nat
           DemoExtra.undated None None (Some "not a year") eq_refl).
  - simpl. intuition discriminate.
  - right. right. discriminate.
  - intros ms [=].
Defined.

Lemma both_same p : same_test (both p p) p.
Proof.
  split; [rewrite both_none; tauto|].
  intros d. rewrite passes_both. apply andb_diag.
Qed.

Lemma both_comm p q : same_test (both p q) (both q p).
Proof.
  split; [rewrite !both_none; tauto|].
  intros d. rewrite !passes_both. apply andb_comm.
Qed.

(** X5. Filtering what [filter_data] returned, with the same selection,
    changes nothing: the second call returns a table equal to the
    first. *)
Theorem filter_data_idempotent (h h' : Store) (l r : ref) (df : DataFrame)
  (dr : option (date_like * date_like)) (mo ye : option string) :
  nth_error h l = Some df ->
  normalized df = true ->
  filter_data l dr mo ye h = (Ok r, h') ->
  exists r2 h2,
    filter_data r dr mo ye h' = (Ok r2, h2)
    /\ nth_error h2 r2 = nth_error h' r.
Proof.
  intros Hl Hn Hrun.
  destruct (filter_data_ok_inv _ _ _ _ _ _ _ _ Hl Hn Hrun)
    as [p [Htests [Hout _]]].
  destruct (filter_data_normalized h' r (keep p df) dr mo ye p Hout
              ltac:(now rewrite normalized_keep) Htests)
    as [r2 [fresh [Hrun2 [_ Hout2]]]].
  exists r2, (h' ++ fresh). split; [assumption|].
  rewrite Hout2, Hout, keep_keep. f_equal. apply keep_ext, both_same.
Qed.

Lemma filter_data_idempotent_witness :
  exists r2 h2,
    filter_data 3%nat None (Some "March") (Some "2023")
      (snd (filter_data 0%nat None (Some "March") (Some "2023")
              [Demo.sample])) = (Ok r2, h2)
    /\ nth_error h2 r2
       = nth_error
           (snd (filter_data 0%nat None (Some "March") (Some "2023")
                   [Demo.sample])) 3.
Proof.
  exact (filter_data_idempotent [Demo.sample] _ 0%nat 3%nat Demo.sample
           None (Some "March") (Some "2023") eq_refl eq_refl eq_refl).
Defined.

(** X6. Two calls in a row, each with its own selection, return the same
    table in either order. *)
Theorem filter_data_commutes (h h1 h2 : Store) (l r1 r2 : ref)
  (df : DataFrame)
  (dr dr' : option (date_like * date_like)) (mo ye mo' ye' : option string) :
  nth_error h l = Some df ->
  normalized df = true ->
  filter_data l dr mo ye h = (Ok r1, h1) ->
  filter_data r1 dr' mo' ye' h1 = (Ok r2, h2) ->
  exists s1 k1 s2 k2,
    filter_data l dr' mo' ye' h = (Ok s1, k1)
    /\ filter_data s1 dr mo ye k1 = (Ok s2, k2)
    /\ nth_error k2 s2 = nth_error h2 r2.
Proof.
  intros Hl Hn Hrun1 Hrun2.
  destruct (filter_data_ok_inv _ _ _ _ _ _ _ _ Hl Hn Hrun1)
    as [p [Hp [Hout1 _]]].
  assert (Hn1 : normalized (keep p df) = true) by now rewrite normalized_keep.
  destruct (filter_data_ok_inv _ _ _ _ _ _ _ _ Hout1 Hn1 Hrun2)
    as [q [Hq [Hout2 _]]].
  destruct (filter_data_normalized h l df dr' mo' ye' q Hl Hn Hq)
    as [s1 [fresh1 [Hs1 [_ Hv1]]]].
  destruct (filter_data_normalized (h ++ fresh1) s1 (keep q df) dr mo ye p
              Hv1 ltac:(now rewrite normalized_keep) Hp)
    as [s2 [fresh2 [Hs2 [_ Hv2]]]].
  exists s1, (h ++ fresh1), s2, ((h ++ fresh1) ++ fresh2).
  split; [assumption|]. split; [assumption|].
  rewrite Hv2, Hout2, !keep_keep. f_equal. apply keep_ext, both_comm.
Qed.

Lemma filter_data_commutes_witness :
  exists s1 k1 s2 k2,
    filter_data 0%nat None None (Some "2023") [Demo.sample] = (Ok s1, k1)
    /\ filter_data s1 None (Some "March") None k1 = (Ok s2, k2)
    /\ nth_error k2 s2
       = nth_error
           (snd (filter_data 2%nat None None (Some "2023")
                   (snd (filter_data 0%nat None (Some "March") None
                           [Demo.sample])))) 4.
Proof.
  exact (filter_data_commutes [Demo.sample] _ _ 0%nat 2%nat 4%nat
           Demo.sample None None (Some "March") None None (Some "2023")
           eq_refl eq_refl eq_refl eq_refl).
Defined.

(** *** The shape of the result *)

Lemma select_length_le {A} (m : list bool) (l : list A) :
  (length (select m l) <= length l)%nat.
Proof.
  revert l; induction m as [|b m IH]; intros [|x l]; simpl; try lia.
  specialize (IH l). destruct b; simpl; lia.
Qed.

Lemma select_length_eq {A B} (m : list bool) (a : list A) (b : list B) :
  length a = length b -> length (select m a) = length (select m b).
Proof.
  revert a b; induction m as [|x m IH]; intros [|u a] [|v b]; simpl;
    try discriminate; try reflexivity.
  intros [= Hlen]. destruct x; simpl; now rewrite (IH a b Hlen).
Qed.

Lemma boolean_index_shape df m :
  schema (boolean_index df m) = schema df
  /\ (nrows (boolean_index df m) <= nrows df)%nat
  /\ (rectangular df -> rectangular (boolean_index df m)).
Proof.
  split; [|split].
  - unfold schema, boolean_index; simpl. rewrite map_map.
    apply map_ext. intros [n s]; simpl. now destruct s.
  - apply select_length_le.
  - unfold rectangular, boolean_index, nrows; simpl. intros Hrect.
    rewrite Forall_map. eapply Forall_impl; [|exact Hrect].
    intros [n s] Hlen; simpl in *.
    destruct s; simpl in *; now apply select_length_eq.
Qed.

Lemma stage_value_shape dr mo ye s df out :
  stage_value dr mo ye s df = Ok out ->
  schema out = schema df /\ (nrows out <= nrows df)%nat
  /\ (rectangular df -> rectangular out).
Proof.
  assert (Hmask : forall mask, masked_value mask df = Ok out ->
            schema out = schema df /\ (nrows out <= nrows df)%nat
            /\ (rectangular df -> rectangular out)).
  { intros mask. unfold masked_value. destruct (mask df) as [m|e]; simpl;
      [|discriminate]. intros [= <-]. apply boolean_index_shape. }
  assert (Hid : Ok df = Ok out ->
            schema out = schema df /\ (nrows out <= nrows df)%nat
            /\ (rectangular df -> rectangular out)).
  { intros [= <-]. split; [reflexivity|]. split; [lia|tauto]. }
  destruct s; simpl.
  - destruct dr as [[a b]|]; [apply Hmask|apply Hid].
  - destruct (selected mo); [apply Hmask|apply Hid].
  - destruct (selected ye); [apply Hmask|apply Hid].
Qed.

Lemma stages_value_shape dr mo ye order df out :
  stages_value dr mo ye order df = Ok out ->
  schema out = schema df /\ (nrows out <= nrows df)%nat
  /\ (rectangular df -> rectangular out).
Proof.
  revert df; induction order as [|s order IH]; intros df; simpl.
  - intros [= <-]. split; [reflexivity|]. split; [lia|tauto].
  - destruct (stage_value dr mo ye s df) as [d|e] eqn:Hs; simpl;
      [|discriminate].
    intros Hrest. apply stage_value_shape in Hs. apply IH in Hrest.
    destruct Hs as [H1 [H2 H3]], Hrest as [H4 [H5 H6]].
    split; [congruence|]. split; [lia|tauto].
Qed.

(** X7. Whatever the frame and the selection, a table [filter_data]
    returns has the columns of its input, label for label and dtype for
    dtype, no more rows than its input, and one value per row in every
    column when the input has. *)
Theorem filter_data_keeps_shape (h h' : Store) (l r : ref) (df : DataFrame)
  (dr : option (date_like * date_like)) (mo ye : option string) :
  nth_error h l = Some df ->
  filter_data l dr mo ye h = (Ok r, h') ->
  exists out,
    nth_error h' r = Some out
    /\ schema out = schema df
    /\ labels out = labels df
    /\ (nrows out <= nrows df)%nat
    /\ (rectangular df -> rectangular out).
Proof.
  intros Hl Hrun.
  destruct (filter_data_run h l df dr mo ye Hl) as [fresh [Hs Hv]].
  rewrite Hrun in Hs, Hv. simpl in Hs. subst h'.
  destruct (stages_value dr mo ye source_order df) as [out|e] eqn:Hval;
    simpl in Hv; [|contradiction].
  destruct Hv as [_ Hout]. apply stages_value_shape in Hval.
  destruct Hval as [Hschema [Hrows Hrect]].
  exists out. split; [assumption|]. split; [assumption|].
  split; [|tauto].
  unfold labels. unfold schema in Hschema.
  apply (f_equal (map fst)) in Hschema. now rewrite !map_map in Hschema.
Qed.

Lemma filter_data_keeps_shape_witness :
  exists out,
    nth_error
      (snd (filter_data 0%nat None (Some "March") None [Demo.sample])) 2
    = Some out
    /\ schema out = schema Demo.sample
    /\ labels out = labels Demo.sample
    /\ (nrows out <= nrows Demo.sample)%nat
    /\ (rectangular Demo.sample -> rectangular out).
Proof.
  exact (filter_data_keeps_shape [Demo.sample] _ 0%nat 2%nat Demo.sample
           None (Some "March") None eq_refl eq_refl).
Defined.

(** ** The selectors and [filter_data] *)

Lemma normalized_date_column df :
  normalized df = true -> date_column df = Ok (DatetimeS (dates df)).
Proof.
  unfold normalized, dates.
  now destruct (date_column df) as [[v|v|v]|e].
Qed.

(** The month filter alone. *)
Lemma month_filter_rows h l df ms m :
  nth_error h l = Some df -> normalized df = true ->
  ms <> "" -> ms <> "All" -> strptime_B_month ms = Ok m ->
  exists r h' out,
    filter_data l None (Some ms) None h = (Ok r, h')
    /\ nth_error h' r = Some out
    /\ records out = filter (fun rc => month_is m (fst rc)) (records df).
Proof.
  intros Hl Hn H1 H2 Hm.
  assert (Htests : tests_of None (Some ms) None source_order
                   = Ok (Some (month_is m))).
  { unfold source_order. cbn [tests_of stage_test].
    rewrite (selected_some ms H1 H2), Hm. reflexivity. }
  destruct (filter_data_normalized h l df _ _ _ _ Hl Hn Htests)
    as [r [fresh [Hrun [_ Hout]]]].
  exists r, (h ++ fresh), (keep (Some (month_is m)) df).
  split; [assumption|]. split; [assumption|]. apply records_keep.
Qed.

(** The year filter alone. *)
Lemma year_filter_rows h l df ys y :
  nth_error h l = Some df -> normalized df = true ->
  ys <> "" -> ys <> "All" -> PyStr.int ys = Ok y ->
  exists r h' out,
    filter_data l None None (Some ys) h = (Ok r, h')
    /\ nth_error h' r = Some out
    /\ dates out = filter (year_is y) (dates df)
    /\ records out = filter (fun rc => year_is y (fst rc)) (records df).
Proof.
  intros Hl Hn H1 H2 Hy.
  assert (Htests : tests_of None None (Some ys) source_order
                   = Ok (Some (year_is y))).
  { unfold source_order. cbn [tests_of stage_test].
    rewrite (selected_some ys H1 H2), Hy. reflexivity. }
  destruct (filter_data_normalized h l df _ _ _ _ Hl Hn Htests)
    as [r [fresh [Hrun [_ Hout]]]].
  exists r, (h ++ fresh), (keep (Some (year_is y)) df).
  split; [assumption|]. split; [assumption|].
  split; [apply dates_keep|apply records_keep].
Qed.

(** X8. Every month the selector offers is read by [filter_data]: the
    entry at position [k], counted from one after ["All"], is the name
    of month [k], and selecting it returns the rows of that month, of
    any year. *)
Theorem month_options_accepted (h : Store) (l : ref) (df : DataFrame)
  (k : nat) (name : string) :
  nth_error h l = Some df ->
  normalized df = true ->
  nth_error month_options (S k) = Some name ->
  strptime_B_month name = Ok (Z.of_nat (S k))
  /\ exists r h' out,
       filter_data l None (Some name) None h = (Ok r, h')
       /\ nth_error h' r = Some out
       /\ records out
          = filter (fun rc => month_is (Z.of_nat (S k)) (fst rc))
              (records df).
Proof.
  intros Hl Hn Hk.
  assert (Hname : name <> "" /\ name <> "All"
                  /\ strptime_B_month name = Ok (Z.of_nat (S k))).
  { do 12 (destruct k as [|k];
           [injection Hk as <-; repeat split; discriminate|]).
    destruct k; discriminate. }
  destruct Hname as [H1 [H2 Hm]].
  split; [assumption|]. now apply month_filter_rows.
Qed.

Lemma month_options_accepted_witness :
  strptime_B_month "September" = Ok (Z.of_nat 9)
  /\ exists r h' out,
       filter_data 0%nat None (Some "September") None [Demo.sample]
       = (Ok r, h')
       /\ nth_error h' r = Some out
       /\ records out
          = filter (fun rc => month_is (Z.of_nat 9) (fst rc))
              (records Demo.sample).
Proof.
  exact (month_options_accepted [Demo.sample] 0%nat Demo.sample 8
           "September" eq_refl eq_refl eq_refl).
Defined.

(** *** The years on offer *)

Lemma year_eqb_spec a b : year_eqb a b = true <-> a = b.
Proof.
  destruct a as [x|], b as [y|]; simpl; try (split; congruence).
  rewrite Z.eqb_eq. split; congruence.
Qed.

Lemma unique_In {A} (eqb : A -> A -> bool) (l : list A) x :
  (forall a b, eqb a b = true <-> a = b) ->
  In x (unique eqb l) <-> In x l.
Proof.
  intros Hspec. induction l as [|a l IH]; simpl; [tauto|].
  rewrite filter_In, IH, negb_true_iff. split.
  - tauto.
  - intros [->|Hin]; [now left|].
    destruct (eqb a x) eqn:Hax.
    + left. now apply Hspec.
    + right. tauto.
Qed.

Lemma has_nan_In ys : has_nan ys = true <-> In None ys.
Proof.
  unfold has_nan. rewrite existsb_exists. split.
  - intros [[y|] [Hin H]]; [discriminate|assumption].
  - intros Hin. now exists None.
Qed.

Lemma dt_year_In d y :
  In y (dt_year d) <->
  match y with
  | Some z => exists t, In (Some t) d /\ year t = z
  | None => In None d
  end.
Proof.
  unfold dt_year. rewrite in_map_iff. split.
  - intros [[t|] [Heq Hin]]; simpl in Heq; subst y; [|assumption].
    now exists t.
  - destruct y as [z|].
    + intros [t [Hin <-]]. now exists (Some t).
    + intros Hin. now exists None.
Qed.

Lemma has_nan_dates d :
  has_nan (unique year_eqb (dt_year d)) = true <-> In None d.
Proof.
  rewrite has_nan_In, (unique_In _ _ _ year_eqb_spec).
  apply (dt_year_In d None).
Qed.

(** The entries of the year selector: ["All"], then one text for each
    distinct year of the date column. *)
Lemma year_options_In df opts s :
  normalized df = true ->
  year_options df = Ok opts ->
  In s opts <->
  s = "All"
  \/ exists y, In y (dt_year (dates df))
               /\ s = year_text
                        (has_nan (unique year_eqb (dt_year (dates df)))) y.
Proof.
  intros Hn. unfold year_options.
  rewrite (normalized_date_column df Hn). cbn [rbind dt].
  intros [= <-]. cbn [In]. unfold sorted_reverse.
  assert (Hperm : forall l : list string,
             In s (sort_by (fun a b => String.leb b a) l) <-> In s l).
  { intros l. split; apply Permutation_in;
      [|apply Permutation_sym]; apply sort_by_perm. }
  rewrite Hperm, in_map_iff. split.
  - intros [H|[y [Hs Hin]]].
    + left. now symmetry.
    + right. exists y. split; [|now symmetry].
      now apply (unique_In year_eqb (dt_year (dates df)) y year_eqb_spec).
  - intros [H|[y [Hin Hs]]].
    + left. now symmetry.
    + right. exists y. split; [now symmetry|].
      now apply (unique_In year_eqb (dt_year (dates df)) y year_eqb_spec).
Qed.

(** X9. On a table where every row has a date, and the years have no
    more digits than [int] accepts (those of a [Timestamp] have four),
    each entry of the year selector but ["All"] is the decimal text of a
    year of the table: [filter_data] reads it back as that year and
    returns the rows of that year, at least one. Every year of the table
    is on offer. *)
Theorem year_options_accepted (h : Store) (l : ref) (df : DataFrame)
  (opts : list string) :
  nth_error h l = Some df ->
  normalized df = true ->
  ~ In None (dates df) ->
  (forall t, In (Some t) (dates df) ->
             Z.abs (year t) < 10 ^ PyStr.int_max_str_digits) ->
  year_options df = Ok opts ->
  (forall t, In (Some t) (dates df) -> In (str_of_int (year t)) opts)
  /\ forall s, In s opts -> s <> "All" ->
       exists y,
         s = str_of_int y
         /\ PyStr.int s = Ok y
         /\ (exists t, In (Some t) (dates df) /\ year t = y)
         /\ exists r h' out,
              filter_data l None None (Some s) h = (Ok r, h')
              /\ nth_error h' r = Some out
              /\ dates out = filter (year_is y) (dates df)
              /\ dates out <> []
              /\ records out
                 = filter (fun rc => year_is y (fst rc)) (records df).
Proof.
  intros Hl Hn Hfull Hsmall Hopts.
  assert (Hint : has_nan (unique year_eqb (dt_year (dates df))) = false).
  { destruct (has_nan _) eqn:H; [|reflexivity].
    apply has_nan_dates in H. contradiction. }
  split.
  - intros t Ht. apply (year_options_In df opts _ Hn Hopts). right.
    exists (Some (year t)). rewrite Hint. split; [|reflexivity].
    apply dt_year_In. now exists t.
  - intros s Hs Hall.
    apply (year_options_In df opts _ Hn Hopts) in Hs.
    destruct Hs as [Hs|[y [Hy Hs]]]; [contradiction|].
    rewrite Hint in Hs. apply dt_year_In in Hy.
    destruct y as [z|]; [|contradiction].
    destruct Hy as [t [Ht Hz]]. simpl in Hs.
    assert (Hread : PyStr.int (str_of_int z) = Ok z).
    { apply int_str_of_int. rewrite <- Hz. now apply Hsmall. }
    rewrite <- Hs in Hread.
    assert (Hne : s <> "") by (intros ->; discriminate Hread).
    exists z. split; [assumption|]. split; [assumption|].
    split; [now exists t|].
    destruct (year_filter_rows h l df s z Hl Hn Hne Hall Hread)
      as [r [h' [out [Hrun [Hout [Hdates Hrec]]]]]].
    exists r, h', out. repeat (split; [assumption|]).
    split; [|assumption].
    assert (Hin : In (Some t) (dates out)).
    { rewrite Hdates. apply filter_In. split; [assumption|].
      simpl. now apply Z.eqb_eq. }
    intros Hnil. rewrite Hnil in Hin. contradiction.
Qed.

Lemma year_options_accepted_witness :
  (forall t, In (Some t) (dates Demo.sample) ->
             In (str_of_int (year t)) ["All"; "2023"; "2022"])
  /\ forall s, In s ["All"; "2023"; "2022"] -> s <> "All" ->
       exists y,
         s = str_of_int y
         /\ PyStr.int s = Ok y
         /\ (exists t, In (Some t) (dates Demo.sample) /\ year t = y)
         /\ exists r h' out,
              filter_data 0%nat None None (Some s) [Demo.sample]
              = (Ok r, h')
              /\ nth_error h' r = Some out
              /\ dates out = filter (year_is y) (dates Demo.sample)
              /\ dates out <> []
              /\ records out
                 = filter (fun rc => year_is y (fst rc))
                     (records Demo.sample).
Proof.
  apply (year_options_accepted [Demo.sample] 0%nat Demo.sample
           ["All"; "2023"; "2022"] eq_refl eq_refl); [| |reflexivity].
  - simpl. intuition discriminate.
  - intros t Ht. simpl in Ht.
    destruct Ht as [[= <-]|[[= <-]|[[= <-]|[[= <-]|[]]]]];
      vm_compute; reflexivity.
Defined.

(** X10. As soon as one row of the table has no date, the years are
    floats and the selector offers them as such ([2023.0], [nan]): no
    entry but ["All"] reads as an integer, and selecting one makes
    [filter_data] raise [ValueError], whatever the range and the
    month. *)
Theorem year_options_rejected (h : Store) (l : ref) (df : DataFrame)
  (opts : list string) (s : string) :
  nth_error h l = Some df ->
  normalized df = true ->
  In None (dates df) ->
  year_options df = Ok opts ->
  In s opts -> s <> "All" ->
  PyStr.int s = Raise ValueError
  /\ forall dr mo,
       exists fresh,
         filter_data l dr mo (Some s) h = (Raise ValueError, h ++ fresh).
Proof.
  intros Hl Hn Hnat Hopts Hs Hall.
  apply (year_options_In df opts _ Hn Hopts) in Hs.
  destruct Hs as [Hs|[y [_ Hs]]]; [contradiction|].
  rewrite (proj2 (has_nan_dates (dates df)) Hnat) in Hs.
  assert (Hread : PyStr.int s = Raise ValueError /\ s <> "").
  { destruct y as [z|]; simpl in Hs; subst s.
    - split.
      + apply int_float_text.
      + destruct (str_of_int z); discriminate.
    - split; [reflexivity|discriminate]. }
  destruct Hread as [Hread Hne]. split; [assumption|].
  intros dr mo.
  assert (Htests : exists e, tests_of dr mo (Some s) source_order = Raise e).
  { unfold source_order. cbn [tests_of stage_test].
    rewrite (selected_some s Hne Hall), Hread.
    destruct dr as [[a b]|];
      (destruct (selected mo) as [ms|];
       [destruct (strptime_B_month ms)|]);
      cbn [rbind]; eexists; reflexivity. }
  destruct Htests as [e Htests].
  rewrite (tests_of_raises _ _ _ _ _ Htests) in Htests.
  rewrite filter_data_source_order.
  now apply (filter_data_in_order_raises source_order h l df).
Qed.

Lemma year_options_rejected_witness :
  PyStr.int "2023.0" = Raise ValueError
  /\ forall dr mo,
       exists fresh,
         filter_data 0%nat dr mo (Some "2023.0")
           [DemoExtra.with_missing_date]
         = (Raise ValueError, [DemoExtra.with_missing_date] ++ fresh).
Proof.
  apply (year_options_rejected [DemoExtra.with_missing_date] 0%nat
           DemoExtra.with_missing_date ["All"; "nan"; "2023.0"; "2022.0"]
           "2023.0" eq_refl eq_refl).
  - simpl. tauto.
  - reflexivity.
  - simpl. tauto.
  - discriminate.
Defined.

(** ** More on [load_and_process_data] *)

Lemma take_rows_shape idx df :
  rectangular df ->
  Permutation idx (seq 0 (nrows df)) ->
  nrows (take_rows idx df) = nrows df /\ rectangular (take_rows idx df).
Proof.
  intros Hrect Hperm.
  assert (Hn : nrows (take_rows idx df) = nrows df).
  { unfold nrows, take_rows; simpl. now apply take_length. }
  split; [assumption|].
  unfold rectangular in *. rewrite Hn. unfold take_rows; simpl.
  rewrite Forall_map. eapply Forall_impl; [|exact Hrect].
  intros [n s] Hlen; simpl in *.
  destruct s as [v|v|v]; simpl in *; rewrite take_length; try assumption;
    now rewrite Hlen.
Qed.

Lemma reset_index_shape df :
  nrows (reset_index df) = nrows df
  /\ (rectangular df -> rectangular (reset_index df)).
Proof.
  assert (Hn : nrows (reset_index df) = nrows df).
  { unfold nrows, reset_index; simpl. now rewrite length_map, length_seq. }
  split; [assumption|]. unfold rectangular. now rewrite Hn.
Qed.

Lemma normalize_date_source {platform : Platform} df df2 :
  normalize_date df = Ok df2 ->
  exists src d c,
    date_source_column df = Ok src
    /\ to_datetime src = Ok d
    /\ updated "date" (DatetimeS d) c df df2
    /\ (forall c', c = Some c' -> PyStr.lower c' = "date").
Proof.
  unfold normalize_date, date_source_column.
  destruct (labels_like "date" df) as [|c rest] eqn:Hlike.
  - destruct (iloc_first df) as [src|e]; cbn [rbind]; [|discriminate].
    destruct (to_datetime src) as [d|e] eqn:Hd; cbn [rbind]; [|discriminate].
    intros Hset. exists src, d, None.
    repeat split; try assumption; [now exists df2|discriminate].
  - apply labels_like_head in Hlike. destruct Hlike as [_ Hlow].
    destruct (getitem df c) as [[src|l]|e]; cbn [rbind]; try discriminate.
    destruct (to_datetime src) as [d|e] eqn:Hd; cbn [rbind]; [|discriminate].
    destruct (setitem df "date" (DatetimeS d)) as [dfa|e] eqn:Hset;
      cbn [rbind]; [|discriminate].
    destruct (c =? "date")%string eqn:Hc; cbn [negb].
    + intros [= <-]. exists src, d, None.
      repeat split; try assumption; [now exists dfa|discriminate].
    + intros Hdrop. apply String.eqb_neq in Hc. exists src, d, (Some c).
      repeat split; try assumption; [exists dfa; tauto|now intros c' [= <-]].
Qed.

Lemma normalize_date_raises {platform : Platform} df src e :
  date_source_column df = Ok src ->
  to_datetime src = Raise e ->
  normalize_date df = Raise e.
Proof.
  unfold normalize_date, date_source_column.
  destruct (labels_like "date" df) as [|c rest].
  - intros -> Hd. cbn [rbind]. now rewrite Hd.
  - destruct (getitem df c) as [[s|l]|e']; try discriminate.
    intros [= ->] Hd. cbn [rbind]. now rewrite Hd.
Qed.

Lemma normalize_price_shape {platform : Platform} df df3 :
  normalize_price df = Ok df3 ->
  nrows df3 = nrows df /\ (rectangular df -> rectangular df3).
Proof.
  intros Hp. apply normalize_price_updated in Hp.
  destruct Hp as [[_ ->]|[c [rest [src [copt [_ [_ [Hstep _]]]]]]]];
    [tauto|].
  split; [apply (updated_nrows _ _ _ _ _ Hstep)|].
  apply (updated_rectangular _ _ _ _ _ Hstep).
Qed.

(** A column that is neither a date nor a price source goes through
    the price step. *)
Lemma normalize_price_keeps_other {platform : Platform} df df3 n :
  normalize_price df = Ok df3 ->
  PyStr.lower n <> "price" ->
  columns_named n df3 = columns_named n df.
Proof.
  intros Hp Hn. apply normalize_price_updated in Hp.
  destruct Hp as [[_ ->]|[c [rest [src [copt [Hlike [_ [Hstep Hc]]]]]]]];
    [reflexivity|].
  apply labels_like_head in Hlike. destruct Hlike as [_ Hlow].
  apply (updated_named_other _ _ _ _ _ Hstep).
  - intros ->. now apply Hn.
  - intros ->. specialize (Hc _ eq_refl). subst c. contradiction.
Qed.

(** The whole of a load that succeeds. *)
Lemma process_steps {platform : Platform} raw out :
  process raw = Ok out ->
  exists df2 df3 src d c,
    date_source_column (strip_labels raw) = Ok src
    /\ to_datetime src = Ok d
    /\ updated "date" (DatetimeS d) c (strip_labels raw) df2
    /\ (forall c', c = Some c' -> PyStr.lower c' = "date")
    /\ normalize_price df2 = Ok df3
    /\ columns_named "date" df3 = [DatetimeS d]
    /\ length d = nrows raw
    /\ out = reset_index (take_rows (nargsort ts_leb d) df3).
Proof.
  intros Hp. apply process_inv in Hp.
  destruct Hp as [df2 [df3 [s [Hdate [Hprice [Hs ->]]]]]].
  destruct (normalize_date_source _ _ Hdate)
    as [src [d [c [Hsrc [Hd [Hstep Hlow]]]]]].
  destruct (updated_named_same _ _ _ _ _ Hstep) as [_ Hall].
  pose proof (updated_len _ _ _ _ _ Hstep) as Hlen.
  destruct (normalize_price_keeps_date _ _ Hprice) as [Hcols _].
  rewrite <- Hcols, Hs in Hall. inversion Hall as [|? ? Heq _]; subst.
  exists df2, df3, src, d, c.
  repeat split; try assumption; exact Hlen.
Qed.

(** X11. The loader raises nothing: it returns a table exactly when the
    path is not empty, the file exists, it is read and the body of the
    [try] goes through; in every other case it returns [None]. *)
Theorem load_returns_table_or_none {platform : Platform} (path : string) :
  (load_and_process_data path = Ok None
   \/ exists out, load_and_process_data path = Ok (Some out))
  /\ forall out,
       load_and_process_data path = Ok (Some out) <->
       PyStr.truthy path = true /\ path_exists path = true
       /\ exists raw, read_csv path = Ok raw /\ process raw = Ok out.
Proof.
  split.
  - destruct (load_and_process_data_returns path) as [[out|] H];
      [right; now exists out|now left].
  - intros out. split; [apply load_inv|].
    intros [Ht [He [raw [Hr Hp]]]]. now apply (load_ok path raw).
Qed.

(** X12. A file whose dates cannot be read is not loaded at all: when
    [to_datetime] raises on the date source, the loader returns
    [None]. *)
Theorem unreadable_dates_give_none {platform : Platform} (path : string)
  (raw : DataFrame) (src : Series) (e : exn) :
  read_csv path = Ok raw ->
  date_source_column (strip_labels raw) = Ok src ->
  to_datetime src = Raise e ->
  load_and_process_data path = Ok None.
Proof.
  intros Hread Hsrc Hd. unfold load_and_process_data.
  destruct (PyStr.truthy path && path_exists path); [|reflexivity].
  rewrite Hread. cbn [rbind]. unfold process.
  now rewrite (normalize_date_raises _ _ _ Hsrc Hd).
Qed.

Lemma unreadable_dates_give_none_witness :
  @load_and_process_data DemoExtra.platform "LME_Lead.csv" = Ok None.
Proof.
  exact (@unreadable_dates_give_none DemoExtra.platform "LME_Lead.csv"
           DemoExtra.lead_csv
           (ObjectS [Some "02/01/2023"; Some "soon"]) ValueError
           eq_refl eq_refl eq_refl).
Defined.

(** X13. The table loaded from a file with one value per row in every
    column has the rows of the file, as many, one value per row in every
    column, and the row labels 0, 1, 2, ... *)
Theorem loaded_table_shape {platform : Platform} (path : string)
  (out : DataFrame) :
  load_and_process_data path = Ok (Some out) ->
  exists raw,
    read_csv path = Ok raw
    /\ index out = map Z.of_nat (seq 0 (nrows out))
    /\ (rectangular raw -> nrows out = nrows raw /\ rectangular out).
Proof.
  intros Hload. apply load_inv in Hload.
  destruct Hload as [_ [_ [raw [Hread Hp]]]].
  exists raw. split; [assumption|].
  apply process_steps in Hp.
  destruct Hp
    as [df2 [df3 [src [d [c [_ [_ [Hstep [_ [Hprice [_ [Hlen ->]]]]]]]]]]]].
  split.
  - unfold reset_index at 1. simpl.
    now rewrite (proj1 (reset_index_shape _)).
  - intros Hrect.
    pose proof (strip_labels_rectangular raw Hrect) as Hrect1.
    pose proof (updated_rectangular _ _ _ _ _ Hstep Hrect1) as Hrect2.
    pose proof (updated_nrows _ _ _ _ _ Hstep) as Hn2.
    destruct (normalize_price_shape _ _ Hprice) as [Hn3 Hrect3].
    specialize (Hrect3 Hrect2).
    assert (Hn : nrows df3 = nrows raw).
    { rewrite Hn3, Hn2. reflexivity. }
    destruct (take_rows_shape (nargsort ts_leb d) df3 Hrect3)
      as [Hn4 Hrect4].
    { rewrite Hn, <- Hlen. apply nargsort_perm. }
    destruct (reset_index_shape (take_rows (nargsort ts_leb d) df3))
      as [Hn5 Hrect5].
    split; [now rewrite Hn5, Hn4|now apply Hrect5].
Qed.

Lemma loaded_table_shape_witness :
  exists out raw,
    @load_and_process_data Demo.platform "LME_Copper.csv" = Ok (Some out)
    /\ @read_csv Demo.platform "LME_Copper.csv" = Ok raw
    /\ index out = map Z.of_nat (seq 0 (nrows out))
    /\ (rectangular raw -> nrows out = nrows raw /\ rectangular out).
Proof.
  eexists.
  destruct (@loaded_table_shape Demo.platform "LME_Copper.csv" _ eq_refl)
    as [raw H].
  exists raw. split; [reflexivity|exact H].
Defined.

(** X14. The columns the loader does not read go through: a column
    whose header reads neither as date nor as price is in the table
    under its stripped header, its values moved by the permutation that
    sorts the dates. *)
Theorem passthrough_columns_kept {platform : Platform} (path : string)
  (out : DataFrame) :
  load_and_process_data path = Ok (Some out) ->
  exists raw src d idx,
    read_csv path = Ok raw
    /\ date_source_column (strip_labels raw) = Ok src
    /\ to_datetime src = Ok d
    /\ Permutation idx (seq 0 (length d))
    /\ dates out = take idx d
    /\ forall n,
         PyStr.lower n <> "date" -> PyStr.lower n <> "price" ->
         columns_named n out
         = map (take_series idx) (columns_named n (strip_labels raw)).
Proof.
  intros Hload. apply load_inv in Hload.
  destruct Hload as [_ [_ [raw [Hread Hp]]]].
  apply process_steps in Hp.
  destruct Hp
    as [df2 [df3 [src [d [c [Hsrc [Hd [Hstep [Hlow [Hprice
         [Hdate [Hlen ->]]]]]]]]]]]].
  exists raw, src, d, (nargsort ts_leb d).
  split; [assumption|]. split; [assumption|]. split; [assumption|].
  split; [apply nargsort_perm|]. split.
  - unfold dates.
    rewrite (date_column_single _ (DatetimeS (take (nargsort ts_leb d) d)));
      [reflexivity|].
    now rewrite columns_named_reset_index, columns_named_take_rows, Hdate.
  - intros n Hnd Hnp.
    rewrite columns_named_reset_index, columns_named_take_rows.
    f_equal. rewrite (normalize_price_keeps_other _ _ n Hprice Hnp).
    apply (updated_named_other _ _ _ _ _ Hstep).
    + intros ->. now apply Hnd.
    + intros ->. now apply Hnd, Hlow.
Qed.

Lemma passthrough_columns_kept_witness :
  exists out raw src d idx,
    @load_and_process_data Demo.platform "LME_Copper.csv" = Ok (Some out)
    /\ @read_csv Demo.platform "LME_Copper.csv" = Ok raw
    /\ @date_source_column (strip_labels raw) = Ok src
    /\ @to_datetime Demo.platform src = Ok d
    /\ Permutation idx (seq 0 (length d))
    /\ dates out = take idx d
    /\ forall n,
         PyStr.lower n <> "date" -> PyStr.lower n <> "price" ->
         columns_named n out
         = map (take_series idx) (columns_named n (strip_labels raw)).
Proof.
  eexists.
  destruct (@passthrough_columns_kept Demo.platform "LME_Copper.csv" _
              eq_refl) as [raw [src [d [idx H]]]].
  exists raw, src, d, idx. split; [reflexivity|exact H].
Defined.

(** The [Volume] column of the sample file, carried along with the
    dates. *)
Example passthrough_volume_sample :
  option_map (columns_named "Volume")
    match @load_and_process_data Demo.platform "LME_Copper.csv" with
    | Ok r => r
    | Raise _ => None
    end
  = Some [NumericS [Some 3%Q; Some 5%Q; Some 6%Q; Some 7%Q; Some 8%Q;
                    Some 9%Q; Some 10%Q; Some 2%Q; Some 1%Q; Some 4%Q]].
Proof. reflexivity. Qed.
